(** * Loan-Management: amortization engine

    A shallow embedding of the payment and schedule code of
    [src/loan_app.py] (class [LoanAnalyzer], and the break-even panel of
    [main]) and of [src/loan_manager.py] (class [LoanScenarioAnalyzer]),
    followed by the properties the specification states about them.

    Numbers.  The Python code computes on [int] and [float] values.  The
    first embedding uses exact rational arithmetic ([Q], compared with
    [==]): its statements are about the arithmetic the formulas denote,
    without the rounding and the overflow of doubles.  Division is
    fallible as in Python
    ([ZeroDivisionError]); [int()] truncates toward zero; [**] is
    repeated multiplication on whole exponents, and its value on a
    fractional exponent (which no rational can hold in general) is a
    parameter [fpow] of the development.  Where a statement compares
    balances for equality the rounding decides it, and the payment and
    schedule code is embedded a second time on binary64 numbers
    ([Py64], [LoanApp64], [LoanManager64]). *)

From Stdlib Require Import Floats.
From Stdlib Require Import ZArith QArith Qround Qpower Qabs.
From Stdlib Require Import List String Ascii DecimalString Bool Lia Lqa.
Import ListNotations.

Open Scope Q_scope.

(** ** Exceptions and results *)

Inductive error : Set :=
| ZeroDivisionError
| ValueError
| OverflowError.

Inductive result (A : Type) : Type :=
| Ok (a : A)
| Err (e : error).

Arguments Ok {A} a.
Arguments Err {A} e.

Definition bind {A B : Type} (c : result A) (k : A -> result B) : result B :=
  match c with
  | Ok a => k a
  | Err e => Err e
  end.

Notation "x <- c ;; k" := (bind c (fun x => k))
  (at level 61, c at next level, right associativity).

Definition is_ok {A : Type} (c : result A) : bool :=
  match c with Ok _ => true | Err _ => false end.

(** [returns c P]: the call returned normally with a value satisfying [P]. *)
Definition returns {A : Type} (c : result A) (P : A -> Prop) : Prop :=
  match c with Ok a => P a | Err _ => False end.

(** [raises c e]: the call raised [e]; no value reached the caller. *)
Definition raises {A : Type} (c : result A) (e : error) : Prop :=
  match c with Ok _ => False | Err e' => e' = e end.

(** ** Python built-ins used by the code *)

Module Py.

(** [a / b] *)
Definition truediv (a b : Q) : result Q :=
  if Qeq_bool b 0 then Err ZeroDivisionError else Ok (a / b).

(** [int(q)]: truncation toward zero. *)
Definition int (q : Q) : Z := Z.quot (Qnum q) (Zpos (Qden q)).

(** [float.is_integer]. *)
Definition is_whole (q : Q) : bool := Pos.eqb (Qden (Qred q)) 1.

(** [b ** n] for a whole exponent. *)
Definition pow_int (b : Q) (n : Z) : result Q :=
  if Qeq_bool b 0 && (n <? 0)%Z then Err ZeroDivisionError else Ok (b ^ n).

(** [b ** e]; [fpow] gives the value on fractional exponents.  Python
    leaves the reals there for a negative base (the result is a
    [complex]) and raises for a zero base with a negative exponent; with
    a rate >= 0 the base [1 + monthly_rate] is at least 1. *)
Definition pow (fpow : Q -> Q -> Q) (b e : Q) : result Q :=
  if is_whole e then pow_int b (Qnum (Qred e)) else Ok (fpow b e).

(** [a > b] *)
Definition gt (a b : Q) : bool := negb (Qle_bool a b).

(** [max(0, b)]: the first argument unless the second is greater. *)
Definition max0 (b : Q) : Q := if gt b 0 then b else 0.

(** [range(lo, hi)] *)
Definition range (lo hi : Z) : list Z :=
  map (fun i => (lo + Z.of_nat i)%Z) (seq 0 (Z.to_nat (hi - lo))).

(** [math.ceil] *)
Definition ceil (q : Q) : Z := Qceiling q.

(** [round(q)]: to the nearest integer, ties to the even one. *)
Definition round (q : Q) : Z :=
  let f := Qfloor q in
  match Qcompare (q - inject_Z f) (1 # 2) with
  | Lt => f
  | Gt => (f + 1)%Z
  | Eq => if Z.even f then f else (f + 1)%Z
  end.

End Py.

(** ** [datetime], as far as the schedule uses it

    Only the calendar date is read ([strftime('%Y-%m-%d')], [.month],
    [.year], [replace(year=, month=)]); the time of day is carried along
    unchanged by the code and never printed, and is left out. *)

Module Datetime.

Record datetime : Set := mk { year : Z; month : Z; day : Z }.

Definition is_leap (y : Z) : bool :=
  ((y mod 4 =? 0) && (negb (y mod 100 =? 0) || (y mod 400 =? 0)))%Z.

Definition days_in_month (y m : Z) : Z :=
  if (m =? 2)%Z then (if is_leap y then 29 else 28)%Z
  else if ((m =? 4) || (m =? 6) || (m =? 9) || (m =? 11))%Z then 30%Z
  else 31%Z.

Definition valid (y m d : Z) : bool :=
  ((1 <=? y) && (y <=? 9999) && (1 <=? m) && (m <=? 12)
   && (1 <=? d) && (d <=? days_in_month y m))%Z.

(** [d.replace(year=y, month=m)]: [ValueError] when the result is not
    a date (day out of range for the month, year above 9999). *)
Definition replace (d : datetime) (y m : Z) : result datetime :=
  if valid y m (day d) then Ok (mk y m (day d)) else Err ValueError.

Definition digit (n : Z) : ascii := ascii_of_nat (48 + Z.to_nat (n mod 10)).

Definition pad2 (n : Z) : string :=
  String (digit (n / 10)) (String (digit n) EmptyString).

Definition pad4 (n : Z) : string :=
  String (digit (n / 1000)) (String (digit (n / 100)) (pad2 n)).

(** [d.strftime('%Y-%m-%d')], for years of four digits; how a year
    below 1000 is padded depends on the platform's C library. *)
Definition strftime (d : datetime) : string :=
  (pad4 (year d) ++ "-" ++ pad2 (month d) ++ "-" ++ pad2 (day d))%string.

End Datetime.

(** ** [loan_app.py]: class [LoanAnalyzer] *)

Module LoanApp.
Import Datetime.

Record LoanAnalyzer : Set := mkLoanAnalyzer {
  principal : Q;
  annual_rate : Q;
  years : Q;
  monthly_rate : Q;
  num_payments : Z
}.

(** [LoanAnalyzer.__init__] *)
Definition init (principal annual_rate years : Q) : LoanAnalyzer :=
  {| principal := principal;
     annual_rate := annual_rate;
     years := years;
     monthly_rate := annual_rate / 100 / 12;
     num_payments := Py.int (years * 12) |}.

Definition calculate_monthly_payment (self : LoanAnalyzer) : result Q :=
  if Qeq_bool (annual_rate self) 0 then
    Py.truediv (principal self) (inject_Z (num_payments self))
  else
    p1 <- Py.pow_int (1 + monthly_rate self) (num_payments self) ;;
    p2 <- Py.pow_int (1 + monthly_rate self) (num_payments self) ;;
    Py.truediv (principal self * (monthly_rate self * p1)) (p2 - 1).

(** One row of the schedule (a dict appended to [schedule]). *)
Record Row : Set := mkRow {
  Payment_Number : Z;
  Date : string;
  Beginning_Balance : Q;
  Monthly_Payment : Q;
  Principal_Payment : Q;
  Interest_Payment : Q;
  Ending_Balance : Q;
  Cumulative_Interest : Q
}.

(** "Move to next month" *)
Definition next_month (current_date : datetime) : result datetime :=
  if (month current_date =? 12)%Z then
    replace current_date (year current_date + 1) 1
  else
    replace current_date (year current_date) (month current_date + 1).

(** The [for payment_num in range(1, num_payments + 1)] loop, on the
    numbers still to visit.  A [ValueError] of the date step leaves the
    function before the [DataFrame] is built. *)
Fixpoint schedule_loop (self : LoanAnalyzer) (monthly_payment : Q)
    (todo : list Z) (balance cumulative_interest : Q)
    (current_date : datetime) : result (list Row) :=
  match todo with
  | [] => Ok []
  | payment_num :: todo' =>
      let interest_payment := balance * monthly_rate self in
      let principal_payment := monthly_payment - interest_payment in
      let balance := balance - principal_payment in
      let cumulative_interest := cumulative_interest + interest_payment in
      let row :=
        {| Payment_Number := payment_num;
           Date := strftime current_date;
           Beginning_Balance := balance + principal_payment;
           Monthly_Payment := monthly_payment;
           Principal_Payment := principal_payment;
           Interest_Payment := interest_payment;
           Ending_Balance := Py.max0 balance;
           Cumulative_Interest := cumulative_interest |} in
      current_date <- next_month current_date ;;
      if Qle_bool balance 0 then Ok [row]
      else
        rest <- schedule_loop self monthly_payment todo' balance
                  cumulative_interest current_date ;;
        Ok (row :: rest)
  end.

(** [create_amortization_schedule(self, start_date=None)]; [now] is
    what [datetime.now()] reads from the clock at the call. *)
Definition create_amortization_schedule (now : datetime)
    (self : LoanAnalyzer) (start_date : option datetime)
    : result (list Row) :=
  let start_date :=
    match start_date with None => now | Some d => d end in
  monthly_payment <- calculate_monthly_payment self ;;
  schedule_loop self monthly_payment
    (Py.range 1 (num_payments self + 1)) (principal self) 0 start_date.

(** The per-loan refinancing panel of [main] (lines 192-203 for the
    apartment, 220-231 for the investment property): what is shown
    below the two payments. *)
Inductive Panel : Set :=
| Savings_and_Breakeven (monthly_savings breakeven : Q)
| Monthly_Increase (amount : Q).

Definition refinance_panel (payment new_payment refi_costs : Q)
    : result Panel :=
  let savings := payment - new_payment in
  if Py.gt savings 0 then
    b <- Py.truediv refi_costs savings ;;
    Ok (Savings_and_Breakeven savings b)
  else Ok (Monthly_Increase (Qabs savings)).

End LoanApp.

(** ** [loan_manager.py]: class [LoanScenarioAnalyzer] *)

Module LoanManager.

Record LoanScenarioAnalyzer : Set := mkLoanScenarioAnalyzer {
  apartment_loan : Q;
  apartment_rate : Q;
  apartment_term : Q;
  investment_loan : Q;
  investment_rate : Q;
  investment_term : Q
}.

(** One row of the schedule. *)
Record Row : Set := mkRow {
  Payment : Z;
  Beginning_Balance : Q;
  Payment_Amount : Q;
  Principal : Q;
  Interest : Q;
  Ending_Balance : Q
}.

(** A scenario dict; a key that is absent is [None]. *)
Record Scenario : Set := mkScenario {
  apt_rate : option Q;
  inv_rate : option Q;
  apt_term : option Q;
  inv_term : option Q;
  refi_costs : option Q
}.

(** [scenario.get(key, default)] *)
Definition get (v : option Q) (default : Q) : Q :=
  match v with Some x => x | None => default end.

(** The ['Breakeven_Months'] cell: the string ['N/A'] or an [int]. *)
Inductive Breakeven : Set :=
| NA
| Months (m : Z).

(** One row of the result; [Scenario_Name] is the ['Scenario'] column. *)
Record ResultRow : Set := mkResultRow {
  Scenario_Name : string;
  Apt_Rate : Q;
  Inv_Rate : Q;
  Apt_Payment : Q;
  Inv_Payment : Q;
  Total_Payment : Q;
  Monthly_Savings : Q;
  Annual_Savings : Q;
  Refi_Costs : Q;
  Breakeven_Months : Breakeven
}.

Section WithPower.

(** The value of [b ** e] on a fractional exponent [e]. *)
Variable fpow : Q -> Q -> Q.

(** [calculate_monthly_payment(self, principal, annual_rate, years)];
    [self] is not read. *)
Definition calculate_monthly_payment (principal annual_rate years : Q)
    : result Q :=
  if Qeq_bool annual_rate 0 then Py.truediv principal (years * 12)
  else
    let monthly_rate := annual_rate / 100 / 12 in
    let num_payments := years * 12 in
    p1 <- Py.pow fpow (1 + monthly_rate) num_payments ;;
    p2 <- Py.pow fpow (1 + monthly_rate) num_payments ;;
    Py.truediv (principal * (monthly_rate * p1)) (p2 - 1).

(** [calculate_total_interest] *)
Definition calculate_total_interest (principal monthly_payment years : Q)
    : Q :=
  (monthly_payment * years * 12) - principal.

(** The [for month in range(int(years * 12))] loop. *)
Fixpoint schedule_loop (monthly_rate monthly_payment : Q)
    (todo : list Z) (balance : Q) : list Row :=
  match todo with
  | [] => []
  | month :: todo' =>
      let interest_payment := balance * monthly_rate in
      let principal_payment := monthly_payment - interest_payment in
      let balance := balance - principal_payment in
      let row :=
        {| Payment := (month + 1)%Z;
           Beginning_Balance := balance + principal_payment;
           Payment_Amount := monthly_payment;
           Principal := principal_payment;
           Interest := interest_payment;
           Ending_Balance := Py.max0 balance |} in
      if Qle_bool balance 0 then [row]
      else row :: schedule_loop monthly_rate monthly_payment todo' balance
  end.

(** [create_amortization_schedule(self, principal, annual_rate, years,
    start_month=1)]; neither [self] nor [start_month] is read. *)
Definition create_amortization_schedule
    (principal annual_rate years : Q) (start_month : Z)
    : result (list Row) :=
  let monthly_rate := annual_rate / 100 / 12 in
  monthly_payment <- calculate_monthly_payment principal annual_rate years ;;
  Ok (schedule_loop monthly_rate monthly_payment
        (Py.range 0 (Py.int (years * 12))) principal).

(** The body of [for i, scenario in enumerate(scenarios, 1)]. *)
Definition scenario_row (self : LoanScenarioAnalyzer) (current_total : Q)
    (i : nat) (scenario : Scenario) : result ResultRow :=
  let apt_rate := get (apt_rate scenario) (apartment_rate self) in
  let inv_rate := get (inv_rate scenario) (investment_rate self) in
  let apt_term := get (apt_term scenario) (apartment_term self) in
  let inv_term := get (inv_term scenario) (investment_term self) in
  let refi_costs := get (refi_costs scenario) 5000 in
  new_apt_payment <-
    calculate_monthly_payment (apartment_loan self) apt_rate apt_term ;;
  new_inv_payment <-
    calculate_monthly_payment (investment_loan self) inv_rate inv_term ;;
  let new_total := new_apt_payment + new_inv_payment in
  let monthly_savings := current_total - new_total in
  let annual_savings := monthly_savings * 12 in
  breakeven <-
    (if Py.gt monthly_savings 0 then
       q <- Py.truediv refi_costs monthly_savings ;;
       Ok (Months (Py.ceil q))
     else Ok NA) ;;
  Ok {| Scenario_Name :=
          ("Scenario " ++ NilEmpty.string_of_uint (Nat.to_uint i))%string;
        Apt_Rate := apt_rate;
        Inv_Rate := inv_rate;
        Apt_Payment := new_apt_payment;
        Inv_Payment := new_inv_payment;
        Total_Payment := new_total;
        Monthly_Savings := monthly_savings;
        Annual_Savings := annual_savings;
        Refi_Costs := refi_costs;
        Breakeven_Months := breakeven |}.

Fixpoint scenario_rows (self : LoanScenarioAnalyzer) (current_total : Q)
    (i : nat) (scenarios : list Scenario) : result (list ResultRow) :=
  match scenarios with
  | [] => Ok []
  | scenario :: rest =>
      row <- scenario_row self current_total i scenario ;;
      rows <- scenario_rows self current_total (S i) rest ;;
      Ok (row :: rows)
  end.

(** [scenario_analysis(self, scenarios)] *)
Definition scenario_analysis (self : LoanScenarioAnalyzer)
    (scenarios : list Scenario) : result (list ResultRow) :=
  current_apt_payment <-
    calculate_monthly_payment (apartment_loan self) (apartment_rate self)
      (apartment_term self) ;;
  current_inv_payment <-
    calculate_monthly_payment (investment_loan self) (investment_rate self)
      (investment_term self) ;;
  let current_total := current_apt_payment + current_inv_payment in
  let current :=
    {| Scenario_Name := "Current";
       Apt_Rate := apartment_rate self;
       Inv_Rate := investment_rate self;
       Apt_Payment := current_apt_payment;
       Inv_Payment := current_inv_payment;
       Total_Payment := current_total;
       Monthly_Savings := 0;
       Annual_Savings := 0;
       Refi_Costs := 0;
       Breakeven_Months := NA |} in
  rows <- scenario_rows self current_total 1 scenarios ;;
  Ok (current :: rows).

End WithPower.

End LoanManager.

(** ** The specification's formulas *)

Module Spec.

(** [principal × r × (1+r)^n / ((1+r)^n − 1)] *)
Definition annuity (principal r : Q) (n : Z) : Q :=
  principal * r * (1 + r) ^ n / ((1 + r) ^ n - 1).

(** [r = annual_rate / 100 / 12] *)
Definition periodic_rate (annual_rate : Q) : Q := annual_rate / 100 / 12.

(** [total_periods = round(term_years × 12)] *)
Definition total_periods (term_years : Q) : Z := Py.round (term_years * 12).

(** The inputs the specification calls valid. *)
Definition valid_terms (principal annual_rate term_years : Q) : Prop :=
  0 < principal /\ 0 <= annual_rate /\ 0 < term_years.

End Spec.

(** ** The amortization loop

    Both [create_amortization_schedule] loops run the same recurrence on
    the balance; [Core.amortize] is that recurrence alone, on the four
    balance columns of a row.  Each loop is shown below to produce
    exactly these columns, and the loop facts are proved once, here. *)

Module Core.

Record Step : Set := mkStep {
  beginning : Q;
  principal_part : Q;
  interest_part : Q;
  ending : Q
}.

Fixpoint amortize (r payment : Q) (k : nat) (balance : Q) : list Step :=
  match k with
  | O => []
  | S k' =>
      let i := balance * r in
      let p := payment - i in
      let b := balance - p in
      let st := mkStep (b + p) p i (Py.max0 b) in
      if Qle_bool b 0 then [st] else st :: amortize r payment k' b
  end.

(** The running balance after [k] periods without the early exit. *)
Fixpoint balance_after (r payment : Q) (k : nat) (balance : Q) : Q :=
  match k with
  | O => balance
  | S k' => balance_after r payment k' (balance - (payment - balance * r))
  end.

(** Each step begins where the one before it ended. *)
Fixpoint chained (previous : Q) (steps : list Step) : Prop :=
  match steps with
  | [] => True
  | st :: rest => beginning st == previous /\ chained (ending st) rest
  end.

End Core.

(** The balance columns of a row of either schedule. *)

Definition app_step (row : LoanApp.Row) : Core.Step :=
  Core.mkStep (LoanApp.Beginning_Balance row) (LoanApp.Principal_Payment row)
    (LoanApp.Interest_Payment row) (LoanApp.Ending_Balance row).

Definition manager_step (row : LoanManager.Row) : Core.Step :=
  Core.mkStep (LoanManager.Beginning_Balance row) (LoanManager.Principal row)
    (LoanManager.Interest row) (LoanManager.Ending_Balance row).

(** The first row begins at [principal]; every later row begins where
    the row before it ended. *)
Definition balances_carry {Row : Type} (beginning ending : Row -> Q)
    (principal : Q) (rows : list Row) : Prop :=
  (forall first, nth_error rows 0 = Some first -> beginning first == principal)
  /\ (forall i prev next,
        nth_error rows i = Some prev -> nth_error rows (S i) = Some next ->
        beginning next == ending prev).

(** [final] is the last row of [rows]. *)
Definition final_row {Row : Type} (rows : list Row) (final : Row) : Prop :=
  exists front, rows = front ++ [final].

(** A row of [LoanAnalyzer]'s schedule without its date label. *)
Definition undated (row : LoanApp.Row) : LoanApp.Row :=
  LoanApp.mkRow (LoanApp.Payment_Number row) EmptyString
    (LoanApp.Beginning_Balance row) (LoanApp.Monthly_Payment row)
    (LoanApp.Principal_Payment row) (LoanApp.Interest_Payment row)
    (LoanApp.Ending_Balance row) (LoanApp.Cumulative_Interest row).

(** A start date from which [n] month steps stay in the calendar: the day
    exists in every month and the year does not pass 9999. *)
Definition steps_stay_valid (d : Datetime.datetime) (n : nat) : Prop :=
  (1 <= Datetime.year d)%Z
  /\ (Datetime.year d + Z.of_nat n <= 9999)%Z
  /\ (1 <= Datetime.month d <= 12)%Z
  /\ (1 <= Datetime.day d <= 28)%Z.

(** ** [loan_app.py]: the tabs of [main]

    The numbers [main] computes between its widgets; the widgets'
    values are the arguments, a checkbox that is off is [None]. *)

Module Dashboard.

(** Tab "Dashboard", lines 160-174: the four metrics before formatting. *)
Record Overview : Set := mkOverview {
  total_principal : Q;
  total_payment : Q;
  weighted_rate : Q;
  total_interest : Q
}.

Definition portfolio_overview
    (apt_principal apt_rate apt_term inv_principal inv_rate inv_term : Q)
    : result Overview :=
  apt_payment <-
    LoanApp.calculate_monthly_payment
      (LoanApp.init apt_principal apt_rate apt_term) ;;
  inv_payment <-
    LoanApp.calculate_monthly_payment
      (LoanApp.init inv_principal inv_rate inv_term) ;;
  let total_payment := apt_payment + inv_payment in
  let total_principal := apt_principal + inv_principal in
  weighted_rate <-
    Py.truediv (apt_principal * apt_rate + inv_principal * inv_rate)
      total_principal ;;
  let total_interest :=
    (apt_payment * apt_term * 12 - apt_principal)
    + (inv_payment * inv_term * 12 - inv_principal) in
  Ok (mkOverview total_principal total_payment weighted_rate total_interest).

(** Tab "Refinancing": the inputs shown when a loan's checkbox is on. *)
Record Refi : Set := mkRefi {
  new_rate : Q;
  new_term : Q;
  refi_costs : Q
}.

(** What one column of the tab leaves behind for the combined results
    (lines 186-207 and 214-235). *)
Record Outcome : Set := mkOutcome {
  new_payment : Q;
  savings : Q;
  costs : Q
}.

Definition refinance_loan (principal payment : Q) (refi : option Refi)
    : result Outcome :=
  match refi with
  | Some r =>
      new_payment <-
        LoanApp.calculate_monthly_payment
          (LoanApp.init principal (new_rate r) (new_term r)) ;;
      Ok (mkOutcome new_payment (payment - new_payment) (refi_costs r))
  | None => Ok (mkOutcome payment 0 0)
  end.

(** The "Combined Break-even" metric: a number of months or "N/A". *)
Inductive Metric : Set :=
| Months (m : Q)
| NA.

Record Combined : Set := mkCombined {
  total_new_payment : Q;
  total_savings : Q;
  total_refi_costs : Q;
  combined_breakeven : Metric
}.

(** "Combined Portfolio Results", lines 237-258. *)
Definition combined_results (apt inv : Outcome) : result Combined :=
  let total_new_payment := new_payment apt + new_payment inv in
  let total_savings := savings apt + savings inv in
  let total_refi_costs := costs apt + costs inv in
  breakeven <-
    (if Py.gt total_savings 0 && Py.gt total_refi_costs 0 then
       q <- Py.truediv total_refi_costs total_savings ;;
       Ok (Months q)
     else Ok NA) ;;
  Ok (mkCombined total_new_payment total_savings total_refi_costs breakeven).

(** Tab "Schedules", line 342: the rows of the year-end summaries,
    [schedule_df[schedule_df['Payment_Number'] % 12 == 0].head(10)].  A
    frame built from no rows has no columns, and the column lookup fails
    (KeyError): [None]. *)
Definition yearly_data (schedule_df : list LoanApp.Row)
    : option (list LoanApp.Row) :=
  match schedule_df with
  | [] => None
  | _ =>
      Some (firstn 10
              (filter (fun row => (LoanApp.Payment_Number row mod 12 =? 0)%Z)
                 schedule_df))
  end.

End Dashboard.

(** ** [loan_manager.py]: the investment sheet of the workbook

    [_create_amortization_schedules], lines 658-684: which rows of the
    schedule are written, and to which sheet rows. *)

Module Workbook.

(** [df.iterrows()]: each row with its index, from 0. *)
Definition iterrows {A : Type} (df : list A) : list (Z * A) :=
  combine (Py.range 0 (Z.of_nat (List.length df))) df.

(** [enumerate(l)] *)
Definition enumerate {A : Type} (l : list A) : list (Z * A) :=
  combine (Py.range 0 (Z.of_nat (List.length l))) l.

(** "Add first 24 payments and then every 12th payment" *)
Definition display_rows (inv_schedule : list LoanManager.Row)
    : list (Z * LoanManager.Row) :=
  filter (fun '(idx, row) => (idx <? 24)%Z || ((idx + 1) mod 12 =? 0)%Z)
    (iterrows inv_schedule).

(** The sheet row each displayed row is written to, with the payment
    number put in column A. *)
Definition written_rows (inv_schedule : list LoanManager.Row)
    : list (Z * Z) :=
  map (fun '(display_idx, (original_idx, row)) =>
         ((display_idx + 6)%Z, LoanManager.Payment row))
    (enumerate (display_rows inv_schedule)).

(** The sheet row of the closing note. *)
Definition note_row (inv_schedule : list LoanManager.Row) : Z :=
  (Z.of_nat (List.length (display_rows inv_schedule)) + 8)%Z.

End Workbook.

(** ** The same code on doubles

    The claims that compare balances for equality are decided by the
    rounding of binary64, which the rational embedding above leaves out.
    The payment and schedule code is therefore embedded a second time on
    [float], Rocq's binary64 numbers with the IEEE 754 operations the
    Python [float] has.  Arguments are doubles (an [int] argument below
    2^53 behaves as the double of the same value).  [**] on doubles is
    the C library's [pow] behind Python's own case analysis; it is the
    parameter [fpow], which may raise ([OverflowError], or
    [ZeroDivisionError] for [0.0] to a negative power).  Where Python's
    [**] leaves the doubles (a negative base with a fractional exponent
    gives a [complex]) this embedding does not apply; for a rate >= 0 the
    base is at least 1. *)

Module Py64.

(** [a / b] on doubles: any zero divisor raises. *)
Definition truediv (a b : float) : result float :=
  if (b =? 0)%float then Err ZeroDivisionError else Ok (a / b)%float.

(** [int(x)]: truncation toward zero; [OverflowError] on an infinity,
    [ValueError] on a NaN. *)
Definition int (x : float) : result Z :=
  match Prim2SF x with
  | S754_zero _ => Ok 0%Z
  | S754_finite s m e =>
      let a := Z.shiftl (Zpos m) e in
      Ok (if s then (- a)%Z else a)
  | S754_infinity _ => Err OverflowError
  | S754_nan => Err ValueError
  end.

(** The double an [int] is converted to when it meets a double in [/] or
    [**]; the [int]s of this code come from [int(x)] and are converted
    exactly. *)
Definition float_of_int (n : Z) : float :=
  SF2Prim (binary_normalize prec emax n 0 false).

(** [max(0, b)]: the first argument unless the second is greater. *)
Definition max0 (b : float) : float := if (0 <? b)%float then b else 0%float.

(** The inputs the specification calls valid. *)
Definition valid_terms (principal annual_rate term_years : float) : Prop :=
  (0 <? principal)%float = true
  /\ (0 <=? annual_rate)%float = true
  /\ (0 <? term_years)%float = true.

End Py64.

(** [loan_app.py], class [LoanAnalyzer], on doubles. *)

Module LoanApp64.
Import Datetime.

Record LoanAnalyzer : Set := mkLoanAnalyzer {
  principal : float;
  annual_rate : float;
  years : float;
  monthly_rate : float;
  num_payments : Z
}.

(** [LoanAnalyzer.__init__]; [int(years * 12)] can raise. *)
Definition init (principal annual_rate years : float) : result LoanAnalyzer :=
  let monthly_rate := (annual_rate / 100 / 12)%float in
  num_payments <- Py64.int (years * 12)%float ;;
  Ok {| principal := principal;
        annual_rate := annual_rate;
        years := years;
        monthly_rate := monthly_rate;
        num_payments := num_payments |}.

Record Row : Set := mkRow {
  Payment_Number : Z;
  Date : string;
  Beginning_Balance : float;
  Monthly_Payment : float;
  Principal_Payment : float;
  Interest_Payment : float;
  Ending_Balance : float;
  Cumulative_Interest : float
}.

Section WithPower.

(** [b ** e] on doubles. *)
Variable fpow : float -> float -> result float.

Definition calculate_monthly_payment (self : LoanAnalyzer) : result float :=
  if (annual_rate self =? 0)%float then
    Py64.truediv (principal self) (Py64.float_of_int (num_payments self))
  else
    p1 <- fpow (1 + monthly_rate self)%float
            (Py64.float_of_int (num_payments self)) ;;
    p2 <- fpow (1 + monthly_rate self)%float
            (Py64.float_of_int (num_payments self)) ;;
    Py64.truediv (principal self * (monthly_rate self * p1))%float
      (p2 - 1)%float.

Fixpoint schedule_loop (self : LoanAnalyzer) (monthly_payment : float)
    (todo : list Z) (balance cumulative_interest : float)
    (current_date : datetime) : result (list Row) :=
  match todo with
  | [] => Ok []
  | payment_num :: todo' =>
      let interest_payment := (balance * monthly_rate self)%float in
      let principal_payment := (monthly_payment - interest_payment)%float in
      let balance := (balance - principal_payment)%float in
      let cumulative_interest :=
        (cumulative_interest + interest_payment)%float in
      let row :=
        {| Payment_Number := payment_num;
           Date := strftime current_date;
           Beginning_Balance := (balance + principal_payment)%float;
           Monthly_Payment := monthly_payment;
           Principal_Payment := principal_payment;
           Interest_Payment := interest_payment;
           Ending_Balance := Py64.max0 balance;
           Cumulative_Interest := cumulative_interest |} in
      current_date <- LoanApp.next_month current_date ;;
      if (balance <=? 0)%float then Ok [row]
      else
        rest <- schedule_loop self monthly_payment todo' balance
                  cumulative_interest current_date ;;
        Ok (row :: rest)
  end.

Definition create_amortization_schedule (now : datetime)
    (self : LoanAnalyzer) (start_date : option datetime)
    : result (list Row) :=
  let start_date :=
    match start_date with None => now | Some d => d end in
  monthly_payment <- calculate_monthly_payment self ;;
  schedule_loop self monthly_payment
    (Py.range 1 (num_payments self + 1)) (principal self) 0%float start_date.

End WithPower.

End LoanApp64.

(** [loan_manager.py], class [LoanScenarioAnalyzer], on doubles. *)

Module LoanManager64.

Record Row : Set := mkRow {
  Payment : Z;
  Beginning_Balance : float;
  Payment_Amount : float;
  Principal : float;
  Interest : float;
  Ending_Balance : float
}.

Section WithPower.

(** [b ** e] on doubles. *)
Variable fpow : float -> float -> result float.

Definition calculate_monthly_payment (principal annual_rate years : float)
    : result float :=
  if (annual_rate =? 0)%float then Py64.truediv principal (years * 12)%float
  else
    let monthly_rate := (annual_rate / 100 / 12)%float in
    let num_payments := (years * 12)%float in
    p1 <- fpow (1 + monthly_rate)%float num_payments ;;
    p2 <- fpow (1 + monthly_rate)%float num_payments ;;
    Py64.truediv (principal * (monthly_rate * p1))%float (p2 - 1)%float.

Fixpoint schedule_loop (monthly_rate monthly_payment : float)
    (todo : list Z) (balance : float) : list Row :=
  match todo with
  | [] => []
  | month :: todo' =>
      let interest_payment := (balance * monthly_rate)%float in
      let principal_payment := (monthly_payment - interest_payment)%float in
      let balance := (balance - principal_payment)%float in
      let row :=
        {| Payment := (month + 1)%Z;
           Beginning_Balance := (balance + principal_payment)%float;
           Payment_Amount := monthly_payment;
           Principal := principal_payment;
           Interest := interest_payment;
           Ending_Balance := Py64.max0 balance |} in
      if (balance <=? 0)%float then [row]
      else row :: schedule_loop monthly_rate monthly_payment todo' balance
  end.

(** [int(years * 12)] is evaluated, and can raise, after the payment. *)
Definition create_amortization_schedule
    (principal annual_rate years : float) (start_month : Z)
    : result (list Row) :=
  let monthly_rate := (annual_rate / 100 / 12)%float in
  monthly_payment <- calculate_monthly_payment principal annual_rate years ;;
  periods <- Py64.int (years * 12)%float ;;
  Ok (schedule_loop monthly_rate monthly_payment (Py.range 0 periods)
        principal).

End WithPower.

End LoanManager64.

(** On doubles the beginning balance of a record is the balance before the
    payment, less the principal portion and plus it again: the first
    record starts from [principal], every later record from the ending
    balance of the record before it, which is positive there. *)
Definition balances_recomputed {Row : Type}
    (beginning principal_part ending : Row -> float)
    (principal : float) (rows : list Row) : Prop :=
  (forall first,
     nth_error rows 0 = Some first ->
     beginning first
     = (principal - principal_part first + principal_part first)%float)
  /\ (forall i prev next,
        nth_error rows i = Some prev -> nth_error rows (S i) = Some next ->
        (0 <? ending prev)%float = true ->
        beginning next
        = (ending prev - principal_part next + principal_part next)%float).

(** A balance that is zero or positive. *)
Definition not_negative (b : float) : Prop :=
  b = 0%float \/ (0 <? b)%float = true.

(** [(257/256)^6 = 257^6 / 2^48], a binary64 number: the value of
    [1.00390625 ** 6]. *)
Definition power_257_256_6 : float := 0x1.060f140f0601p+0%float.

(** ** Sums and closed forms used in the statements *)

Fixpoint sum_Q (l : list Q) : Q :=
  match l with
  | [] => 0
  | x :: l' => x + sum_Q l'
  end.

(** [1 + q + ... + q^(n-1)] *)
Fixpoint geometric (q : Q) (n : nat) : Q :=
  match n with
  | O => 0
  | S n' => geometric q n' + q ^ Z.of_nat n'
  end.

(** The calendar month [k] months after [d], same day of the month. *)
Definition add_months (d : Datetime.datetime) (k : Z) : Datetime.datetime :=
  let t := (Datetime.month d - 1 + k)%Z in
  Datetime.mk (Datetime.year d + t / 12) (t mod 12 + 1) (Datetime.day d).

(** ** Sample inputs *)

(** Two interest-free loans of 1200 over one year. *)
Definition two_small_loans : LoanManager.LoanScenarioAnalyzer :=
  LoanManager.mkLoanScenarioAnalyzer 1200 0 1 1200 0 1.

(** The first loan stretched to two years, for costs of 120. *)
Definition longer_apartment_term : LoanManager.Scenario :=
  LoanManager.mkScenario None None (Some 2) None (Some 120).

(** * Properties *)

(** ** The built-ins *)

Lemma gt_true (a b : Q) : Py.gt a b = true <-> b < a.
Proof.
  unfold Py.gt. rewrite negb_true_iff, <- not_true_iff_false, Qle_bool_iff.
  split; [apply Qnot_le_lt | apply Qlt_not_le].
Qed.

Lemma gt_false (a b : Q) : Py.gt a b = false <-> a <= b.
Proof. unfold Py.gt. now rewrite negb_false_iff, Qle_bool_iff. Qed.

Lemma max0_pos (b : Q) : 0 < b -> Py.max0 b = b.
Proof. intros H. unfold Py.max0. now rewrite (proj2 (gt_true b 0) H). Qed.

Lemma max0_nonpos (b : Q) : b <= 0 -> Py.max0 b = 0.
Proof. intros H. unfold Py.max0. now rewrite (proj2 (gt_false b 0) H). Qed.

Lemma truediv_ok (a b : Q) : ~ b == 0 -> Py.truediv a b = Ok (a / b).
Proof.
  intros H. unfold Py.truediv.
  destruct (Qeq_bool b 0) eqn:E; [apply Qeq_bool_eq in E; contradiction | reflexivity].
Qed.

Lemma truediv_zero (a b : Q) : b == 0 -> Py.truediv a b = Err ZeroDivisionError.
Proof. intros H. unfold Py.truediv. now rewrite (Qeq_eq_bool _ _ H). Qed.

Lemma pow_int_base (b : Q) (n : Z) : ~ b == 0 -> Py.pow_int b n = Ok (b ^ n).
Proof.
  intros H. unfold Py.pow_int.
  destruct (Qeq_bool b 0) eqn:E; [apply Qeq_bool_eq in E; contradiction | reflexivity].
Qed.

Lemma pow_int_nonneg (b : Q) (n : Z) : (0 <= n)%Z -> Py.pow_int b n = Ok (b ^ n).
Proof.
  intros H. unfold Py.pow_int.
  destruct (n <? 0)%Z eqn:E; [apply Z.ltb_lt in E; lia | now rewrite andb_false_r].
Qed.

Lemma length_range (lo hi : Z) : List.length (Py.range lo hi) = Z.to_nat (hi - lo).
Proof. unfold Py.range. now rewrite length_map, length_seq. Qed.

Lemma int_nonneg (q : Q) : 0 <= q -> Py.int q = Qfloor q.
Proof.
  destruct q as [n d]. unfold Qle, Py.int, Qfloor. simpl. intros H.
  apply Z.quot_div_nonneg; lia.
Qed.

Lemma floor_le_round (q : Q) : (Qfloor q <= Py.round q)%Z.
Proof.
  unfold Py.round.
  destruct (Qcompare _ _); [destruct (Z.even _) | | ]; lia.
Qed.

Lemma int_le_round (q : Q) : 0 <= q -> (Py.int q <= Py.round q)%Z.
Proof. intros H. rewrite (int_nonneg q H). apply floor_le_round. Qed.

Lemma whole_eq (q : Q) :
  Py.is_whole q = true -> q == inject_Z (Qnum (Qred q)).
Proof.
  unfold Py.is_whole. intros H. apply Pos.eqb_eq in H.
  rewrite <- (Qred_correct q) at 1.
  destruct (Qred q) as [n d]. simpl in *. subst d. reflexivity.
Qed.

Lemma int_inject_Z (q : Q) (n : Z) : q == inject_Z n -> Py.int q = n.
Proof.
  destruct q as [a d]. unfold Qeq, Py.int. simpl. intros H.
  replace a with (n * Z.pos d)%Z by lia. apply Z.quot_mul. lia.
Qed.

Lemma round_inject_Z (q : Q) (n : Z) : q == inject_Z n -> Py.round q = n.
Proof.
  intros H. unfold Py.round.
  assert (F : Qfloor q = n) by (rewrite (Qfloor_comp q _ H); apply Qfloor_Z).
  rewrite F.
  assert (L : q - inject_Z n < 1 # 2) by lra.
  apply Qlt_alt in L.
  change (Qcompare (q - inject_Z n) (1 # 2) = Lt) in L. now rewrite L.
Qed.

Lemma whole_int (q : Q) : Py.is_whole q = true -> Py.int q = Qnum (Qred q).
Proof. intros H. apply int_inject_Z, whole_eq, H. Qed.

Lemma whole_round (q : Q) : Py.is_whole q = true -> Py.round q = Qnum (Qred q).
Proof. intros H. apply round_inject_Z, whole_eq, H. Qed.

Lemma power_gt_1 (r : Q) (n : Z) : 0 < r -> (1 <= n)%Z -> 1 < (1 + r) ^ n.
Proof. intros Hr Hn. apply Qpower_1_lt; [lra | lia]. Qed.

(** ** The monthly payment *)

Lemma periodic_rate_pos (annual_rate : Q) :
  0 < annual_rate -> 0 < Spec.periodic_rate annual_rate.
Proof.
  unfold Spec.periodic_rate. intros H.
  do 2 (apply Qlt_shift_div_l; [reflexivity|]). lra.
Qed.

Lemma rate_nonzero (annual_rate : Q) :
  0 < annual_rate -> Qeq_bool annual_rate 0 = false.
Proof.
  intros H. destruct (Qeq_bool annual_rate 0) eqn:E; [|reflexivity].
  apply Qeq_bool_eq in E. lra.
Qed.

Lemma whole_periods_pos (years : Q) :
  0 < years -> Py.is_whole (years * 12) = true ->
  (1 <= Qnum (Qred (years * 12)))%Z.
Proof.
  intros Hy Hw. pose proof (whole_eq _ Hw) as E. revert E.
  generalize (Qnum (Qred (years * 12))). intros n E.
  assert (L : 0 < inject_Z n) by lra.
  unfold Qlt in L. simpl in L. lia.
Qed.

(** The annuity branch, once the power is known. *)
Lemma annuity_branch (principal r : Q) (n : Z) :
  0 < r -> (1 <= n)%Z ->
  (p1 <- Py.pow_int (1 + r) n ;;
   p2 <- Py.pow_int (1 + r) n ;;
   Py.truediv (principal * (r * p1)) (p2 - 1))
  = Ok (principal * (r * (1 + r) ^ n) / ((1 + r) ^ n - 1)).
Proof.
  intros Hr Hn. rewrite pow_int_nonneg by lia. simpl.
  apply truediv_ok. pose proof (power_gt_1 r n Hr Hn). lra.
Qed.

Lemma annuity_assoc (principal r : Q) (n : Z) :
  principal * (r * (1 + r) ^ n) / ((1 + r) ^ n - 1)
  == Spec.annuity principal r n.
Proof. unfold Spec.annuity, Qdiv. ring. Qed.

Lemma app_payment_annuity (principal annual_rate years : Q) :
  0 < annual_rate -> (1 <= Py.int (years * 12))%Z ->
  LoanApp.calculate_monthly_payment (LoanApp.init principal annual_rate years)
  = Ok (principal
        * (Spec.periodic_rate annual_rate
           * (1 + Spec.periodic_rate annual_rate) ^ Py.int (years * 12))
        / ((1 + Spec.periodic_rate annual_rate) ^ Py.int (years * 12) - 1)).
Proof.
  intros Hr Hn. unfold LoanApp.calculate_monthly_payment. simpl.
  rewrite (rate_nonzero _ Hr).
  apply (annuity_branch principal (Spec.periodic_rate annual_rate));
    [now apply periodic_rate_pos | exact Hn].
Qed.

Lemma app_payment_zero_rate (principal annual_rate years : Q) :
  annual_rate == 0 ->
  LoanApp.calculate_monthly_payment (LoanApp.init principal annual_rate years)
  = Py.truediv principal (inject_Z (Py.int (years * 12))).
Proof.
  intros Hr. unfold LoanApp.calculate_monthly_payment. simpl.
  now rewrite (Qeq_eq_bool _ _ Hr).
Qed.

Lemma app_payment_no_period (principal annual_rate years : Q) :
  Py.int (years * 12) = 0%Z ->
  LoanApp.calculate_monthly_payment (LoanApp.init principal annual_rate years)
  = Err ZeroDivisionError.
Proof.
  intros Hn. unfold LoanApp.calculate_monthly_payment. simpl. rewrite Hn.
  destruct (Qeq_bool annual_rate 0); [reflexivity|].
  rewrite pow_int_nonneg by lia. reflexivity.
Qed.

Lemma manager_payment_whole (fpow : Q -> Q -> Q) (principal annual_rate years : Q) :
  0 < annual_rate -> 0 < years -> Py.is_whole (years * 12) = true ->
  LoanManager.calculate_monthly_payment fpow principal annual_rate years
  = Ok (principal
        * (Spec.periodic_rate annual_rate
           * (1 + Spec.periodic_rate annual_rate) ^ Qnum (Qred (years * 12)))
        / ((1 + Spec.periodic_rate annual_rate) ^ Qnum (Qred (years * 12)) - 1)).
Proof.
  intros Hr Hy Hw. unfold LoanManager.calculate_monthly_payment.
  rewrite (rate_nonzero _ Hr). unfold Py.pow. rewrite Hw.
  apply (annuity_branch principal (Spec.periodic_rate annual_rate));
    [now apply periodic_rate_pos | now apply whole_periods_pos].
Qed.

Lemma manager_payment_zero_rate (fpow : Q -> Q -> Q)
    (principal annual_rate years : Q) :
  annual_rate == 0 ->
  LoanManager.calculate_monthly_payment fpow principal annual_rate years
  = Py.truediv principal (years * 12).
Proof.
  intros Hr. unfold LoanManager.calculate_monthly_payment.
  now rewrite (Qeq_eq_bool _ _ Hr).
Qed.

(** The loan of the dashboard's defaults, 555000 at 5.49% over 27 years,
    in both implementations. *)
Lemma standard_case_payment :
  returns (LoanApp.calculate_monthly_payment (LoanApp.init 555000 (549 # 100) 27))
    (fun payment => 3288 < payment /\ payment < 3289)
  /\ forall fpow,
       returns (LoanManager.calculate_monthly_payment fpow 555000 (549 # 100) 27)
         (fun payment => 3288 < payment /\ payment < 3289).
Proof.
  split; [|intros fpow]; vm_compute; split; reflexivity.
Qed.

(** ** The amortization recurrence *)

Section CoreFacts.
Import Core.
Variables r payment : Q.

Lemma amortize_chained (k : nat) (balance : Q) :
  chained balance (amortize r payment k balance).
Proof.
  revert balance. induction k as [|k IH]; intros balance; simpl; [exact I|].
  destruct (Qle_bool _ 0) eqn:E; simpl.
  - split; [ring | exact I].
  - split; [ring|]. rewrite max0_pos; [apply IH|].
    apply Qnot_le_lt. intros L. apply Qle_bool_iff in L. congruence.
Qed.

Lemma amortize_beginning_pos (k : nat) (balance : Q) :
  0 < balance ->
  Forall (fun st => 0 < beginning st) (amortize r payment k balance).
Proof.
  revert balance. induction k as [|k IH]; intros balance Hb; simpl; [constructor|].
  assert (B : 0 < balance - (payment - balance * r) + (payment - balance * r))
    by (ring_simplify; exact Hb).
  destruct (Qle_bool _ 0) eqn:E.
  - repeat constructor. exact B.
  - constructor; [exact B|]. apply IH.
    apply Qnot_le_lt. intros L. apply Qle_bool_iff in L. congruence.
Qed.

Lemma amortize_interest (k : nat) (balance : Q) :
  Forall (fun st => interest_part st == beginning st * r
                    /\ principal_part st == payment - interest_part st)
         (amortize r payment k balance).
Proof.
  revert balance. induction k as [|k IH]; intros balance; simpl; [constructor|].
  destruct (Qle_bool _ 0); repeat constructor; simpl; try ring; apply IH.
Qed.

Lemma amortize_length (k : nat) (balance : Q) :
  (List.length (amortize r payment k balance) <= k)%nat.
Proof.
  revert balance. induction k as [|k IH]; intros balance; simpl; [lia|].
  destruct (Qle_bool _ 0); simpl; [lia | specialize (IH (balance - (payment - balance * r))); lia].
Qed.

Lemma amortize_zero_rate (k : nat) (balance : Q) :
  r == 0 ->
  Forall (fun st => interest_part st == 0 /\ principal_part st == payment)
         (amortize r payment k balance).
Proof.
  intros Hr. revert balance.
  induction k as [|k IH]; intros balance; simpl; [constructor|].
  assert (I0 : balance * r == 0) by (rewrite Hr; ring).
  assert (P0 : payment - balance * r == payment) by (rewrite Hr; ring).
  destruct (Qle_bool _ 0); repeat constructor; simpl; auto.
Qed.

(** The last step ends at zero as soon as the recurrence, run for all
    [k] periods, does not stay above zero. *)
Lemma amortize_last (k : nat) (balance : Q) :
  (1 <= k)%nat -> balance_after r payment k balance <= 0 ->
  exists front st,
    amortize r payment k balance = front ++ [st] /\ ending st = 0.
Proof.
  revert balance. induction k as [|k IH]; intros balance Hk Hb; [lia|].
  simpl in *. destruct (Qle_bool _ 0) eqn:E.
  - exists [], (mkStep (balance - (payment - balance * r) + (payment - balance * r))
                       (payment - balance * r) (balance * r)
                       (Py.max0 (balance - (payment - balance * r)))).
    split; [reflexivity|]. simpl. apply max0_nonpos. now apply Qle_bool_iff.
  - destruct k as [|k].
    + simpl in Hb. apply Qle_bool_iff in Hb. congruence.
    + destruct (IH _ ltac:(lia) Hb) as (front & st & Heq & Hend).
      rewrite Heq. eexists (_ :: front), st. split; [reflexivity | exact Hend].
Qed.

(** Without an early exit the loop emits one step per period. *)
Lemma amortize_full_length (k : nat) (balance : Q) :
  (forall j, (1 <= j < k)%nat -> 0 < balance_after r payment j balance) ->
  List.length (amortize r payment k balance) = k.
Proof.
  revert balance. induction k as [|k IH]; intros balance H; simpl; [reflexivity|].
  destruct (Qle_bool _ 0) eqn:E.
  - destruct k as [|k]; [reflexivity|].
    specialize (H 1%nat ltac:(lia)). simpl in H.
    apply Qle_bool_iff in E. lra.
  - simpl. f_equal. apply IH. intros j Hj.
    exact (H (S j) ltac:(lia)).
Qed.

Lemma Qpower_succ_nat (q : Q) (k : nat) :
  q ^ Z.of_nat (S k) == q * q ^ Z.of_nat k.
Proof.
  rewrite Nat2Z.inj_succ, <- Z.add_1_l, Qpower_plus' by lia.
  now rewrite Qpower_1_r.
Qed.

Lemma balance_after_closed (k : nat) (balance : Q) :
  r * balance_after r payment k balance
  == r * balance * (1 + r) ^ Z.of_nat k
     - payment * ((1 + r) ^ Z.of_nat k - 1).
Proof.
  revert balance. induction k as [|k IH]; intros balance.
  - simpl. ring.
  - cbn [balance_after]. rewrite IH, Qpower_succ_nat. ring.
Qed.

Lemma balance_after_zero_rate (k : nat) (balance : Q) :
  r == 0 ->
  balance_after r payment k balance
  == balance - inject_Z (Z.of_nat k) * payment.
Proof.
  intros Hr. revert balance. induction k as [|k IH]; intros balance.
  - simpl. ring.
  - cbn [balance_after]. rewrite IH, Nat2Z.inj_succ, <- Z.add_1_l, inject_Z_plus, Hr.
    ring.
Qed.

End CoreFacts.

Lemma final_balance_annuity (principal r payment : Q) (k : nat) :
  0 < r -> (1 <= k)%nat ->
  payment == principal * (r * (1 + r) ^ Z.of_nat k) / ((1 + r) ^ Z.of_nat k - 1) ->
  Core.balance_after r payment k principal == 0.
Proof.
  intros Hr Hk Hp.
  pose proof (balance_after_closed r payment k principal) as C.
  pose proof (power_gt_1 r (Z.of_nat k) Hr ltac:(lia)) as G.
  assert (Z0 : r * Core.balance_after r payment k principal == 0).
  { rewrite C, Hp. field. lra. }
  apply Qmult_integral in Z0. destruct Z0 as [Z0|Z0]; [lra | exact Z0].
Qed.

Lemma final_balance_straight (principal r payment : Q) (k : nat) :
  r == 0 -> (1 <= k)%nat ->
  payment == principal / inject_Z (Z.of_nat k) ->
  Core.balance_after r payment k principal == 0.
Proof.
  intros Hr Hk Hp.
  rewrite (balance_after_zero_rate r payment k principal Hr), Hp.
  assert (N : 0 < inject_Z (Z.of_nat k)).
  { unfold Qlt. simpl. lia. }
  field. lra.
Qed.

(** ** The two loops compute the recurrence *)

Lemma manager_loop_core (r payment : Q) (todo : list Z) (balance : Q) :
  map manager_step (LoanManager.schedule_loop r payment todo balance)
  = Core.amortize r payment (List.length todo) balance.
Proof.
  revert balance. induction todo as [|month todo IH]; intros balance; simpl;
    [reflexivity|].
  destruct (Qle_bool _ 0); simpl; [reflexivity|]. now rewrite IH.
Qed.

Lemma manager_loop_payment (r payment : Q) (todo : list Z) (balance : Q) :
  Forall (fun row => LoanManager.Payment_Amount row = payment)
         (LoanManager.schedule_loop r payment todo balance).
Proof.
  revert balance. induction todo as [|month todo IH]; intros balance; simpl;
    [constructor|].
  destruct (Qle_bool _ 0); repeat constructor. apply IH.
Qed.

Lemma app_loop_core (self : LoanApp.LoanAnalyzer) (payment : Q)
    (todo : list Z) (balance cumulative : Q) (date : Datetime.datetime)
    (rows : list LoanApp.Row) :
  LoanApp.schedule_loop self payment todo balance cumulative date = Ok rows ->
  map app_step rows
  = Core.amortize (LoanApp.monthly_rate self) payment (List.length todo) balance.
Proof.
  revert balance cumulative date rows.
  induction todo as [|n todo IH]; intros balance cumulative date rows; simpl.
  - intros [= <-]. reflexivity.
  - destruct (LoanApp.next_month date) as [date'|e]; simpl; [|discriminate].
    destruct (Qle_bool _ 0); simpl.
    + intros [= <-]. reflexivity.
    + destruct (LoanApp.schedule_loop _ _ _ _ _ _) as [rest|e] eqn:E; simpl;
        [|discriminate].
      intros [= <-]. simpl. now rewrite (IH _ _ _ _ E).
Qed.

Lemma app_loop_payment (self : LoanApp.LoanAnalyzer) (payment : Q)
    (todo : list Z) (balance cumulative : Q) (date : Datetime.datetime)
    (rows : list LoanApp.Row) :
  LoanApp.schedule_loop self payment todo balance cumulative date = Ok rows ->
  Forall (fun row => LoanApp.Monthly_Payment row = payment) rows.
Proof.
  revert balance cumulative date rows.
  induction todo as [|n todo IH]; intros balance cumulative date rows; simpl.
  - intros [= <-]. constructor.
  - destruct (LoanApp.next_month date) as [date'|e]; simpl; [|discriminate].
    destruct (Qle_bool _ 0); simpl.
    + intros [= <-]. repeat constructor.
    + destruct (LoanApp.schedule_loop _ _ _ _ _ _) as [rest|e] eqn:E; simpl;
        [|discriminate].
      intros [= <-]. constructor; [reflexivity | exact (IH _ _ _ _ E)].
Qed.

(** ** The date labels *)

Lemma days_in_month_28 (y m : Z) : (28 <= Datetime.days_in_month y m)%Z.
Proof.
  unfold Datetime.days_in_month.
  destruct (m =? 2)%Z; [destruct (Datetime.is_leap y); lia|].
  destruct (_ || _); lia.
Qed.

Lemma replace_valid (d : Datetime.datetime) (y m : Z) :
  (1 <= y <= 9999)%Z -> (1 <= m <= 12)%Z -> (1 <= Datetime.day d <= 28)%Z ->
  Datetime.replace d y m = Ok (Datetime.mk y m (Datetime.day d)).
Proof.
  intros Hy Hm Hd. unfold Datetime.replace, Datetime.valid.
  pose proof (days_in_month_28 y m) as H28.
  repeat (rewrite (proj2 (Z.leb_le _ _)) by lia). reflexivity.
Qed.

Lemma next_month_valid (d : Datetime.datetime) (n : nat) :
  steps_stay_valid d (S n) ->
  exists d', LoanApp.next_month d = Ok d' /\ steps_stay_valid d' n.
Proof.
  intros (Hy & Hmax & Hm & Hd). unfold LoanApp.next_month.
  destruct (Datetime.month d =? 12)%Z eqn:E.
  - rewrite replace_valid by lia. eexists. split; [reflexivity|].
    unfold steps_stay_valid. simpl. lia.
  - apply Z.eqb_neq in E. rewrite replace_valid by lia.
    eexists. split; [reflexivity|]. unfold steps_stay_valid. simpl. lia.
Qed.

Lemma app_loop_returns (self : LoanApp.LoanAnalyzer) (payment : Q)
    (todo : list Z) (balance cumulative : Q) (date : Datetime.datetime) :
  steps_stay_valid date (List.length todo) ->
  exists rows,
    LoanApp.schedule_loop self payment todo balance cumulative date = Ok rows.
Proof.
  revert balance cumulative date.
  induction todo as [|n todo IH]; intros balance cumulative date Hd; simpl.
  - eexists. reflexivity.
  - destruct (next_month_valid _ _ Hd) as (date' & -> & Hd'). simpl.
    destruct (Qle_bool _ 0); [eexists; reflexivity|].
    destruct (IH (balance - (payment - balance * LoanApp.monthly_rate self))
                (cumulative + balance * LoanApp.monthly_rate self) date' Hd')
      as [rest ->].
    simpl. eexists. reflexivity.
Qed.

(** The start date only reaches the [Date] column. *)
Lemma app_loop_undated (self : LoanApp.LoanAnalyzer) (payment : Q)
    (todo : list Z) (balance cumulative : Q) (date1 date2 : Datetime.datetime)
    (rows1 rows2 : list LoanApp.Row) :
  LoanApp.schedule_loop self payment todo balance cumulative date1 = Ok rows1 ->
  LoanApp.schedule_loop self payment todo balance cumulative date2 = Ok rows2 ->
  map undated rows1 = map undated rows2.
Proof.
  revert balance cumulative date1 date2 rows1 rows2.
  induction todo as [|n todo IH];
    intros balance cumulative date1 date2 rows1 rows2; simpl.
  - intros [= <-] [= <-]. reflexivity.
  - destruct (LoanApp.next_month date1) as [date1'|e]; simpl; [|discriminate].
    destruct (LoanApp.next_month date2) as [date2'|e]; simpl; [|discriminate].
    destruct (Qle_bool _ 0); simpl.
    + intros [= <-] [= <-]. reflexivity.
    + destruct (LoanApp.schedule_loop _ _ _ _ _ date1') as [rest1|e] eqn:E1;
        simpl; [|discriminate].
      destruct (LoanApp.schedule_loop _ _ _ _ _ date2') as [rest2|e] eqn:E2;
        simpl; [|discriminate].
      intros [= <-] [= <-]. simpl. unfold undated at 1 3. simpl.
      f_equal. exact (IH _ _ _ _ _ _ E1 E2).
Qed.

(** ** What a returned schedule is *)

Lemma app_schedule_core (now : Datetime.datetime) (principal annual_rate years : Q)
    (start_date : option Datetime.datetime) (rows : list LoanApp.Row) :
  LoanApp.create_amortization_schedule now
    (LoanApp.init principal annual_rate years) start_date = Ok rows ->
  exists payment,
    LoanApp.calculate_monthly_payment (LoanApp.init principal annual_rate years)
    = Ok payment
    /\ map app_step rows
       = Core.amortize (Spec.periodic_rate annual_rate) payment
           (Z.to_nat (Py.int (years * 12))) principal
    /\ Forall (fun row => LoanApp.Monthly_Payment row = payment) rows.
Proof.
  unfold LoanApp.create_amortization_schedule.
  destruct (LoanApp.calculate_monthly_payment _) as [payment|e]; simpl;
    [|discriminate].
  intros H. exists payment. split; [reflexivity|]. split.
  - rewrite (app_loop_core _ _ _ _ _ _ _ H), length_range. simpl.
    do 2 f_equal. lia.
  - exact (app_loop_payment _ _ _ _ _ _ _ H).
Qed.

Lemma manager_schedule_core (fpow : Q -> Q -> Q) (principal annual_rate years : Q)
    (start_month : Z) (rows : list LoanManager.Row) :
  LoanManager.create_amortization_schedule fpow principal annual_rate years
    start_month = Ok rows ->
  exists payment,
    LoanManager.calculate_monthly_payment fpow principal annual_rate years
    = Ok payment
    /\ map manager_step rows
       = Core.amortize (Spec.periodic_rate annual_rate) payment
           (Z.to_nat (Py.int (years * 12))) principal
    /\ Forall (fun row => LoanManager.Payment_Amount row = payment) rows.
Proof.
  unfold LoanManager.create_amortization_schedule.
  destruct (LoanManager.calculate_monthly_payment _ _ _ _) as [payment|e]; simpl;
    [|discriminate].
  intros [= <-]. exists payment. split; [reflexivity|]. split.
  - rewrite manager_loop_core, length_range. do 2 f_equal. lia.
  - apply manager_loop_payment.
Qed.

Lemma manager_schedule_returns (fpow : Q -> Q -> Q)
    (principal annual_rate years payment : Q) (start_month : Z) :
  LoanManager.calculate_monthly_payment fpow principal annual_rate years
  = Ok payment ->
  exists rows,
    LoanManager.create_amortization_schedule fpow principal annual_rate years
      start_month = Ok rows.
Proof.
  intros H. unfold LoanManager.create_amortization_schedule. rewrite H. simpl.
  eexists. reflexivity.
Qed.

Lemma app_schedule_returns (now : Datetime.datetime)
    (self : LoanApp.LoanAnalyzer) (start_date : option Datetime.datetime)
    (payment : Q) :
  LoanApp.calculate_monthly_payment self = Ok payment ->
  steps_stay_valid (match start_date with None => now | Some d => d end)
    (Z.to_nat (LoanApp.num_payments self)) ->
  exists rows,
    LoanApp.create_amortization_schedule now self start_date = Ok rows.
Proof.
  intros Hpay Hd. unfold LoanApp.create_amortization_schedule.
  rewrite Hpay. simpl. apply app_loop_returns.
  rewrite length_range.
  replace (LoanApp.num_payments self + 1 - 1)%Z with (LoanApp.num_payments self)
    by lia.
  exact Hd.
Qed.

Lemma chained_carry {Row : Type} (view : Row -> Core.Step)
    (principal : Q) (rows : list Row) :
  Core.chained principal (map view rows) ->
  balances_carry (fun row => Core.beginning (view row))
    (fun row => Core.ending (view row)) principal rows.
Proof.
  intros H. split.
  - intros first E. destruct rows as [|row rows]; [discriminate|].
    injection E as <-. exact (proj1 H).
  - revert principal H. induction rows as [|row rows IH]; intros principal H i prev next Hp Hn.
    + destruct i; discriminate.
    + destruct H as [_ H]. destruct i as [|i].
      * injection Hp as <-. destruct rows as [|row' rows]; [discriminate|].
        injection Hn as <-. exact (proj1 H).
      * exact (IH _ H i prev next Hp Hn).
Qed.

Lemma core_final_row {Row : Type} (view : Row -> Core.Step)
    (r payment : Q) (k : nat) (principal : Q) (rows : list Row) :
  map view rows = Core.amortize r payment k principal ->
  (1 <= k)%nat -> Core.balance_after r payment k principal <= 0 ->
  exists final, final_row rows final /\ Core.ending (view final) == 0.
Proof.
  intros Hm Hk Hb.
  destruct (amortize_last r payment k principal Hk Hb) as (front & st & Heq & Hend).
  rewrite Heq in Hm. apply map_eq_app in Hm.
  destruct Hm as (rows1 & rows2 & -> & _ & H2).
  destruct rows2 as [|final [|more rows2]]; try discriminate.
  injection H2 as <-. exists final. split; [now exists rows1 | now rewrite Hend].
Qed.

(** ** The loops on doubles *)

Lemma max0_64_not_negative (b : float) : not_negative (Py64.max0 b).
Proof.
  unfold not_negative, Py64.max0.
  destruct (0 <? b)%float eqn:E; [right; exact E | left; reflexivity].
Qed.

Lemma max0_64_positive (b : float) :
  (0 <? Py64.max0 b)%float = true -> Py64.max0 b = b.
Proof.
  unfold Py64.max0. destruct (0 <? b)%float; [reflexivity|].
  intros H. vm_compute in H. discriminate.
Qed.

Lemma app64_loop_recomputed (self : LoanApp64.LoanAnalyzer)
    (monthly_payment : float) (todo : list Z) :
  forall (balance cumulative_interest : float)
         (current_date : Datetime.datetime) (rows : list LoanApp64.Row),
    LoanApp64.schedule_loop self monthly_payment todo balance
      cumulative_interest current_date = Ok rows ->
    balances_recomputed LoanApp64.Beginning_Balance
      LoanApp64.Principal_Payment LoanApp64.Ending_Balance balance rows.
Proof.
  induction todo as [|payment_num todo IH];
    intros balance cumulative_interest current_date rows H; simpl in H.
  - injection H as <-. split; [intros first F; discriminate F|].
    intros [|i] prev next P; discriminate P.
  - destruct (LoanApp.next_month current_date) as [d|e]; [|discriminate].
    simpl in H.
    destruct (_ <=? 0)%float.
    + injection H as <-. split.
      * intros first F. injection F as <-. reflexivity.
      * intros [|i] prev next P N; [discriminate N|].
        destruct i; discriminate N.
    + destruct (LoanApp64.schedule_loop _ _ _ _ _ _) as [rest|e] eqn:R;
        [|discriminate].
      simpl in H. injection H as <-.
      destruct (IH _ _ _ _ R) as [First Links]. split.
      * intros first F. injection F as <-. reflexivity.
      * intros [|i] prev next P N Hpos.
        -- injection P as <-. simpl in Hpos |- *.
           rewrite (max0_64_positive _ Hpos). exact (First next N).
        -- exact (Links i prev next P N Hpos).
Qed.

Lemma manager64_loop_recomputed (monthly_rate monthly_payment : float)
    (todo : list Z) :
  forall balance : float,
    balances_recomputed LoanManager64.Beginning_Balance
      LoanManager64.Principal LoanManager64.Ending_Balance balance
      (LoanManager64.schedule_loop monthly_rate monthly_payment todo balance).
Proof.
  induction todo as [|month todo IH]; intros balance; simpl.
  - split; [intros first F; discriminate F|].
    intros [|i] prev next P; discriminate P.
  - destruct (_ <=? 0)%float.
    + split.
      * intros first F. injection F as <-. reflexivity.
      * intros [|i] prev next P N; [discriminate N|].
        destruct i; discriminate N.
    + destruct (IH (balance - (monthly_payment - balance * monthly_rate))%float)
        as [First Links].
      split.
      * intros first F. injection F as <-. reflexivity.
      * intros [|i] prev next P N Hpos.
        -- injection P as <-. simpl in Hpos |- *.
           rewrite (max0_64_positive _ Hpos). exact (First next N).
        -- exact (Links i prev next P N Hpos).
Qed.

Lemma app64_loop_not_negative (self : LoanApp64.LoanAnalyzer)
    (monthly_payment : float) (todo : list Z) :
  forall (balance cumulative_interest : float)
         (current_date : Datetime.datetime) (rows : list LoanApp64.Row),
    LoanApp64.schedule_loop self monthly_payment todo balance
      cumulative_interest current_date = Ok rows ->
    Forall (fun row => not_negative (LoanApp64.Ending_Balance row)) rows.
Proof.
  induction todo as [|payment_num todo IH];
    intros balance cumulative_interest current_date rows H; simpl in H.
  - injection H as <-. constructor.
  - destruct (LoanApp.next_month current_date) as [d|e]; [|discriminate].
    simpl in H.
    destruct (_ <=? 0)%float.
    + injection H as <-. constructor; [apply max0_64_not_negative | constructor].
    + destruct (LoanApp64.schedule_loop _ _ _ _ _ _) as [rest|e] eqn:R;
        [|discriminate].
      simpl in H. injection H as <-.
      constructor; [apply max0_64_not_negative | exact (IH _ _ _ _ R)].
Qed.

Lemma manager64_loop_not_negative (monthly_rate monthly_payment : float)
    (todo : list Z) :
  forall balance : float,
    Forall (fun row => not_negative (LoanManager64.Ending_Balance row))
      (LoanManager64.schedule_loop monthly_rate monthly_payment todo balance).
Proof.
  induction todo as [|month todo IH]; intros balance; simpl; [constructor|].
  destruct (_ <=? 0)%float.
  - constructor; [apply max0_64_not_negative | constructor].
  - constructor; [apply max0_64_not_negative | apply IH].
Qed.

(** What the schedule on doubles returns is what its loop returned. *)
Lemma app64_schedule_loop (fpow : float -> float -> result float)
    (now : Datetime.datetime) (self : LoanApp64.LoanAnalyzer)
    (start_date : option Datetime.datetime) (rows : list LoanApp64.Row) :
  LoanApp64.create_amortization_schedule fpow now self start_date = Ok rows ->
  exists monthly_payment,
    LoanApp64.calculate_monthly_payment fpow self = Ok monthly_payment
    /\ LoanApp64.schedule_loop self monthly_payment
         (Py.range 1 (LoanApp64.num_payments self + 1))
         (LoanApp64.principal self) 0%float
         (match start_date with None => now | Some d => d end) = Ok rows.
Proof.
  unfold LoanApp64.create_amortization_schedule. intros H.
  destruct (LoanApp64.calculate_monthly_payment fpow self) as [payment|e];
    [|discriminate].
  exists payment. split; [reflexivity | exact H].
Qed.

Lemma manager64_schedule_loop (fpow : float -> float -> result float)
    (principal annual_rate years : float) (start_month : Z)
    (rows : list LoanManager64.Row) :
  LoanManager64.create_amortization_schedule fpow principal annual_rate years
    start_month = Ok rows ->
  exists monthly_payment periods,
    LoanManager64.calculate_monthly_payment fpow principal annual_rate years
    = Ok monthly_payment
    /\ Py64.int (years * 12)%float = Ok periods
    /\ rows = LoanManager64.schedule_loop (annual_rate / 100 / 12)%float
                monthly_payment (Py.range 0 periods) principal.
Proof.
  unfold LoanManager64.create_amortization_schedule. intros H.
  destruct (LoanManager64.calculate_monthly_payment fpow _ _ _) as [payment|e];
    [|discriminate].
  simpl in H. destruct (Py64.int _) as [periods|e]; [|discriminate].
  simpl in H. injection H as <-. exists payment, periods. auto.
Qed.

Lemma init64_principal (principal annual_rate years : float)
    (self : LoanApp64.LoanAnalyzer) :
  LoanApp64.init principal annual_rate years = Ok self ->
  LoanApp64.principal self = principal.
Proof.
  unfold LoanApp64.init. destruct (Py64.int _); [|discriminate].
  simpl. intros H. injection H as <-. reflexivity.
Qed.

Lemma final_row_in {Row : Type} (rows : list Row) (final : Row) :
  final_row rows final -> In final rows.
Proof. intros [front ->]. apply in_or_app. right. left. reflexivity. Qed.

(** * The claims *)

(** Validity of concrete loan terms, by evaluation. *)
Ltac concrete_terms :=
  unfold Spec.valid_terms; repeat split;
  solve [reflexivity | discriminate].

(** ** C1: the annuity formula *)

(** C1, as stated, fails on [LoanAnalyzer]: for principal 1200 at 12% over
    0.15 years (1.8 months) the code counts [int(1.8) = 1] period and
    returns 1212, while the formula with [round(1.8) = 2] periods gives
    about 609.01. *)
Lemma C1_counterexample :
  0 < 1200 /\ 0 < 12 /\ 0 < 3 # 20
  /\ Spec.total_periods (3 # 20) = 2%Z
  /\ returns (LoanApp.calculate_monthly_payment (LoanApp.init 1200 12 (3 # 20)))
       (fun payment => payment == 1212)
  /\ ~ returns (LoanApp.calculate_monthly_payment (LoanApp.init 1200 12 (3 # 20)))
         (fun payment =>
            payment == Spec.annuity 1200 (Spec.periodic_rate 12)
                         (Spec.total_periods (3 # 20))).
Proof.
  repeat split; try reflexivity.
  vm_compute. discriminate.
Qed.

(** C1, amended: for principal > 0, annual_rate > 0 and term_years > 0,
    [LoanAnalyzer.calculate_monthly_payment] returns
    principal × r × (1+r)^n / ((1+r)^n − 1) with r = annual_rate / 100 / 12
    and n = int(term_years × 12), the number of periods truncated to a
    whole period, provided n ≥ 1 (with n = 0 it raises ZeroDivisionError);
    when term_years × 12 is a whole number, n = round(term_years × 12) and
    [LoanScenarioAnalyzer.calculate_monthly_payment] returns the same
    formula's value. *)
Theorem C1_monthly_payment_annuity (fpow : Q -> Q -> Q)
    (principal annual_rate term_years : Q) :
  0 < principal -> 0 < annual_rate -> 0 < term_years ->
  let r := Spec.periodic_rate annual_rate in
  let n := Py.int (term_years * 12) in
  let app := LoanApp.calculate_monthly_payment
               (LoanApp.init principal annual_rate term_years) in
  (if (1 <=? n)%Z
   then returns app (fun payment => payment == Spec.annuity principal r n)
   else raises app ZeroDivisionError)
  /\ (Py.is_whole (term_years * 12) = true ->
      n = Spec.total_periods term_years
      /\ returns app
           (fun payment =>
              payment == Spec.annuity principal r (Spec.total_periods term_years))
      /\ returns (LoanManager.calculate_monthly_payment fpow principal
                    annual_rate term_years)
           (fun payment =>
              payment == Spec.annuity principal r (Spec.total_periods term_years))).
Proof.
  intros Hp Hr Hy r n app.
  assert (Hn0 : (0 <= n)%Z).
  { subst n. rewrite int_nonneg by lra. rewrite <- (Qfloor_Z 0).
    apply Qfloor_resp_le. change (inject_Z 0) with 0. lra. }
  split.
  - destruct (1 <=? n)%Z eqn:E.
    + apply Z.leb_le in E. subst app.
      rewrite (app_payment_annuity principal annual_rate term_years Hr E).
      apply annuity_assoc.
    + apply Z.leb_gt in E. subst app.
      rewrite app_payment_no_period; [reflexivity | subst n; lia].
  - intros Hw. unfold Spec.total_periods.
    rewrite (whole_round _ Hw). subst n. rewrite (whole_int _ Hw).
    pose proof (whole_periods_pos term_years Hy Hw) as Hn.
    split; [reflexivity|]. split.
    + subst app. rewrite app_payment_annuity by (rewrite ?(whole_int _ Hw); assumption).
      rewrite (whole_int _ Hw). apply annuity_assoc.
    + rewrite (manager_payment_whole fpow principal annual_rate term_years Hr Hy Hw).
      apply annuity_assoc.
Qed.

Lemma C1_monthly_payment_annuity_witness :
  returns (LoanApp.calculate_monthly_payment (LoanApp.init 1200 12 (3 # 20)))
    (fun payment => payment == Spec.annuity 1200 (Spec.periodic_rate 12) 1)
  /\ returns (LoanManager.calculate_monthly_payment (fun _ _ => 0) 1200 12 (1 # 4))
       (fun payment => payment == Spec.annuity 1200 (Spec.periodic_rate 12) 3).
Proof.
  split.
  - exact (proj1 (C1_monthly_payment_annuity (fun _ _ => 0) 1200 12 (3 # 20)
                    eq_refl eq_refl eq_refl)).
  - exact (proj2 (proj2 (proj2 (C1_monthly_payment_annuity (fun _ _ => 0) 1200 12 (1 # 4)
                    eq_refl eq_refl eq_refl) eq_refl))).
Defined.

(** ** C2: the zero-rate payment *)

(** C2, as stated, fails on [LoanAnalyzer]: at rate 0 it divides by
    [int(term_years × 12)].  For principal 120000 over 10.1 years
    (121.2 months) it returns 120000 / 121, not 120000 / 121.2. *)
Lemma C2_counterexample :
  0 == 0 /\ 0 < 120000 /\ 0 < 101 # 10
  /\ returns (LoanApp.calculate_monthly_payment (LoanApp.init 120000 0 (101 # 10)))
       (fun payment => payment == 120000 / 121)
  /\ ~ returns (LoanApp.calculate_monthly_payment (LoanApp.init 120000 0 (101 # 10)))
         (fun payment => payment == 120000 / ((101 # 10) * 12)).
Proof.
  repeat split; try reflexivity.
  vm_compute. discriminate.
Qed.

Lemma zero_rate_rows {Row : Type} (view : Row -> Core.Step) (pay : Row -> Q)
    (r payment : Q) (k : nat) (principal : Q) (rows : list Row) :
  r == 0 ->
  map view rows = Core.amortize r payment k principal ->
  Forall (fun row => pay row = payment) rows ->
  Forall (fun row => Core.interest_part (view row) == 0
                     /\ Core.principal_part (view row) == pay row) rows.
Proof.
  intros Hr Hm Hp.
  pose proof (amortize_zero_rate r payment k principal Hr) as H.
  rewrite <- Hm, Forall_map in H.
  rewrite Forall_forall in *. intros row Hin.
  rewrite (Hp row Hin). exact (H row Hin).
Qed.

Lemma periodic_rate_zero (annual_rate : Q) :
  annual_rate == 0 -> Spec.periodic_rate annual_rate == 0.
Proof. intros H. unfold Spec.periodic_rate. rewrite H. reflexivity. Qed.

(** C2, amended: for annual_rate == 0, principal > 0 and term_years > 0,
    [LoanScenarioAnalyzer.calculate_monthly_payment] returns
    principal / (term_years × 12), and [LoanAnalyzer.calculate_monthly_payment]
    returns principal / int(term_years × 12) (ZeroDivisionError when that
    count is 0), which is the same amount when term_years × 12 is whole; in
    particular principal = 120000, term_years = 10 yields 1000 in both, with
    a schedule of 120 records, and every record of a zero-rate schedule has
    interest 0 and a principal portion equal to the payment. *)
Theorem C2_zero_rate_payment (fpow : Q -> Q -> Q) (now : Datetime.datetime)
    (principal annual_rate term_years : Q)
    (start_date : option Datetime.datetime) (start_month : Z) :
  annual_rate == 0 -> 0 < principal -> 0 < term_years ->
  let n := Py.int (term_years * 12) in
  let app := LoanApp.calculate_monthly_payment
               (LoanApp.init principal annual_rate term_years) in
  returns (LoanManager.calculate_monthly_payment fpow principal annual_rate
             term_years)
    (fun payment => payment == principal / (term_years * 12))
  /\ (if (1 <=? n)%Z
      then returns app (fun payment => payment == principal / inject_Z n)
      else raises app ZeroDivisionError)
  /\ (Py.is_whole (term_years * 12) = true ->
      returns app (fun payment => payment == principal / (term_years * 12)))
  /\ (principal == 120000 -> term_years == 10 ->
      returns app (fun payment => payment == 1000)
      /\ returns (LoanManager.calculate_monthly_payment fpow principal
                    annual_rate term_years)
           (fun payment => payment == 1000)
      /\ returns (LoanManager.create_amortization_schedule fpow principal
                    annual_rate term_years start_month)
           (fun rows => List.length rows = 120%nat))
  /\ (forall rows,
        LoanApp.create_amortization_schedule now
          (LoanApp.init principal annual_rate term_years) start_date = Ok rows ->
        Forall (fun row =>
                  LoanApp.Interest_Payment row == 0
                  /\ LoanApp.Principal_Payment row == LoanApp.Monthly_Payment row)
               rows)
  /\ returns (LoanManager.create_amortization_schedule fpow principal
                annual_rate term_years start_month)
       (Forall (fun row =>
                  LoanManager.Interest row == 0
                  /\ LoanManager.Principal row == LoanManager.Payment_Amount row)).
Proof.
  intros Hr Hp Hy n app.
  assert (Hmgr : LoanManager.calculate_monthly_payment fpow principal annual_rate
                   term_years = Ok (principal / (term_years * 12))).
  { rewrite manager_payment_zero_rate by exact Hr. apply truediv_ok. lra. }
  assert (Happ : (1 <= n)%Z -> app = Ok (principal / inject_Z n)).
  { intros Hn. subst app. rewrite app_payment_zero_rate by exact Hr.
    apply truediv_ok. fold n. intros E. unfold Qeq in E. simpl in E. lia. }
  assert (Hwhole : forall m : Z, term_years * 12 == inject_Z m ->
                     n = m /\ (1 <= m)%Z).
  { intros m E. split; [apply int_inject_Z, E|].
    assert (L : 0 < inject_Z m) by lra. unfold Qlt in L. simpl in L. lia. }
  pose proof (periodic_rate_zero annual_rate Hr) as Hr0.
  split; [|split; [|split; [|split; [|split]]]].
  - rewrite Hmgr. reflexivity.
  - destruct (1 <=? n)%Z eqn:E.
    + apply Z.leb_le in E. rewrite (Happ E). reflexivity.
    + apply Z.leb_gt in E. subst app.
      rewrite app_payment_no_period; [reflexivity|].
      assert (0 <= n)%Z; [|fold n; lia].
      subst n. rewrite int_nonneg by lra. rewrite <- (Qfloor_Z 0).
      apply Qfloor_resp_le. change (inject_Z 0) with 0. lra.
  - intros Hw. destruct (Hwhole _ (whole_eq _ Hw)) as [En Hn].
    rewrite (Happ ltac:(lia)), En. simpl. now rewrite <- (whole_eq _ Hw).
  - intros HP HY. destruct (Hwhole 120%Z) as [En Hn].
    { rewrite HY. reflexivity. }
    split; [|split].
    + rewrite (Happ ltac:(lia)), En. simpl. rewrite HP. reflexivity.
    + rewrite Hmgr. simpl. rewrite HP, HY. reflexivity.
    + unfold LoanManager.create_amortization_schedule. rewrite Hmgr. simpl.
      rewrite <- (length_map manager_step), manager_loop_core, length_range.
      fold n. rewrite En. simpl Z.to_nat.
      apply amortize_full_length. intros j Hj.
      rewrite balance_after_zero_rate by exact Hr0.
      rewrite HP, HY.
      assert (J : inject_Z (Z.of_nat j) <= 119).
      { unfold Qle. simpl. lia. }
      revert J. generalize (inject_Z (Z.of_nat j)). intros x J.
      setoid_replace (120000 / (10 * 12)) with 1000 by reflexivity. lra.
  - intros rows Hrows.
    destruct (app_schedule_core _ _ _ _ _ _ Hrows) as (payment & _ & Hm & Hpay).
    exact (zero_rate_rows app_step LoanApp.Monthly_Payment _ _ _ _ _ Hr0 Hm Hpay).
  - destruct (manager_schedule_returns fpow _ _ _ _ start_month Hmgr) as [rows Hrows].
    rewrite Hrows. simpl.
    destruct (manager_schedule_core _ _ _ _ _ _ Hrows) as (payment & _ & Hm & Hpay).
    exact (zero_rate_rows manager_step LoanManager.Payment_Amount _ _ _ _ _ Hr0 Hm Hpay).
Qed.

Lemma C2_zero_rate_payment_witness :
  returns (LoanApp.calculate_monthly_payment (LoanApp.init 120000 0 10))
    (fun payment => payment == 1000)
  /\ returns (LoanManager.calculate_monthly_payment (fun _ _ => 0) 120000 0 10)
       (fun payment => payment == 1000)
  /\ returns (LoanManager.create_amortization_schedule (fun _ _ => 0)
                120000 0 10 1)
       (fun rows => List.length rows = 120%nat).
Proof.
  exact (proj1 (proj2 (proj2 (proj2
           (C2_zero_rate_payment (fun _ _ => 0) (Datetime.mk 2024 1 15)
              120000 0 10 None 1 (Qeq_refl 0) eq_refl eq_refl))))
           (Qeq_refl _) (Qeq_refl _)).
Defined.

(** ** C3: each record begins where the previous one ended *)

(** The payment of 100000 at 4.6875 % over half a year: the monthly rate
    is 2^-8 and [(1 + 2^-8) ** 6] is a double, which [**] returns as it
    is. *)
Lemma app64_sample_payment (fpow : float -> float -> result float) :
  fpow 1.00390625%float 6%float = Ok power_257_256_6 ->
  LoanApp64.calculate_monthly_payment fpow
    (LoanApp64.mkLoanAnalyzer 100000 4.6875 0.5 0.00390625 6)
  = Ok 0x1.07fd160fd6594p+14%float.
Proof.
  intros H. unfold LoanApp64.calculate_monthly_payment.
  cbn [LoanApp64.annual_rate LoanApp64.monthly_rate LoanApp64.num_payments
       LoanApp64.principal].
  change (4.6875 =? 0)%float with false. cbv iota.
  change (1 + 0.00390625)%float with 1.00390625%float.
  change (Py64.float_of_int 6) with 6%float.
  rewrite H. cbn [bind]. vm_compute. reflexivity.
Qed.

Lemma manager64_sample_payment (fpow : float -> float -> result float) :
  fpow 1.00390625%float 6%float = Ok power_257_256_6 ->
  LoanManager64.calculate_monthly_payment fpow 100000 4.6875 0.5
  = Ok 0x1.07fd160fd6594p+14%float.
Proof.
  intros H. unfold LoanManager64.calculate_monthly_payment.
  change (4.6875 =? 0)%float with false. cbv iota zeta.
  change (1 + 4.6875 / 100 / 12)%float with 1.00390625%float.
  change (0.5 * 12)%float with 6%float.
  rewrite H. cbn [bind]. vm_compute. reflexivity.
Qed.

(** C3, as stated, fails on the code's doubles, in both implementations.
    For 1000.1 (the double nearest to it) at rate 0 over half a year, where
    no [**] is computed, the first record begins at 1000.1000000000001,
    not at the principal.  For 100000 at 4.6875 % over half a year the
    first record ends at 83495.3534552105 and the second begins at
    83495.35345521048, one unit in the last place below it. *)
Lemma C3_counterexample :
  (Py64.valid_terms 0x1.f40cccccccccdp+9 0 0.5
   /\ (exists self rows first,
         LoanApp64.init 0x1.f40cccccccccdp+9 0 0.5 = Ok self
         /\ (forall fpow,
               LoanApp64.create_amortization_schedule fpow
                 (Datetime.mk 2024 11 15) self None = Ok rows)
         /\ nth_error rows 0 = Some first
         /\ LoanApp64.Beginning_Balance first = 0x1.f40cccccccccep+9%float
         /\ (LoanApp64.Beginning_Balance first
             =? 0x1.f40cccccccccdp+9)%float = false)
   /\ (exists rows first,
         (forall fpow start_month,
            LoanManager64.create_amortization_schedule fpow
              0x1.f40cccccccccdp+9 0 0.5 start_month = Ok rows)
         /\ nth_error rows 0 = Some first
         /\ (LoanManager64.Beginning_Balance first
             =? 0x1.f40cccccccccdp+9)%float = false))
  /\ Py64.valid_terms 100000 4.6875 0.5
  /\ (exists self rows prev next,
        LoanApp64.init 100000 4.6875 0.5 = Ok self
        /\ (forall fpow,
              fpow 1.00390625%float 6%float = Ok power_257_256_6 ->
              LoanApp64.create_amortization_schedule fpow
                (Datetime.mk 2024 11 15) self None = Ok rows)
        /\ nth_error rows 0 = Some prev
        /\ nth_error rows 1 = Some next
        /\ LoanApp64.Ending_Balance prev = 0x1.46275a7c0a69bp+16%float
        /\ LoanApp64.Beginning_Balance next = 0x1.46275a7c0a69ap+16%float
        /\ (LoanApp64.Beginning_Balance next
            =? LoanApp64.Ending_Balance prev)%float = false)
  /\ (exists rows prev next,
        (forall fpow start_month,
           fpow 1.00390625%float 6%float = Ok power_257_256_6 ->
           LoanManager64.create_amortization_schedule fpow 100000 4.6875 0.5
             start_month = Ok rows)
        /\ nth_error rows 0 = Some prev
        /\ nth_error rows 1 = Some next
        /\ (LoanManager64.Beginning_Balance next
            =? LoanManager64.Ending_Balance prev)%float = false).
Proof.
  split; [split; [repeat split | split]|].
  - eexists. eexists. eexists. split; [vm_compute; reflexivity|].
    split; [intros fpow; vm_compute; reflexivity|]. repeat split.
  - eexists. eexists.
    split; [intros fpow start_month; vm_compute; reflexivity|]. repeat split.
  - split; [repeat split|]. split.
    + exists (LoanApp64.mkLoanAnalyzer 100000 4.6875 0.5 0.00390625 6).
      eexists. eexists. eexists.
      split; [vm_compute; reflexivity|]. split.
      * intros fpow H. unfold LoanApp64.create_amortization_schedule.
        rewrite (app64_sample_payment fpow H). cbn [bind].
        vm_compute. reflexivity.
      * repeat split.
    + eexists. eexists. eexists. split.
      * intros fpow start_month H.
        unfold LoanManager64.create_amortization_schedule.
        rewrite (manager64_sample_payment fpow H). cbn [bind].
        vm_compute. reflexivity.
      * repeat split.
Qed.

(** In exact arithmetic the balances are carried over as C3 says. *)
Lemma balances_carry_exact (fpow : Q -> Q -> Q)
    (now : Datetime.datetime) (principal annual_rate term_years : Q)
    (start_date : option Datetime.datetime) (start_month : Z) :
  (forall rows,
     LoanApp.create_amortization_schedule now
       (LoanApp.init principal annual_rate term_years) start_date = Ok rows ->
     balances_carry LoanApp.Beginning_Balance LoanApp.Ending_Balance
       principal rows)
  /\ (forall rows,
        LoanManager.create_amortization_schedule fpow principal annual_rate
          term_years start_month = Ok rows ->
        balances_carry LoanManager.Beginning_Balance LoanManager.Ending_Balance
          principal rows).
Proof.
  split; intros rows Hrows.
  - destruct (app_schedule_core _ _ _ _ _ _ Hrows) as (payment & _ & Hm & _).
    apply (chained_carry app_step). rewrite Hm. apply amortize_chained.
  - destruct (manager_schedule_core _ _ _ _ _ _ Hrows) as (payment & _ & Hm & _).
    apply (chained_carry manager_step). rewrite Hm. apply amortize_chained.
Qed.

(** C3, amended: in every schedule returned for valid inputs, by
    [LoanAnalyzer.create_amortization_schedule] and by
    [LoanScenarioAnalyzer.create_amortization_schedule], the first
    record's beginning balance is (principal − p) + p and every later
    record's beginning balance is (e − p) + p, where p is the record's own
    principal portion and e the ending balance of the record before it.
    In exact arithmetic that is the principal, and the previous ending
    balance; on the code's doubles the two operations are rounded and the
    result can differ from them in the last place. *)
Theorem C3_beginning_balance_carried (fpow : Q -> Q -> Q)
    (now : Datetime.datetime) (principal annual_rate term_years : Q)
    (start_date : option Datetime.datetime) (start_month : Z)
    (fpow64 : float -> float -> result float)
    (principal64 annual_rate64 term_years64 : float) :
  (Spec.valid_terms principal annual_rate term_years ->
   (forall rows,
      LoanApp.create_amortization_schedule now
        (LoanApp.init principal annual_rate term_years) start_date = Ok rows ->
      balances_carry LoanApp.Beginning_Balance LoanApp.Ending_Balance
        principal rows)
   /\ (forall rows,
         LoanManager.create_amortization_schedule fpow principal annual_rate
           term_years start_month = Ok rows ->
         balances_carry LoanManager.Beginning_Balance
           LoanManager.Ending_Balance principal rows))
  /\ (Py64.valid_terms principal64 annual_rate64 term_years64 ->
      (forall self rows,
         LoanApp64.init principal64 annual_rate64 term_years64 = Ok self ->
         LoanApp64.create_amortization_schedule fpow64 now self start_date
         = Ok rows ->
         balances_recomputed LoanApp64.Beginning_Balance
           LoanApp64.Principal_Payment LoanApp64.Ending_Balance
           principal64 rows)
      /\ (forall rows,
            LoanManager64.create_amortization_schedule fpow64 principal64
              annual_rate64 term_years64 start_month = Ok rows ->
            balances_recomputed LoanManager64.Beginning_Balance
              LoanManager64.Principal LoanManager64.Ending_Balance
              principal64 rows)).
Proof.
  split.
  - intros _. apply balances_carry_exact.
  - intros _. split.
    + intros self rows Hself Hrows.
      destruct (app64_schedule_loop _ _ _ _ _ Hrows) as (payment & _ & Hloop).
      rewrite <- (init64_principal _ _ _ _ Hself).
      exact (app64_loop_recomputed _ _ _ _ _ _ _ Hloop).
    + intros rows Hrows.
      destruct (manager64_schedule_loop _ _ _ _ _ _ Hrows)
        as (payment & periods & _ & _ & ->).
      apply manager64_loop_recomputed.
Qed.

Lemma C3_beginning_balance_carried_witness :
  (exists rows,
     LoanApp.create_amortization_schedule (Datetime.mk 2024 11 15)
       (LoanApp.init 1200 12 (1 # 4)) None = Ok rows
     /\ List.length rows = 3%nat
     /\ balances_carry LoanApp.Beginning_Balance LoanApp.Ending_Balance 1200 rows)
  /\ (exists self rows,
        LoanApp64.init 1000 0 0.25 = Ok self
        /\ LoanApp64.create_amortization_schedule (fun _ _ => Err OverflowError)
             (Datetime.mk 2024 11 15) self None = Ok rows
        /\ List.length rows = 3%nat
        /\ balances_recomputed LoanApp64.Beginning_Balance
             LoanApp64.Principal_Payment LoanApp64.Ending_Balance 1000 rows).
Proof.
  pose proof (C3_beginning_balance_carried (fun _ _ => 0)
                (Datetime.mk 2024 11 15) 1200 12 (1 # 4) None 1
                (fun _ _ => Err OverflowError) 1000 0 0.25) as [Exact Doubles].
  split.
  - eexists. split; [vm_compute; reflexivity|]. split; [reflexivity|].
    apply (proj1 (Exact ltac:(concrete_terms))). vm_compute. reflexivity.
  - eexists. eexists. split; [vm_compute; reflexivity|].
    split; [vm_compute; reflexivity|]. split; [reflexivity|].
    eapply (proj1 (Doubles ltac:(repeat split))); vm_compute; reflexivity.
Defined.

(** ** C4: the final ending balance *)

(** C4, as stated, fails on the code's doubles, in both implementations:
    for 1000 at rate 0 over a quarter of a year the payment is
    333.3333333333333, and after three payments the balance is
    2^-43 (about 1.1e-13), which [max(0, balance)] keeps: the final record
    does not end at 0. *)
Lemma C4_counterexample :
  Py64.valid_terms 1000 0 0.25
  /\ (exists self rows final,
        LoanApp64.init 1000 0 0.25 = Ok self
        /\ (forall fpow,
              LoanApp64.create_amortization_schedule fpow
                (Datetime.mk 2024 11 15) self None = Ok rows)
        /\ final_row rows final
        /\ LoanApp64.Ending_Balance final = 0x1p-43%float
        /\ (LoanApp64.Ending_Balance final =? 0)%float = false)
  /\ (exists rows final,
        (forall fpow start_month,
           LoanManager64.create_amortization_schedule fpow 1000 0 0.25
             start_month = Ok rows)
        /\ final_row rows final
        /\ LoanManager64.Ending_Balance final = 0x1p-43%float
        /\ (LoanManager64.Ending_Balance final =? 0)%float = false).
Proof.
  split; [repeat split|]. split.
  - eexists. eexists. eexists. split; [vm_compute; reflexivity|].
    split; [intros fpow; vm_compute; reflexivity|].
    split; [eexists [_; _]; reflexivity|]. split; reflexivity.
  - eexists. eexists.
    split; [intros fpow start_month; vm_compute; reflexivity|].
    split; [eexists [_; _]; reflexivity|]. split; reflexivity.
Qed.

Lemma whole_periods (term_years : Q) :
  0 < term_years -> Py.is_whole (term_years * 12) = true ->
  (1 <= Py.int (term_years * 12))%Z
  /\ term_years * 12 == inject_Z (Py.int (term_years * 12))
  /\ Qnum (Qred (term_years * 12)) = Py.int (term_years * 12).
Proof.
  intros Hy Hw. rewrite (whole_int _ Hw).
  split; [now apply whole_periods_pos|]. split; [now apply whole_eq | reflexivity].
Qed.

(** The balance reaches zero after [int(term_years × 12)] periods when the
    payment is sized for that many periods. *)
Lemma sized_payment_clears (principal annual_rate payment : Q) (n : Z) :
  0 <= annual_rate -> (1 <= n)%Z ->
  (if Qeq_bool annual_rate 0
   then payment == principal / inject_Z n
   else payment == principal
                   * (Spec.periodic_rate annual_rate
                      * (1 + Spec.periodic_rate annual_rate) ^ n)
                   / ((1 + Spec.periodic_rate annual_rate) ^ n - 1)) ->
  (1 <= Z.to_nat n)%nat
  /\ Core.balance_after (Spec.periodic_rate annual_rate) payment (Z.to_nat n)
       principal <= 0.
Proof.
  intros Hr Hn Hpay. split; [lia|].
  assert (En : Z.of_nat (Z.to_nat n) = n) by lia.
  destruct (Qeq_bool annual_rate 0) eqn:E.
  - apply Qeq_bool_eq in E.
    rewrite (final_balance_straight principal _ payment (Z.to_nat n));
      [apply Qle_refl | now apply periodic_rate_zero | lia | now rewrite En].
  - apply Qeq_bool_neq in E.
    rewrite (final_balance_annuity principal _ payment (Z.to_nat n));
      [apply Qle_refl | apply periodic_rate_pos; lra | lia | now rewrite En].
Qed.

(** The payment [LoanAnalyzer] returns is sized for the periods it counts. *)
Lemma app_payment_sized (principal annual_rate term_years : Q) :
  0 <= annual_rate -> (1 <= Py.int (term_years * 12))%Z ->
  exists payment,
    LoanApp.calculate_monthly_payment
      (LoanApp.init principal annual_rate term_years) = Ok payment
    /\ if Qeq_bool annual_rate 0
       then payment == principal / inject_Z (Py.int (term_years * 12))
       else payment == principal
              * (Spec.periodic_rate annual_rate
                 * (1 + Spec.periodic_rate annual_rate)
                   ^ Py.int (term_years * 12))
              / ((1 + Spec.periodic_rate annual_rate)
                 ^ Py.int (term_years * 12) - 1).
Proof.
  intros Hr Hn. destruct (Qeq_bool annual_rate 0) eqn:E.
  - apply Qeq_bool_eq in E. eexists. split; [|reflexivity].
    rewrite app_payment_zero_rate by exact E. apply truediv_ok.
    intros Z0. unfold Qeq in Z0. simpl in Z0. lia.
  - apply Qeq_bool_neq in E. eexists. split; [|reflexivity].
    apply app_payment_annuity; [lra | exact Hn].
Qed.

(** So is [LoanScenarioAnalyzer]'s when the term is a whole number of
    months. *)
Lemma manager_payment_sized (fpow : Q -> Q -> Q)
    (principal annual_rate term_years : Q) :
  0 <= annual_rate -> 0 < term_years ->
  Py.is_whole (term_years * 12) = true ->
  exists payment,
    LoanManager.calculate_monthly_payment fpow principal annual_rate term_years
    = Ok payment
    /\ if Qeq_bool annual_rate 0
       then payment == principal / inject_Z (Py.int (term_years * 12))
       else payment == principal
              * (Spec.periodic_rate annual_rate
                 * (1 + Spec.periodic_rate annual_rate)
                   ^ Py.int (term_years * 12))
              / ((1 + Spec.periodic_rate annual_rate)
                 ^ Py.int (term_years * 12) - 1).
Proof.
  intros Hr Hy Hw. destruct (whole_periods term_years Hy Hw) as (Hn & Ew & En).
  destruct (Qeq_bool annual_rate 0) eqn:E.
  - apply Qeq_bool_eq in E. eexists. split.
    + rewrite manager_payment_zero_rate by exact E. apply truediv_ok. lra.
    + now rewrite <- Ew.
  - apply Qeq_bool_neq in E. eexists. split.
    + apply manager_payment_whole; [lra | exact Hy | exact Hw].
    + rewrite En. reflexivity.
Qed.

(** In exact arithmetic a payment sized for the periods of the loop
    brings the balance to 0 with the last record. *)
Lemma final_balance_zero_exact (fpow : Q -> Q -> Q)
    (now : Datetime.datetime) (principal annual_rate term_years : Q)
    (start_date : option Datetime.datetime) (start_month : Z) :
  Spec.valid_terms principal annual_rate term_years ->
  let self := LoanApp.init principal annual_rate term_years in
  let periods := Py.int (term_years * 12) in
  (forall rows,
     (1 <= periods)%Z ->
     LoanApp.create_amortization_schedule now self start_date = Ok rows ->
     exists final,
       final_row rows final /\ LoanApp.Ending_Balance final == 0)
  /\ ((1 <= periods)%Z ->
      steps_stay_valid (match start_date with None => now | Some d => d end)
        (Z.to_nat periods) ->
      exists rows,
        LoanApp.create_amortization_schedule now self start_date = Ok rows)
  /\ (Py.is_whole (term_years * 12) = true ->
      (1 <= periods)%Z
      /\ exists rows final,
           LoanManager.create_amortization_schedule fpow principal annual_rate
             term_years start_month = Ok rows
           /\ final_row rows final
           /\ LoanManager.Ending_Balance final == 0).
Proof.
  intros (Hp & Hr & Hy) self periods. split; [|split].
  - intros rows Hn Hrows.
    destruct (app_schedule_core _ _ _ _ _ _ Hrows) as (payment & Hpay & Hm & _).
    destruct (app_payment_sized principal annual_rate term_years Hr Hn)
      as (payment' & Hpay' & Hsized).
    rewrite Hpay in Hpay'. injection Hpay' as <-.
    destruct (sized_payment_clears principal annual_rate payment periods
                Hr Hn Hsized) as [Hk Hb].
    exact (core_final_row app_step _ _ _ _ _ Hm Hk Hb).
  - intros Hn Hd.
    destruct (app_payment_sized principal annual_rate term_years Hr Hn)
      as (payment & Hpay & _).
    exact (app_schedule_returns now self start_date payment Hpay Hd).
  - intros Hw. destruct (whole_periods term_years Hy Hw) as (Hn & _ & _).
    split; [exact Hn|].
    destruct (manager_payment_sized fpow principal annual_rate term_years
                Hr Hy Hw) as (payment & Hpay & Hsized).
    destruct (sized_payment_clears principal annual_rate payment periods
                Hr Hn Hsized) as [Hk Hb].
    destruct (manager_schedule_returns fpow _ _ _ _ start_month Hpay)
      as [rows Hrows].
    destruct (manager_schedule_core _ _ _ _ _ _ Hrows) as (payment' & Hpay' & Hm & _).
    rewrite Hpay in Hpay'. injection Hpay' as <-.
    destruct (core_final_row manager_step _ _ _ _ _ Hm Hk Hb) as (final & Hf & He).
    exists rows, final. auto.
Qed.

(** C4, amended: for every valid LoanTerms the ending balance of the
    final record is max(0, balance), so it is 0 or positive, never
    negative.  In exact arithmetic it is 0 when term_years × 12 is a whole
    number (in both implementations) and, for [LoanAnalyzer], for every
    term of at least one whole month, because the payment is sized for
    exactly the periods the loop runs; on the code's doubles the rounded
    subtractions can leave a small positive balance, which the clamping
    does not remove. *)
Theorem C4_final_ending_balance_zero (fpow : Q -> Q -> Q)
    (now : Datetime.datetime) (principal annual_rate term_years : Q)
    (start_date : option Datetime.datetime) (start_month : Z)
    (fpow64 : float -> float -> result float)
    (principal64 annual_rate64 term_years64 : float) :
  (Spec.valid_terms principal annual_rate term_years ->
   let self := LoanApp.init principal annual_rate term_years in
   let periods := Py.int (term_years * 12) in
   (forall rows,
      (1 <= periods)%Z ->
      LoanApp.create_amortization_schedule now self start_date = Ok rows ->
      exists final,
        final_row rows final /\ LoanApp.Ending_Balance final == 0)
   /\ ((1 <= periods)%Z ->
       steps_stay_valid (match start_date with None => now | Some d => d end)
         (Z.to_nat periods) ->
       exists rows,
         LoanApp.create_amortization_schedule now self start_date = Ok rows)
   /\ (Py.is_whole (term_years * 12) = true ->
       (1 <= periods)%Z
       /\ exists rows final,
            LoanManager.create_amortization_schedule fpow principal annual_rate
              term_years start_month = Ok rows
            /\ final_row rows final
            /\ LoanManager.Ending_Balance final == 0))
  /\ (Py64.valid_terms principal64 annual_rate64 term_years64 ->
      (forall self rows final,
         LoanApp64.init principal64 annual_rate64 term_years64 = Ok self ->
         LoanApp64.create_amortization_schedule fpow64 now self start_date
         = Ok rows ->
         final_row rows final ->
         not_negative (LoanApp64.Ending_Balance final))
      /\ (forall rows final,
            LoanManager64.create_amortization_schedule fpow64 principal64
              annual_rate64 term_years64 start_month = Ok rows ->
            final_row rows final ->
            not_negative (LoanManager64.Ending_Balance final))).
Proof.
  split; [apply final_balance_zero_exact|].
  intros _. split.
  - intros self rows final _ Hrows Hfinal.
    destruct (app64_schedule_loop _ _ _ _ _ Hrows) as (payment & _ & Hloop).
    pose proof (app64_loop_not_negative _ _ _ _ _ _ _ Hloop) as F.
    rewrite Forall_forall in F. exact (F final (final_row_in _ _ Hfinal)).
  - intros rows final Hrows Hfinal.
    destruct (manager64_schedule_loop _ _ _ _ _ _ Hrows)
      as (payment & periods & _ & _ & ->).
    pose proof (manager64_loop_not_negative (annual_rate64 / 100 / 12)%float
                  payment (Py.range 0 periods) principal64) as F.
    rewrite Forall_forall in F. exact (F final (final_row_in _ _ Hfinal)).
Qed.

Lemma C4_final_ending_balance_zero_witness :
  (exists rows final,
     LoanApp.create_amortization_schedule (Datetime.mk 2024 11 15)
       (LoanApp.init 1200 12 (1 # 4)) None = Ok rows
     /\ List.length rows = 3%nat
     /\ final_row rows final /\ LoanApp.Ending_Balance final == 0)
  /\ (exists rows final,
        LoanApp.create_amortization_schedule (Datetime.mk 2024 11 15)
          (LoanApp.init 555000 (549 # 100) 27) None = Ok rows
        /\ final_row rows final /\ LoanApp.Ending_Balance final == 0)
  /\ (exists rows final,
        LoanManager.create_amortization_schedule (fun _ _ => 0) 1200 12 (1 # 4) 1
        = Ok rows
        /\ final_row rows final /\ LoanManager.Ending_Balance final == 0)
  /\ (exists self rows final,
        LoanApp64.init 1000 0 0.25 = Ok self
        /\ LoanApp64.create_amortization_schedule (fun _ _ => Err OverflowError)
             (Datetime.mk 2024 11 15) self None = Ok rows
        /\ final_row rows final
        /\ not_negative (LoanApp64.Ending_Balance final)).
Proof.
  pose proof (C4_final_ending_balance_zero (fun _ _ => 0)
                (Datetime.mk 2024 11 15) 1200 12 (1 # 4) None 1
                (fun _ _ => Err OverflowError) 1000 0 0.25) as [Exact Doubles].
  destruct (Exact ltac:(concrete_terms)) as (Happ & _ & Hmgr).
  pose proof (proj1 (C4_final_ending_balance_zero (fun _ _ => 0)
                       (Datetime.mk 2024 11 15) 555000 (549 # 100) 27 None 1
                       (fun _ _ => Err OverflowError) 1000 0 0.25)
                ltac:(concrete_terms)) as (Hfin & Hret & _).
  split; [|split; [|split]].
  - eexists.
    destruct (Happ _ ltac:(vm_compute; discriminate)
                ltac:(vm_compute; reflexivity)) as (final & Hf & He).
    exists final.
    split; [vm_compute; reflexivity | split; [reflexivity | split; assumption]].
  - assert (Hn : (1 <= Py.int (27 * 12))%Z) by (vm_compute; discriminate).
    destruct (Hret Hn ltac:(unfold steps_stay_valid; simpl; lia)) as [rows E].
    destruct (Hfin rows Hn E) as (final & Hf & He).
    exists rows, final. auto.
  - exact (proj2 (Hmgr eq_refl)).
  - eexists. eexists. eexists. split; [vm_compute; reflexivity|].
    split; [vm_compute; reflexivity|].
    split; [eexists [_; _]; reflexivity|].
    eapply (proj1 (Doubles ltac:(repeat split)));
      [vm_compute; reflexivity | vm_compute; reflexivity
       | eexists [_; _]; reflexivity].
Defined.

(** ** C5: the break-even figure *)

(** C5, as stated, fails on [scenario_analysis]: with two interest-free
    loans of 1200 over one year (100 a month each), stretching the first
    to two years saves 50 a month; for costs of 120 the code reports
    [math.ceil(120 / 50) = 3] months, not 120 / 50. *)
Lemma C5_counterexample :
  exists current row,
    (forall fpow,
       LoanManager.scenario_analysis fpow two_small_loans [longer_apartment_term]
       = Ok [current; row])
    /\ LoanManager.Refi_Costs row == 120
    /\ LoanManager.Monthly_Savings row == 50
    /\ LoanManager.Breakeven_Months row = LoanManager.Months 3
    /\ ~ inject_Z 3
         == LoanManager.Refi_Costs row / LoanManager.Monthly_Savings row.
Proof.
  eexists. eexists.
  split; [intros fpow; vm_compute; reflexivity|].
  repeat split; discriminate.
Qed.

(** The break-even cell that goes with given savings and costs. *)
Lemma scenario_row_breakeven (fpow : Q -> Q -> Q)
    (self : LoanManager.LoanScenarioAnalyzer) (current_total : Q) (i : nat)
    (scenario : LoanManager.Scenario) (row : LoanManager.ResultRow) :
  LoanManager.scenario_row fpow self current_total i scenario = Ok row ->
  LoanManager.Breakeven_Months row
  = if Py.gt (LoanManager.Monthly_Savings row) 0
    then LoanManager.Months
           (Py.ceil (LoanManager.Refi_Costs row / LoanManager.Monthly_Savings row))
    else LoanManager.NA.
Proof.
  unfold LoanManager.scenario_row.
  destruct (LoanManager.calculate_monthly_payment fpow _ _ _) as [apt|e]; simpl;
    [|discriminate].
  destruct (LoanManager.calculate_monthly_payment fpow _ _ _) as [inv|e]; simpl;
    [|discriminate].
  destruct (Py.gt (current_total - (apt + inv)) 0) eqn:G; simpl.
  - rewrite truediv_ok by (apply gt_true in G; lra). simpl.
    intros [= <-]. simpl. rewrite G. reflexivity.
  - intros [= <-]. simpl. rewrite G. reflexivity.
Qed.

Lemma scenario_rows_breakeven (fpow : Q -> Q -> Q)
    (self : LoanManager.LoanScenarioAnalyzer) (current_total : Q)
    (scenarios : list LoanManager.Scenario) :
  forall (i : nat) (rows : list LoanManager.ResultRow),
  LoanManager.scenario_rows fpow self current_total i scenarios = Ok rows ->
  Forall (fun row =>
            LoanManager.Breakeven_Months row
            = if Py.gt (LoanManager.Monthly_Savings row) 0
              then LoanManager.Months
                     (Py.ceil (LoanManager.Refi_Costs row
                               / LoanManager.Monthly_Savings row))
              else LoanManager.NA) rows.
Proof.
  induction scenarios as [|scenario rest IH]; intros i rows; simpl.
  - intros [= <-]. constructor.
  - destruct (LoanManager.scenario_row _ _ _ _ _) as [row|e] eqn:R; simpl;
      [|discriminate].
    destruct (LoanManager.scenario_rows _ _ _ _ _) as [rows'|e] eqn:S; simpl;
      [|discriminate].
    intros [= <-]. constructor.
    + exact (scenario_row_breakeven _ _ _ _ _ _ R).
    + exact (IH _ _ S).
Qed.

(** C5, amended: [scenario_analysis] reports, in every row, the break-even
    as math.ceil(refi_costs / monthly_savings), a whole number of months,
    whenever monthly_savings > 0, and as the distinct value 'N/A' otherwise
    (so never as a number for zero or negative savings); the refinancing
    panel of the dashboard shows the raw quotient refi_costs / savings when
    savings > 0 and no break-even figure otherwise. *)
Theorem C5_breakeven_reported (fpow : Q -> Q -> Q)
    (self : LoanManager.LoanScenarioAnalyzer)
    (scenarios : list LoanManager.Scenario)
    (payment new_payment refi_costs : Q) :
  (forall rows,
     LoanManager.scenario_analysis fpow self scenarios = Ok rows ->
     Forall (fun row =>
               LoanManager.Breakeven_Months row
               = if Py.gt (LoanManager.Monthly_Savings row) 0
                 then LoanManager.Months
                        (Py.ceil (LoanManager.Refi_Costs row
                                  / LoanManager.Monthly_Savings row))
                 else LoanManager.NA) rows)
  /\ LoanApp.refinance_panel payment new_payment refi_costs
     = Ok (if Py.gt (payment - new_payment) 0
           then LoanApp.Savings_and_Breakeven (payment - new_payment)
                  (refi_costs / (payment - new_payment))
           else LoanApp.Monthly_Increase (Qabs (payment - new_payment))).
Proof.
  split.
  - intros rows. unfold LoanManager.scenario_analysis.
    destruct (LoanManager.calculate_monthly_payment fpow _ _ _) as [apt|e]; simpl;
      [|discriminate].
    destruct (LoanManager.calculate_monthly_payment fpow _ _ _) as [inv|e]; simpl;
      [|discriminate].
    destruct (LoanManager.scenario_rows _ _ _ _ _) as [rows'|e] eqn:S; simpl;
      [|discriminate].
    intros [= <-]. constructor.
    + reflexivity.
    + exact (scenario_rows_breakeven _ _ _ _ _ _ S).
  - unfold LoanApp.refinance_panel.
    destruct (Py.gt (payment - new_payment) 0) eqn:G; [|reflexivity].
    rewrite truediv_ok by (apply gt_true in G; lra). reflexivity.
Qed.

Lemma C5_breakeven_reported_witness :
  exists rows,
    LoanManager.scenario_analysis (fun _ _ => 0) two_small_loans
      [longer_apartment_term; LoanManager.mkScenario None None (Some (1 # 2)) None None]
    = Ok rows
    /\ map LoanManager.Breakeven_Months rows
       = [LoanManager.NA; LoanManager.Months 3; LoanManager.NA]
    /\ Forall (fun row =>
                 LoanManager.Breakeven_Months row
                 = if Py.gt (LoanManager.Monthly_Savings row) 0
                   then LoanManager.Months
                          (Py.ceil (LoanManager.Refi_Costs row
                                    / LoanManager.Monthly_Savings row))
                   else LoanManager.NA) rows.
Proof.
  eexists. split; [vm_compute; reflexivity|]. split; [reflexivity|].
  apply (proj1 (C5_breakeven_reported (fun _ _ => 0) two_small_loans
                  [longer_apartment_term;
                   LoanManager.mkScenario None None (Some (1 # 2)) None None]
                  100 50 120)).
  vm_compute. reflexivity.
Defined.

(** ** C6: invalid arguments *)

(** C6, as stated, fails: nothing is validated.  With a negative principal
    ([-1200], rate 0, one year) the payment is [-100] and the schedule holds
    one record; with a negative rate the annuity formula is applied as it
    is; with a negative term ([-1] year) the payment is [-100] and the
    schedule is empty. *)
Lemma C6_counterexample :
  (-1200 <= 0
   /\ returns (LoanApp.calculate_monthly_payment (LoanApp.init (-1200) 0 1))
        (fun payment => payment == -100)
   /\ returns (LoanApp.create_amortization_schedule (Datetime.mk 2024 11 15)
                 (LoanApp.init (-1200) 0 1) None)
        (fun rows => List.length rows = 1%nat)
   /\ forall fpow,
        returns (LoanManager.create_amortization_schedule fpow (-1200) 0 1 1)
          (fun rows => List.length rows = 1%nat))
  /\ (-12 < 0
      /\ is_ok (LoanApp.calculate_monthly_payment (LoanApp.init 1200 (-12) 1))
         = true)
  /\ (-1 <= 0
      /\ returns (LoanApp.calculate_monthly_payment (LoanApp.init 1200 0 (-1)))
           (fun payment => payment == -100)
      /\ LoanApp.create_amortization_schedule (Datetime.mk 2024 11 15)
           (LoanApp.init 1200 0 (-1)) None = Ok []).
Proof.
  repeat split; try discriminate.
Qed.

Lemma app_payment_error (self : LoanApp.LoanAnalyzer) (e : error) :
  raises (LoanApp.calculate_monthly_payment self) e -> e = ZeroDivisionError.
Proof.
  unfold LoanApp.calculate_monthly_payment, Py.pow_int, Py.truediv.
  destruct (Qeq_bool (LoanApp.annual_rate self) 0).
  - destruct (Qeq_bool _ 0); simpl; [congruence | contradiction].
  - destruct (_ && _); simpl; [congruence|].
    destruct (Qeq_bool _ 0); simpl; [congruence | contradiction].
Qed.

Lemma manager_payment_no_term (fpow : Q -> Q -> Q)
    (principal annual_rate years : Q) :
  years == 0 ->
  LoanManager.calculate_monthly_payment fpow principal annual_rate years
  = Err ZeroDivisionError.
Proof.
  intros Hy. assert (E : years * 12 == inject_Z 0) by (rewrite Hy; reflexivity).
  unfold LoanManager.calculate_monthly_payment.
  destruct (Qeq_bool annual_rate 0).
  - apply truediv_zero. rewrite E. reflexivity.
  - assert (Hw : Py.is_whole (years * 12) = true).
    { unfold Py.is_whole. rewrite (Qred_complete _ _ E). reflexivity. }
    unfold Py.pow. rewrite Hw.
    replace (Qnum (Qred (years * 12))) with 0%Z
      by (rewrite (Qred_complete _ _ E); reflexivity).
    rewrite pow_int_nonneg by lia. reflexivity.
Qed.

(** On doubles too, no period to pay in makes the payment divide by
    zero; [x ** 0] is [1.0] for every [x]. *)
Lemma app64_payment_no_period (fpow : float -> float -> result float)
    (self : LoanApp64.LoanAnalyzer) :
  (forall b e, (e =? 0)%float = true -> fpow b e = Ok 1%float) ->
  LoanApp64.num_payments self = 0%Z ->
  LoanApp64.calculate_monthly_payment fpow self = Err ZeroDivisionError.
Proof.
  intros Hpow Hn. unfold LoanApp64.calculate_monthly_payment. rewrite Hn.
  change (Py64.float_of_int 0) with 0%float.
  destruct (_ =? 0)%float; [reflexivity|].
  rewrite (Hpow _ 0%float eq_refl). reflexivity.
Qed.

Lemma manager64_payment_no_period (fpow : float -> float -> result float)
    (principal annual_rate years : float) :
  (forall b e, (e =? 0)%float = true -> fpow b e = Ok 1%float) ->
  (years * 12 =? 0)%float = true ->
  LoanManager64.calculate_monthly_payment fpow principal annual_rate years
  = Err ZeroDivisionError.
Proof.
  intros Hpow Hy. unfold LoanManager64.calculate_monthly_payment.
  destruct (annual_rate =? 0)%float.
  - unfold Py64.truediv. rewrite Hy. reflexivity.
  - cbv zeta. rewrite (Hpow _ _ Hy). reflexivity.
Qed.

(** C6, amended: [calculate_monthly_payment] and
    [create_amortization_schedule] check none of their arguments and
    know no InvalidArgument error.  When the term holds no period
    (int(term_years × 12) = 0 in [LoanAnalyzer], term_years × 12 = 0 in
    [LoanScenarioAnalyzer]) the payment computation fails with
    ZeroDivisionError, and whenever the payment computation fails, with
    whatever error, the schedule fails with the same error before any
    record is emitted.  This holds in exact arithmetic and on the
    code's doubles, where [**] can fail as well. *)
Theorem C6_no_validation (fpow : Q -> Q -> Q) (now : Datetime.datetime)
    (principal annual_rate term_years : Q)
    (start_date : option Datetime.datetime) (start_month : Z)
    (fpow64 : float -> float -> result float)
    (principal64 annual_rate64 term_years64 : float) :
  let self := LoanApp.init principal annual_rate term_years in
  ((forall e, raises (LoanApp.calculate_monthly_payment self) e ->
              raises (LoanApp.create_amortization_schedule now self start_date) e)
   /\ (forall e, raises (LoanManager.calculate_monthly_payment fpow principal
                           annual_rate term_years) e ->
                 raises (LoanManager.create_amortization_schedule fpow principal
                           annual_rate term_years start_month) e)
   /\ (Py.int (term_years * 12) = 0%Z ->
       raises (LoanApp.calculate_monthly_payment self) ZeroDivisionError)
   /\ (term_years == 0 ->
       raises (LoanManager.calculate_monthly_payment fpow principal annual_rate
                 term_years) ZeroDivisionError))
  /\ ((forall self64 e,
         raises (LoanApp64.calculate_monthly_payment fpow64 self64) e ->
         raises (LoanApp64.create_amortization_schedule fpow64 now self64
                   start_date) e)
      /\ (forall e,
            raises (LoanManager64.calculate_monthly_payment fpow64 principal64
                      annual_rate64 term_years64) e ->
            raises (LoanManager64.create_amortization_schedule fpow64
                      principal64 annual_rate64 term_years64 start_month) e)
      /\ ((forall b e, (e =? 0)%float = true -> fpow64 b e = Ok 1%float) ->
          (forall self64,
             LoanApp64.num_payments self64 = 0%Z ->
             raises (LoanApp64.calculate_monthly_payment fpow64 self64)
               ZeroDivisionError)
          /\ ((term_years64 * 12 =? 0)%float = true ->
              raises (LoanManager64.calculate_monthly_payment fpow64
                        principal64 annual_rate64 term_years64)
                ZeroDivisionError))).
Proof.
  intros self. split; [split; [|split; [|split]] | split; [|split]].
  - intros e He. unfold LoanApp.create_amortization_schedule.
    destruct (LoanApp.calculate_monthly_payment self); [contradiction | exact He].
  - intros e He. unfold LoanManager.create_amortization_schedule.
    destruct (LoanManager.calculate_monthly_payment _ _ _ _);
      [contradiction | exact He].
  - intros Hn. subst self. rewrite app_payment_no_period by exact Hn. reflexivity.
  - intros Hy. rewrite manager_payment_no_term by exact Hy. reflexivity.
  - intros self64 e He. unfold LoanApp64.create_amortization_schedule.
    destruct (LoanApp64.calculate_monthly_payment fpow64 self64);
      [contradiction | exact He].
  - intros e He. unfold LoanManager64.create_amortization_schedule.
    destruct (LoanManager64.calculate_monthly_payment _ _ _ _);
      [contradiction | exact He].
  - intros Hpow. split.
    + intros self64 Hn.
      rewrite (app64_payment_no_period fpow64 self64 Hpow Hn). reflexivity.
    + intros Hy.
      rewrite (manager64_payment_no_period fpow64 _ _ _ Hpow Hy). reflexivity.
Qed.

Lemma C6_no_validation_witness :
  raises (LoanApp.calculate_monthly_payment (LoanApp.init 1200 12 0))
    ZeroDivisionError
  /\ raises (LoanApp.create_amortization_schedule (Datetime.mk 2024 11 15)
               (LoanApp.init 1200 12 0) None) ZeroDivisionError
  /\ raises (LoanManager.create_amortization_schedule (fun _ _ => 0) 1200 12 0 1)
       ZeroDivisionError
  /\ raises (LoanManager64.create_amortization_schedule
               (fun b e => if (e =? 0)%float then Ok 1%float
                           else Err OverflowError)
               1200 12 0 1) ZeroDivisionError
  /\ raises (LoanManager64.create_amortization_schedule
               (fun b e => if (e =? 0)%float then Ok 1%float
                           else Err OverflowError)
               1200 12 1 1) OverflowError.
Proof.
  pose proof (C6_no_validation (fun _ _ => 0) (Datetime.mk 2024 11 15)
                1200 12 0 None 1
                (fun b e => if (e =? 0)%float then Ok 1%float
                            else Err OverflowError) 1200 12 0)
    as ((Happ & Hmgr & Hzero & Hterm) & (_ & Hmgr64 & Hzero64)).
  pose proof (C6_no_validation (fun _ _ => 0) (Datetime.mk 2024 11 15)
                1200 12 0 None 1
                (fun b e => if (e =? 0)%float then Ok 1%float
                            else Err OverflowError) 1200 12 1)
    as (_ & (_ & Hover & _)).
  split; [exact (Hzero eq_refl)|].
  split; [exact (Happ _ (Hzero eq_refl))|].
  split; [exact (Hmgr _ (Hterm (Qeq_refl 0)))|].
  split.
  - apply Hmgr64. apply Hzero64; [|reflexivity].
    intros b e He. rewrite He. reflexivity.
  - apply Hover. reflexivity.
Defined.

(** ** C7: the loop is bounded by the period count *)

Lemma int_nonneg_of_pos (q : Q) : 0 < q -> (0 <= Py.int q)%Z.
Proof.
  intros H. rewrite int_nonneg by lra. rewrite <- (Qfloor_Z 0).
  apply Qfloor_resp_le. change (inject_Z 0) with 0. lra.
Qed.

(** C7: for every valid input the loop of either schedule visits
    [int(term_years × 12)] period numbers, which is at most
    round(term_years × 12); a returned schedule therefore has at most
    round(term_years × 12) records, the balance test only ending it
    earlier.  A term of 27.5 years gives 330 periods in the code and in
    the specification. *)
Theorem C7_schedule_length_bounded (fpow : Q -> Q -> Q)
    (now : Datetime.datetime) (principal annual_rate term_years : Q)
    (start_date : option Datetime.datetime) (start_month : Z) :
  Spec.valid_terms principal annual_rate term_years ->
  let self := LoanApp.init principal annual_rate term_years in
  let total_periods := Z.to_nat (Spec.total_periods term_years) in
  (List.length (Py.range 1 (LoanApp.num_payments self + 1)) <= total_periods)%nat
  /\ (List.length (Py.range 0 (Py.int (term_years * 12))) <= total_periods)%nat
  /\ (forall rows,
        LoanApp.create_amortization_schedule now self start_date = Ok rows ->
        (List.length rows <= total_periods)%nat)
  /\ (forall rows,
        LoanManager.create_amortization_schedule fpow principal annual_rate
          term_years start_month = Ok rows ->
        (List.length rows <= total_periods)%nat)
  /\ LoanApp.num_payments (LoanApp.init principal annual_rate (55 # 2)) = 330%Z
  /\ Py.int ((55 # 2) * 12) = 330%Z
  /\ Spec.total_periods (55 # 2) = 330%Z.
Proof.
  intros (Hp & Hr & Hy) self total_periods.
  assert (Hq : 0 <= term_years * 12) by lra.
  pose proof (int_le_round _ Hq) as Hle.
  pose proof (int_nonneg_of_pos (term_years * 12) ltac:(lra)) as H0.
  assert (Hk : (Z.to_nat (Py.int (term_years * 12)) <= total_periods)%nat).
  { subst total_periods. unfold Spec.total_periods. lia. }
  split; [|split; [|split; [|split]]].
  - rewrite length_range. simpl. lia.
  - rewrite length_range. lia.
  - intros rows Hrows.
    destruct (app_schedule_core _ _ _ _ _ _ Hrows) as (payment & _ & Hm & _).
    rewrite <- (length_map app_step), Hm.
    pose proof (amortize_length (Spec.periodic_rate annual_rate) payment
                  (Z.to_nat (Py.int (term_years * 12))) principal). lia.
  - intros rows Hrows.
    destruct (manager_schedule_core _ _ _ _ _ _ Hrows) as (payment & _ & Hm & _).
    rewrite <- (length_map manager_step), Hm.
    pose proof (amortize_length (Spec.periodic_rate annual_rate) payment
                  (Z.to_nat (Py.int (term_years * 12))) principal). lia.
  - repeat split.
Qed.

Lemma C7_schedule_length_bounded_witness :
  exists rows,
    LoanApp.create_amortization_schedule (Datetime.mk 2024 11 15)
      (LoanApp.init 1200 12 (3 # 10)) None = Ok rows
    /\ Spec.total_periods (3 # 10) = 4%Z
    /\ (List.length rows <= 4)%nat.
Proof.
  eexists. split; [vm_compute; reflexivity|]. split; [reflexivity|].
  apply (proj1 (proj2 (proj2
           (C7_schedule_length_bounded (fun _ _ => 0) (Datetime.mk 2024 11 15)
              1200 12 (3 # 10) None 1 ltac:(concrete_terms))))).
  vm_compute. reflexivity.
Defined.

(** ** C8: two calls with the same arguments *)

(** C8, as stated, fails on [LoanAnalyzer] when [start_date] is omitted:
    the default is read from the clock, so the same call made on
    2024-11-15 and on 2024-11-16 labels its record differently. *)
Lemma C8_counterexample :
  exists rows1 rows2,
    LoanApp.create_amortization_schedule (Datetime.mk 2024 11 15)
      (LoanApp.init 1200 0 (1 # 12)) None = Ok rows1
    /\ LoanApp.create_amortization_schedule (Datetime.mk 2024 11 16)
         (LoanApp.init 1200 0 (1 # 12)) None = Ok rows2
    /\ map LoanApp.Date rows1 = ["2024-11-15"%string]
    /\ map LoanApp.Date rows2 = ["2024-11-16"%string]
    /\ rows1 <> rows2.
Proof.
  eexists. eexists.
  split; [vm_compute; reflexivity|]. split; [vm_compute; reflexivity|].
  split; [reflexivity|]. split; [reflexivity | discriminate].
Qed.

(** C8, amended: two calls of [LoanAnalyzer.create_amortization_schedule]
    with the same loan and the same given start_date return the same
    result whatever the clock shows; with start_date omitted the result is
    the one for start_date = the clock's reading at the call, so two such
    calls agree when the clock reads the same, and when it does not, two
    returned schedules still agree in every column but the Date labels.
    [LoanScenarioAnalyzer.create_amortization_schedule] reads no clock and
    does not read start_month: two calls with the same principal, rate and
    term return the same result. *)
Theorem C8_schedule_deterministic (fpow : Q -> Q -> Q)
    (now1 now2 : Datetime.datetime) (principal annual_rate term_years : Q)
    (start_date : Datetime.datetime) (start_month1 start_month2 : Z) :
  let self := LoanApp.init principal annual_rate term_years in
  LoanApp.create_amortization_schedule now1 self (Some start_date)
  = LoanApp.create_amortization_schedule now2 self (Some start_date)
  /\ LoanApp.create_amortization_schedule now1 self None
     = LoanApp.create_amortization_schedule now2 self (Some now1)
  /\ (forall rows1 rows2,
        LoanApp.create_amortization_schedule now1 self None = Ok rows1 ->
        LoanApp.create_amortization_schedule now2 self None = Ok rows2 ->
        map undated rows1 = map undated rows2)
  /\ LoanManager.create_amortization_schedule fpow principal annual_rate
       term_years start_month1
     = LoanManager.create_amortization_schedule fpow principal annual_rate
         term_years start_month2.
Proof.
  intros self. split; [reflexivity|]. split; [reflexivity|].
  split; [|reflexivity].
  intros rows1 rows2. unfold LoanApp.create_amortization_schedule.
  destruct (LoanApp.calculate_monthly_payment self) as [payment|e]; simpl;
    [|discriminate].
  apply app_loop_undated.
Qed.

Lemma C8_schedule_deterministic_witness :
  LoanApp.create_amortization_schedule (Datetime.mk 2024 11 15)
    (LoanApp.init 1200 12 (1 # 4)) (Some (Datetime.mk 2025 1 1))
  = LoanApp.create_amortization_schedule (Datetime.mk 2024 11 16)
      (LoanApp.init 1200 12 (1 # 4)) (Some (Datetime.mk 2025 1 1))
  /\ (exists rows,
        LoanApp.create_amortization_schedule (Datetime.mk 2024 11 15)
          (LoanApp.init 1200 12 (1 # 4)) (Some (Datetime.mk 2025 1 1)) = Ok rows
        /\ map LoanApp.Date rows
           = ["2025-01-01"; "2025-02-01"; "2025-03-01"]%string)
  /\ (exists rows1 rows2,
        LoanApp.create_amortization_schedule (Datetime.mk 2024 11 15)
          (LoanApp.init 1200 0 (1 # 12)) None = Ok rows1
        /\ LoanApp.create_amortization_schedule (Datetime.mk 2024 11 16)
             (LoanApp.init 1200 0 (1 # 12)) None = Ok rows2
        /\ map undated rows1 = map undated rows2).
Proof.
  split; [|split].
  - exact (proj1 (C8_schedule_deterministic (fun _ _ => 0)
                    (Datetime.mk 2024 11 15) (Datetime.mk 2024 11 16)
                    1200 12 (1 # 4) (Datetime.mk 2025 1 1) 1 2)).
  - eexists. split; [vm_compute; reflexivity | reflexivity].
  - eexists. eexists.
    split; [vm_compute; reflexivity|]. split; [vm_compute; reflexivity|].
    apply (proj1 (proj2 (proj2
             (C8_schedule_deterministic (fun _ _ => 0)
                (Datetime.mk 2024 11 15) (Datetime.mk 2024 11 16)
                1200 0 (1 # 12) (Datetime.mk 2025 1 1) 1 2))));
      vm_compute; reflexivity.
Defined.

(** ** C9: interest is only ever computed on a positive balance *)

(** C9: for principal > 0, every record of a returned schedule has a
    beginning balance > 0, and its interest is that balance times the
    monthly rate: the loop stops right after the record whose balance
    reaches zero or less, although the running balance itself is never
    clamped. *)
Theorem C9_beginning_balance_positive (fpow : Q -> Q -> Q)
    (now : Datetime.datetime) (principal annual_rate term_years : Q)
    (start_date : option Datetime.datetime) (start_month : Z) :
  0 < principal ->
  (forall rows,
     LoanApp.create_amortization_schedule now
       (LoanApp.init principal annual_rate term_years) start_date = Ok rows ->
     Forall (fun row =>
               0 < LoanApp.Beginning_Balance row
               /\ LoanApp.Interest_Payment row
                  == LoanApp.Beginning_Balance row * (annual_rate / 100 / 12))
            rows)
  /\ (forall rows,
        LoanManager.create_amortization_schedule fpow principal annual_rate
          term_years start_month = Ok rows ->
        Forall (fun row =>
                  0 < LoanManager.Beginning_Balance row
                  /\ LoanManager.Interest row
                     == LoanManager.Beginning_Balance row * (annual_rate / 100 / 12))
               rows).
Proof.
  intros Hp. split; intros rows Hrows.
  - destruct (app_schedule_core _ _ _ _ _ _ Hrows) as (payment & _ & Hm & _).
    pose proof (amortize_beginning_pos (Spec.periodic_rate annual_rate) payment
                  (Z.to_nat (Py.int (term_years * 12))) principal Hp) as H1.
    pose proof (amortize_interest (Spec.periodic_rate annual_rate) payment
                  (Z.to_nat (Py.int (term_years * 12))) principal) as H2.
    rewrite <- Hm, Forall_map in H1, H2. rewrite Forall_forall in *.
    intros row Hin. split; [exact (H1 row Hin) | exact (proj1 (H2 row Hin))].
  - destruct (manager_schedule_core _ _ _ _ _ _ Hrows) as (payment & _ & Hm & _).
    pose proof (amortize_beginning_pos (Spec.periodic_rate annual_rate) payment
                  (Z.to_nat (Py.int (term_years * 12))) principal Hp) as H1.
    pose proof (amortize_interest (Spec.periodic_rate annual_rate) payment
                  (Z.to_nat (Py.int (term_years * 12))) principal) as H2.
    rewrite <- Hm, Forall_map in H1, H2. rewrite Forall_forall in *.
    intros row Hin. split; [exact (H1 row Hin) | exact (proj1 (H2 row Hin))].
Qed.

Lemma C9_beginning_balance_positive_witness :
  exists rows,
    LoanManager.create_amortization_schedule (fun _ _ => 0) 1200 12 (1 # 4) 1
    = Ok rows
    /\ List.length rows = 3%nat
    /\ Forall (fun row =>
                 0 < LoanManager.Beginning_Balance row
                 /\ LoanManager.Interest row
                    == LoanManager.Beginning_Balance row * (12 / 100 / 12))
              rows.
Proof.
  eexists. split; [vm_compute; reflexivity|]. split; [reflexivity|].
  apply (proj2 (C9_beginning_balance_positive (fun _ _ => 0)
                  (Datetime.mk 2024 11 15) 1200 12 (1 # 4) None 1 eq_refl)).
  vm_compute. reflexivity.
Defined.

(** ** C10: the two payment implementations *)

(** C10: for principal > 0, annual_rate > 0 and term_years > 0 with
    term_years × 12 a whole number, [LoanScenarioAnalyzer]'s payment (the
    unrounded years × 12 as exponent) and [LoanAnalyzer]'s (int(years × 12)
    as exponent) both return, and return equal amounts. *)
Theorem C10_payment_implementations_agree (fpow : Q -> Q -> Q)
    (principal annual_rate term_years : Q) :
  0 < principal -> 0 < annual_rate -> 0 < term_years ->
  Py.is_whole (term_years * 12) = true ->
  exists manager_payment app_payment,
    LoanManager.calculate_monthly_payment fpow principal annual_rate term_years
    = Ok manager_payment
    /\ LoanApp.calculate_monthly_payment
         (LoanApp.init principal annual_rate term_years) = Ok app_payment
    /\ manager_payment == app_payment.
Proof.
  intros Hp Hr Hy Hw.
  destruct (whole_periods term_years Hy Hw) as (Hn & _ & En).
  eexists. eexists. split; [|split].
  - apply manager_payment_whole; assumption.
  - apply app_payment_annuity; assumption.
  - rewrite En. reflexivity.
Qed.

Lemma C10_payment_implementations_agree_witness :
  exists manager_payment app_payment,
    LoanManager.calculate_monthly_payment (fun _ _ => 0) 220000 (649 # 100) (55 # 2)
    = Ok manager_payment
    /\ LoanApp.calculate_monthly_payment (LoanApp.init 220000 (649 # 100) (55 # 2))
       = Ok app_payment
    /\ manager_payment == app_payment.
Proof.
  exact (C10_payment_implementations_agree (fun _ _ => 0) 220000 (649 # 100)
           (55 # 2) eq_refl eq_refl eq_refl eq_refl).
Defined.

(** * Further properties of the code *)

(** ** The recurrence, period by period *)

Section Recurrence.
Import Core.
Variables r payment : Q.

Lemma balance_after_succ (k : nat) (balance : Q) :
  balance_after r payment (S k) balance
  = balance_after r payment k balance
    - (payment - balance_after r payment k balance * r).
Proof.
  revert balance. induction k as [|k IH]; intros balance; [reflexivity|].
  change (balance_after r payment (S (S k)) balance)
    with (balance_after r payment (S k) (balance - (payment - balance * r))).
  rewrite IH. reflexivity.
Qed.

(** While the payment exceeds the interest on the opening balance, the
    balance goes down with every period. *)
Lemma balance_after_decreasing (principal : Q) (k : nat) :
  0 <= r -> principal * r < payment ->
  balance_after r payment (S k) principal < balance_after r payment k principal
  /\ balance_after r payment k principal <= principal.
Proof.
  intros Hr Hpay. induction k as [|k [IH1 IH2]].
  - simpl. split; lra.
  - assert (L : balance_after r payment (S k) principal <= principal) by lra.
    split; [|exact L].
    rewrite (balance_after_succ (S k)).
    assert (balance_after r payment (S k) principal * r <= principal * r)
      by (apply Qmult_le_compat_r; assumption).
    lra.
Qed.

Lemma balance_after_lt (principal : Q) (j k : nat) :
  0 <= r -> principal * r < payment -> (j < k)%nat ->
  balance_after r payment k principal < balance_after r payment j principal.
Proof.
  intros Hr Hpay Hjk. induction Hjk as [|k Hjk IH].
  - apply balance_after_decreasing; assumption.
  - apply Qlt_trans with (balance_after r payment k principal); [|exact IH].
    apply balance_after_decreasing; assumption.
Qed.

(** The principal parts add up to what the balance has gone down by. *)
Lemma amortize_principal_sum (k : nat) (balance : Q) :
  sum_Q (map principal_part (amortize r payment k balance))
  == balance
     - balance_after r payment (List.length (amortize r payment k balance))
         balance.
Proof.
  revert balance. induction k as [|k IH]; intros balance; simpl; [ring|].
  destruct (Qle_bool _ 0); simpl.
  - ring.
  - rewrite IH. ring.
Qed.

Lemma amortize_interest_sum (k : nat) (balance : Q) :
  sum_Q (map interest_part (amortize r payment k balance))
  == inject_Z (Z.of_nat (List.length (amortize r payment k balance))) * payment
     - sum_Q (map principal_part (amortize r payment k balance)).
Proof.
  revert balance. induction k as [|k IH]; intros balance; simpl; [ring|].
  destruct (Qle_bool _ 0).
  - simpl. ring.
  - cbn [map sum_Q List.length]. rewrite IH, Nat2Z.inj_succ, <- Z.add_1_l, inject_Z_plus.
    simpl principal_part. simpl interest_part. ring.
Qed.


(** A payment that clears the balance in exactly [k] periods never ends
    the loop early. *)
Lemma amortize_exact_length (principal : Q) (k : nat) :
  0 <= r -> principal * r < payment ->
  balance_after r payment k principal == 0 ->
  List.length (amortize r payment k principal) = k.
Proof.
  intros Hr Hpay Hz. apply amortize_full_length. intros j Hj.
  rewrite <- Hz. apply balance_after_lt; [assumption | assumption | lia].
Qed.

End Recurrence.

(** ** A payment sized for the periods of the loop *)

Lemma sized_payment_zero (principal annual_rate payment : Q) (n : Z) :
  0 <= annual_rate -> (1 <= n)%Z ->
  (if Qeq_bool annual_rate 0
   then payment == principal / inject_Z n
   else payment == principal
                   * (Spec.periodic_rate annual_rate
                      * (1 + Spec.periodic_rate annual_rate) ^ n)
                   / ((1 + Spec.periodic_rate annual_rate) ^ n - 1)) ->
  Core.balance_after (Spec.periodic_rate annual_rate) payment (Z.to_nat n)
    principal == 0.
Proof.
  intros Hr Hn Hpay.
  assert (En : Z.of_nat (Z.to_nat n) = n) by lia.
  destruct (Qeq_bool annual_rate 0) eqn:E.
  - apply Qeq_bool_eq in E.
    apply final_balance_straight;
      [now apply periodic_rate_zero | lia | now rewrite En].
  - apply Qeq_bool_neq in E.
    apply final_balance_annuity;
      [apply periodic_rate_pos; lra | lia | now rewrite En].
Qed.

Lemma sized_payment_exceeds_interest (principal annual_rate payment : Q) (n : Z) :
  0 < principal -> 0 <= annual_rate -> (1 <= n)%Z ->
  (if Qeq_bool annual_rate 0
   then payment == principal / inject_Z n
   else payment == principal
                   * (Spec.periodic_rate annual_rate
                      * (1 + Spec.periodic_rate annual_rate) ^ n)
                   / ((1 + Spec.periodic_rate annual_rate) ^ n - 1)) ->
  0 <= Spec.periodic_rate annual_rate
  /\ principal * Spec.periodic_rate annual_rate < payment.
Proof.
  intros Hp Hr Hn Hpay. destruct (Qeq_bool annual_rate 0) eqn:E.
  - apply Qeq_bool_eq in E. pose proof (periodic_rate_zero _ E) as R0.
    split; [rewrite R0; apply Qle_refl|].
    rewrite Hpay, R0.
    assert (N : 0 < inject_Z n) by (unfold Qlt; simpl; lia).
    apply Qlt_shift_div_l; [exact N|]. lra.
  - apply Qeq_bool_neq in E.
    assert (R : 0 < Spec.periodic_rate annual_rate)
      by (apply periodic_rate_pos; lra).
    split; [lra|]. rewrite Hpay.
    pose proof (power_gt_1 _ n R Hn) as G.
    revert R G. generalize (Spec.periodic_rate annual_rate).
    intros r R. generalize ((1 + r) ^ n). intros x G.
    apply Qlt_shift_div_l; [lra|].
    assert (0 < principal * r) by (apply Qmult_lt_0_compat; assumption).
    setoid_replace (principal * r * (x - 1)) with (principal * r * x - principal * r)
      by ring.
    setoid_replace (principal * (r * x)) with (principal * r * x) by ring.
    lra.
Qed.

(** What an amortizing schedule of [LoanAnalyzer] consists of. *)
Lemma app_amortizing (now : Datetime.datetime)
    (principal annual_rate term_years : Q)
    (start_date : option Datetime.datetime) (rows : list LoanApp.Row) :
  Spec.valid_terms principal annual_rate term_years ->
  (1 <= Py.int (term_years * 12))%Z ->
  LoanApp.create_amortization_schedule now
    (LoanApp.init principal annual_rate term_years) start_date = Ok rows ->
  exists payment,
    LoanApp.calculate_monthly_payment
      (LoanApp.init principal annual_rate term_years) = Ok payment
    /\ map app_step rows
       = Core.amortize (Spec.periodic_rate annual_rate) payment
           (Z.to_nat (Py.int (term_years * 12))) principal
    /\ Forall (fun row => LoanApp.Monthly_Payment row = payment) rows
    /\ 0 <= Spec.periodic_rate annual_rate
    /\ principal * Spec.periodic_rate annual_rate < payment
    /\ Core.balance_after (Spec.periodic_rate annual_rate) payment
         (Z.to_nat (Py.int (term_years * 12))) principal == 0.
Proof.
  intros (Hp & Hr & Hy) Hn Hrows.
  destruct (app_schedule_core _ _ _ _ _ _ Hrows) as (payment & Hpay & Hm & Hf).
  destruct (app_payment_sized principal annual_rate term_years Hr Hn)
    as (payment' & Hpay' & Hsized).
  rewrite Hpay in Hpay'. injection Hpay' as <-.
  destruct (sized_payment_exceeds_interest _ _ _ _ Hp Hr Hn Hsized) as [R I].
  exists payment. repeat split; try assumption.
  exact (sized_payment_zero _ _ _ _ Hr Hn Hsized).
Qed.

(** The same for [LoanScenarioAnalyzer] over a whole number of months. *)
Lemma manager_amortizing (fpow : Q -> Q -> Q)
    (principal annual_rate term_years : Q) (start_month : Z) :
  Spec.valid_terms principal annual_rate term_years ->
  Py.is_whole (term_years * 12) = true ->
  exists payment rows,
    LoanManager.calculate_monthly_payment fpow principal annual_rate term_years
    = Ok payment
    /\ LoanManager.create_amortization_schedule fpow principal annual_rate
         term_years start_month = Ok rows
    /\ map manager_step rows
       = Core.amortize (Spec.periodic_rate annual_rate) payment
           (Z.to_nat (Py.int (term_years * 12))) principal
    /\ Forall (fun row => LoanManager.Payment_Amount row = payment) rows
    /\ 0 <= Spec.periodic_rate annual_rate
    /\ principal * Spec.periodic_rate annual_rate < payment
    /\ Core.balance_after (Spec.periodic_rate annual_rate) payment
         (Z.to_nat (Py.int (term_years * 12))) principal == 0.
Proof.
  intros (Hp & Hr & Hy) Hw.
  destruct (whole_periods term_years Hy Hw) as (Hn & _ & _).
  destruct (manager_payment_sized fpow principal annual_rate term_years Hr Hy Hw)
    as (payment & Hpay & Hsized).
  destruct (manager_schedule_returns fpow _ _ _ _ start_month Hpay) as [rows Hrows].
  destruct (manager_schedule_core _ _ _ _ _ _ Hrows) as (payment' & Hpay' & Hm & Hf).
  rewrite Hpay in Hpay'. injection Hpay' as <-.
  destruct (sized_payment_exceeds_interest _ _ _ _ Hp Hr Hn Hsized) as [R I].
  exists payment, rows. repeat split; try assumption.
  exact (sized_payment_zero _ _ _ _ Hr Hn Hsized).
Qed.

(** ** Columns of [LoanAnalyzer]'s rows that the recurrence does not hold *)

Lemma app_loop_numbers (self : LoanApp.LoanAnalyzer) (payment : Q)
    (todo : list Z) (balance cumulative : Q) (date : Datetime.datetime)
    (rows : list LoanApp.Row) :
  LoanApp.schedule_loop self payment todo balance cumulative date = Ok rows ->
  map LoanApp.Payment_Number rows = firstn (List.length rows) todo.
Proof.
  revert balance cumulative date rows.
  induction todo as [|n todo IH]; intros balance cumulative date rows; simpl.
  - intros [= <-]. reflexivity.
  - destruct (LoanApp.next_month date) as [date'|e]; simpl; [|discriminate].
    destruct (Qle_bool _ 0); simpl.
    + intros [= <-]. reflexivity.
    + destruct (LoanApp.schedule_loop _ _ _ _ _ _) as [rest|e] eqn:E; simpl;
        [|discriminate].
      intros [= <-]. simpl. f_equal. exact (IH _ _ _ _ E).
Qed.

Lemma manager_loop_numbers (r payment : Q) (todo : list Z) (balance : Q) :
  map LoanManager.Payment (LoanManager.schedule_loop r payment todo balance)
  = map (fun month => (month + 1)%Z)
      (firstn (List.length (LoanManager.schedule_loop r payment todo balance))
         todo).
Proof.
  revert balance. induction todo as [|month todo IH]; intros balance; simpl;
    [reflexivity|].
  destruct (Qle_bool _ 0); simpl; [reflexivity|]. f_equal. apply IH.
Qed.

Lemma firstn_seq_le (k n start : nat) :
  (k <= n)%nat -> firstn k (seq start n) = seq start k.
Proof.
  revert n start. induction k as [|k IH]; intros n start Hk; [reflexivity|].
  destruct n as [|n]; [lia|]. simpl. f_equal. apply IH. lia.
Qed.

Lemma firstn_range (lo hi : Z) (k : nat) :
  (k <= Z.to_nat (hi - lo))%nat ->
  firstn k (Py.range lo hi) = Py.range lo (lo + Z.of_nat k).
Proof.
  intros Hk. unfold Py.range. rewrite firstn_map, firstn_seq_le by exact Hk.
  do 2 f_equal. lia.
Qed.

Lemma app_loop_cumulative (self : LoanApp.LoanAnalyzer) (payment : Q)
    (todo : list Z) (balance cumulative : Q) (date : Datetime.datetime)
    (rows : list LoanApp.Row) :
  LoanApp.schedule_loop self payment todo balance cumulative date = Ok rows ->
  forall i row,
    nth_error rows i = Some row ->
    LoanApp.Cumulative_Interest row
    == cumulative + sum_Q (map LoanApp.Interest_Payment (firstn (S i) rows)).
Proof.
  revert balance cumulative date rows.
  induction todo as [|n todo IH]; intros balance cumulative date rows; simpl.
  - intros [= <-] [|i] row; discriminate.
  - destruct (LoanApp.next_month date) as [date'|e]; simpl; [|discriminate].
    destruct (Qle_bool _ 0); simpl.
    + intros [= <-] [|i] row; simpl.
      * intros [= <-]. simpl. ring.
      * destruct i; discriminate.
    + destruct (LoanApp.schedule_loop _ _ _ _ _ _) as [rest|e] eqn:E; simpl;
        [|discriminate].
      intros [= <-] [|i] row.
      * intros [= <-]. simpl. ring.
      * intros Hrow. change (nth_error rest i = Some row) in Hrow.
        rewrite (IH _ _ _ _ E i row Hrow).
        cbn [firstn map sum_Q LoanApp.Interest_Payment]. ring.
Qed.

Lemma max0_nonneg (b : Q) : 0 <= Py.max0 b.
Proof.
  unfold Py.max0. destruct (Py.gt b 0) eqn:G; [|apply Qle_refl].
  apply gt_true in G. lra.
Qed.

Lemma max0_eq (a b : Q) : a == b -> Py.max0 a == Py.max0 b.
Proof.
  intros E. unfold Py.max0, Py.gt. rewrite E.
  destruct (Qle_bool b 0); [reflexivity | exact E].
Qed.

Lemma amortize_accounting (r payment : Q) (k : nat) (balance : Q) :
  Forall (fun st =>
            Core.principal_part st + Core.interest_part st == payment
            /\ Core.ending st
               == Py.max0 (Core.beginning st - Core.principal_part st)
            /\ 0 <= Core.ending st)
         (Core.amortize r payment k balance).
Proof.
  revert balance. induction k as [|k IH]; intros balance; simpl; [constructor|].
  assert (A : forall b p : Q, Py.max0 b == Py.max0 (b + p - p)).
  { intros b p. apply max0_eq. ring. }
  destruct (Qle_bool _ 0); repeat constructor; simpl;
    try ring; try apply A; try apply max0_nonneg; apply IH.
Qed.

(** ** The schedule of a fully amortizing loan *)

(** X1: for valid terms, a schedule [LoanAnalyzer] returns over at least
    one whole month has exactly int(term_years × 12) records, and so has
    the one [LoanScenarioAnalyzer] returns for a whole number of months:
    the balance test does not end the loop before the last period. *)
Theorem schedule_runs_full_term (fpow : Q -> Q -> Q)
    (now : Datetime.datetime) (principal annual_rate term_years : Q)
    (start_date : option Datetime.datetime) (start_month : Z) :
  Spec.valid_terms principal annual_rate term_years ->
  (forall rows,
     (1 <= Py.int (term_years * 12))%Z ->
     LoanApp.create_amortization_schedule now
       (LoanApp.init principal annual_rate term_years) start_date = Ok rows ->
     List.length rows = Z.to_nat (Py.int (term_years * 12)))
  /\ (Py.is_whole (term_years * 12) = true ->
      exists rows,
        LoanManager.create_amortization_schedule fpow principal annual_rate
          term_years start_month = Ok rows
        /\ List.length rows = Z.to_nat (Py.int (term_years * 12))).
Proof.
  intros Hv. split.
  - intros rows Hn Hrows.
    destruct (app_amortizing _ _ _ _ _ _ Hv Hn Hrows)
      as (payment & _ & Hm & _ & R & I & Z0).
    rewrite <- (length_map app_step), Hm.
    exact (amortize_exact_length _ _ _ _ R I Z0).
  - intros Hw.
    destruct (manager_amortizing fpow _ _ _ start_month Hv Hw)
      as (payment & rows & _ & Hrows & Hm & _ & R & I & Z0).
    exists rows. split; [exact Hrows|].
    rewrite <- (length_map manager_step), Hm.
    exact (amortize_exact_length _ _ _ _ R I Z0).
Qed.

Lemma schedule_runs_full_term_witness :
  (exists rows,
     LoanApp.create_amortization_schedule (Datetime.mk 2024 11 15)
       (LoanApp.init 1200 12 (3 # 10)) None = Ok rows
     /\ List.length rows = 3%nat)
  /\ (exists rows,
        LoanManager.create_amortization_schedule (fun _ _ => 0)
          220000 (649 # 100) (55 # 2) 1 = Ok rows
        /\ List.length rows = 330%nat).
Proof.
  split.
  - eexists. split; [vm_compute; reflexivity|].
    apply (proj1 (schedule_runs_full_term (fun _ _ => 0)
                    (Datetime.mk 2024 11 15) 1200 12 (3 # 10) None 1
                    ltac:(concrete_terms)));
      [vm_compute; discriminate | vm_compute; reflexivity].
  - exact (proj2 (schedule_runs_full_term (fun _ _ => 0)
                    (Datetime.mk 2024 11 15) 220000 (649 # 100) (55 # 2) None 1
                    ltac:(concrete_terms)) eq_refl).
Defined.



Lemma full_term_totals {Row : Type} (view : Row -> Core.Step)
    (r payment principal : Q) (k : nat) (rows : list Row) :
  map view rows = Core.amortize r payment k principal ->
  0 <= r -> principal * r < payment ->
  Core.balance_after r payment k principal == 0 ->
  sum_Q (map (fun row => Core.principal_part (view row)) rows) == principal
  /\ sum_Q (map (fun row => Core.interest_part (view row)) rows)
     == inject_Z (Z.of_nat k) * payment - principal.
Proof.
  intros Hm R I Z0.
  pose proof (amortize_exact_length r payment principal k R I Z0) as L.
  pose proof (amortize_principal_sum r payment k principal) as S1.
  pose proof (amortize_interest_sum r payment k principal) as S2.
  rewrite L in S1, S2. rewrite <- Hm in S1, S2. rewrite !map_map in S1, S2.
  rewrite Z0 in S1.
  assert (P1 : sum_Q (map (fun row => Core.principal_part (view row)) rows)
               == principal) by (rewrite S1; ring).
  split; [exact P1|]. rewrite S2, map_map, P1. reflexivity.
Qed.

(** X3: in a full-term schedule the principal portions add up to the
    principal (exact arithmetic). *)
Theorem principal_portions_repay_principal (fpow : Q -> Q -> Q)
    (now : Datetime.datetime) (principal annual_rate term_years : Q)
    (start_date : option Datetime.datetime) (start_month : Z) :
  Spec.valid_terms principal annual_rate term_years ->
  (forall rows,
     (1 <= Py.int (term_years * 12))%Z ->
     LoanApp.create_amortization_schedule now
       (LoanApp.init principal annual_rate term_years) start_date = Ok rows ->
     sum_Q (map LoanApp.Principal_Payment rows) == principal)
  /\ (Py.is_whole (term_years * 12) = true ->
      exists rows,
        LoanManager.create_amortization_schedule fpow principal annual_rate
          term_years start_month = Ok rows
        /\ sum_Q (map LoanManager.Principal rows) == principal).
Proof.
  intros Hv. split.
  - intros rows Hn Hrows.
    destruct (app_amortizing _ _ _ _ _ _ Hv Hn Hrows)
      as (payment & _ & Hm & _ & R & I & Z0).
    exact (proj1 (full_term_totals app_step _ _ _ _ _ Hm R I Z0)).
  - intros Hw.
    destruct (manager_amortizing fpow _ _ _ start_month Hv Hw)
      as (payment & rows & _ & Hrows & Hm & _ & R & I & Z0).
    exists rows. split; [exact Hrows|].
    exact (proj1 (full_term_totals manager_step _ _ _ _ _ Hm R I Z0)).
Qed.

Lemma principal_portions_repay_principal_witness :
  (exists rows,
     LoanApp.create_amortization_schedule (Datetime.mk 2024 11 15)
       (LoanApp.init 1200 12 (1 # 4)) None = Ok rows
     /\ List.length rows = 3%nat
     /\ sum_Q (map LoanApp.Principal_Payment rows) == 1200)
  /\ (exists rows,
        LoanManager.create_amortization_schedule (fun _ _ => 0)
          555000 (549 # 100) 3 1 = Ok rows
        /\ sum_Q (map LoanManager.Principal rows) == 555000).
Proof.
  split.
  - eexists. split; [vm_compute; reflexivity|]. split; [reflexivity|].
    apply (proj1 (principal_portions_repay_principal (fun _ _ => 0)
                    (Datetime.mk 2024 11 15) 1200 12 (1 # 4) None 1
                    ltac:(concrete_terms)));
      [vm_compute; discriminate | vm_compute; reflexivity].
  - exact (proj2 (principal_portions_repay_principal (fun _ _ => 0)
                    (Datetime.mk 2024 11 15) 555000 (549 # 100) 3 None 1
                    ltac:(concrete_terms)) eq_refl).
Defined.

(** X4: the interest of a full-term schedule adds up to (number of
    periods) × payment − principal.  For [LoanScenarioAnalyzer] over a
    whole number of months this is what [calculate_total_interest]
    returns for the loan's payment. *)
Theorem interest_adds_up_to_total_interest (fpow : Q -> Q -> Q)
    (now : Datetime.datetime) (principal annual_rate term_years : Q)
    (start_date : option Datetime.datetime) (start_month : Z) :
  Spec.valid_terms principal annual_rate term_years ->
  (forall rows,
     (1 <= Py.int (term_years * 12))%Z ->
     LoanApp.create_amortization_schedule now
       (LoanApp.init principal annual_rate term_years) start_date = Ok rows ->
     exists payment,
       LoanApp.calculate_monthly_payment
         (LoanApp.init principal annual_rate term_years) = Ok payment
       /\ sum_Q (map LoanApp.Interest_Payment rows)
          == inject_Z (Py.int (term_years * 12)) * payment - principal)
  /\ (Py.is_whole (term_years * 12) = true ->
      exists payment rows,
        LoanManager.calculate_monthly_payment fpow principal annual_rate
          term_years = Ok payment
        /\ LoanManager.create_amortization_schedule fpow principal annual_rate
             term_years start_month = Ok rows
        /\ sum_Q (map LoanManager.Interest rows)
           == LoanManager.calculate_total_interest principal payment term_years).
Proof.
  intros Hv. pose proof Hv as (_ & _ & Hy). split.
  - intros rows Hn Hrows.
    destruct (app_amortizing _ _ _ _ _ _ Hv Hn Hrows)
      as (payment & Hpay & Hm & _ & R & I & Z0).
    exists payment. split; [exact Hpay|].
    rewrite (proj2 (full_term_totals app_step _ _ _ _ _ Hm R I Z0)).
    rewrite Z2Nat.id by lia. reflexivity.
  - intros Hw.
    destruct (whole_periods term_years Hy Hw) as (Hn & Ew & _).
    destruct (manager_amortizing fpow _ _ _ start_month Hv Hw)
      as (payment & rows & Hpay & Hrows & Hm & _ & R & I & Z0).
    exists payment, rows. split; [exact Hpay|]. split; [exact Hrows|].
    rewrite (proj2 (full_term_totals manager_step _ _ _ _ _ Hm R I Z0)).
    rewrite Z2Nat.id by lia. unfold LoanManager.calculate_total_interest.
    rewrite <- Ew. ring.
Qed.

Lemma interest_adds_up_to_total_interest_witness :
  exists payment rows,
    LoanManager.calculate_monthly_payment (fun _ _ => 0) 555000 (549 # 100) 3
    = Ok payment
    /\ LoanManager.create_amortization_schedule (fun _ _ => 0)
         555000 (549 # 100) 3 1 = Ok rows
    /\ sum_Q (map LoanManager.Interest rows)
       == LoanManager.calculate_total_interest 555000 payment 3.
Proof.
  exact (proj2 (interest_adds_up_to_total_interest (fun _ _ => 0)
                  (Datetime.mk 2024 11 15) 555000 (549 # 100) 3 None 1
                  ltac:(concrete_terms)) eq_refl).
Defined.

(** ** Columns of every returned schedule *)

Lemma range_shift (k : nat) :
  map (fun month => (month + 1)%Z) (Py.range 0 (Z.of_nat k))
  = Py.range 1 (Z.of_nat k + 1).
Proof.
  unfold Py.range. rewrite map_map.
  replace (Z.to_nat (Z.of_nat k + 1 - 1)) with (Z.to_nat (Z.of_nat k - 0)) by lia.
  apply map_ext. intros i. lia.
Qed.

(** X5: the records of a returned schedule are numbered 1, 2, ... in
    order, without gaps: the column of payment numbers is
    [range(1, len(rows) + 1)], in both implementations. *)
Theorem records_numbered_from_one (fpow : Q -> Q -> Q)
    (now : Datetime.datetime) (principal annual_rate term_years : Q)
    (start_date : option Datetime.datetime) (start_month : Z) :
  (forall rows,
     LoanApp.create_amortization_schedule now
       (LoanApp.init principal annual_rate term_years) start_date = Ok rows ->
     map LoanApp.Payment_Number rows
     = Py.range 1 (Z.of_nat (List.length rows) + 1))
  /\ (forall rows,
        LoanManager.create_amortization_schedule fpow principal annual_rate
          term_years start_month = Ok rows ->
        map LoanManager.Payment rows
        = Py.range 1 (Z.of_nat (List.length rows) + 1)).
Proof.
  split; intros rows Hrows.
  - destruct (app_schedule_core _ _ _ _ _ _ Hrows) as (payment & Hpay & Hm & _).
    assert (L : (List.length rows <= Z.to_nat (Py.int (term_years * 12)))%nat).
    { rewrite <- (length_map app_step), Hm. apply amortize_length. }
    unfold LoanApp.create_amortization_schedule in Hrows.
    rewrite Hpay in Hrows. simpl in Hrows.
    rewrite (app_loop_numbers _ _ _ _ _ _ _ Hrows), firstn_range by lia.
    f_equal. lia.
  - destruct (manager_schedule_core _ _ _ _ _ _ Hrows) as (payment & Hpay & Hm & _).
    assert (L : (List.length rows <= Z.to_nat (Py.int (term_years * 12)))%nat).
    { rewrite <- (length_map manager_step), Hm. apply amortize_length. }
    unfold LoanManager.create_amortization_schedule in Hrows.
    rewrite Hpay in Hrows. simpl in Hrows. injection Hrows as <-.
    rewrite manager_loop_numbers, firstn_range by lia.
    rewrite Z.add_0_l. apply range_shift.
Qed.

Lemma records_numbered_from_one_witness :
  exists rows,
    LoanManager.create_amortization_schedule (fun _ _ => 0) 1200 12 (1 # 4) 1
    = Ok rows
    /\ map LoanManager.Payment rows = [1; 2; 3]%Z.
Proof.
  eexists. split; [vm_compute; reflexivity|].
  apply (proj2 (records_numbered_from_one (fun _ _ => 0)
                  (Datetime.mk 2024 11 15) 1200 12 (1 # 4) None 1)).
  vm_compute. reflexivity.
Defined.

Lemma sum_Q_app (l1 l2 : list Q) : sum_Q (l1 ++ l2) == sum_Q l1 + sum_Q l2.
Proof. induction l1 as [|x l1 IH]; simpl; [ring | rewrite IH; ring]. Qed.

Lemma firstn_succ_nth {A : Type} (l : list A) (i : nat) (x : A) :
  nth_error l i = Some x -> firstn (S i) l = firstn i l ++ [x].
Proof.
  revert i. induction l as [|y l IH]; intros [|i] H; try discriminate.
  - injection H as <-. reflexivity.
  - change (y :: firstn (S i) l = y :: (firstn i l ++ [x])).
    f_equal. apply IH. exact H.
Qed.

(** X6: in [LoanAnalyzer]'s schedule the cumulative interest of a record
    is the sum of the interest portions up to and including that record;
    for a positive principal and a rate >= 0 it never goes down from one
    record to the next. *)
Theorem cumulative_interest_running_total (now : Datetime.datetime)
    (principal annual_rate term_years : Q)
    (start_date : option Datetime.datetime) (rows : list LoanApp.Row) :
  LoanApp.create_amortization_schedule now
    (LoanApp.init principal annual_rate term_years) start_date = Ok rows ->
  (forall i row,
     nth_error rows i = Some row ->
     LoanApp.Cumulative_Interest row
     == sum_Q (map LoanApp.Interest_Payment (firstn (S i) rows)))
  /\ (0 < principal -> 0 <= annual_rate ->
      forall i previous next,
        nth_error rows i = Some previous ->
        nth_error rows (S i) = Some next ->
        LoanApp.Cumulative_Interest previous
        <= LoanApp.Cumulative_Interest next).
Proof.
  intros Hrows.
  assert (Hcum : forall i row,
             nth_error rows i = Some row ->
             LoanApp.Cumulative_Interest row
             == sum_Q (map LoanApp.Interest_Payment (firstn (S i) rows))).
  { intros i row Hrow.
    unfold LoanApp.create_amortization_schedule in Hrows.
    destruct (LoanApp.calculate_monthly_payment _) as [payment|e];
      [|discriminate].
    simpl in Hrows.
    rewrite (app_loop_cumulative _ _ _ _ _ _ _ Hrows i row Hrow). ring. }
  split; [exact Hcum|].
  intros Hp Hr i previous next Hprev Hnext.
  rewrite (Hcum _ _ Hprev), (Hcum _ _ Hnext).
  rewrite (firstn_succ_nth rows (S i) next Hnext), map_app, sum_Q_app.
  simpl.
  destruct (app_schedule_core _ _ _ _ _ _ Hrows) as (payment & _ & Hm & _).
  pose proof (amortize_beginning_pos (Spec.periodic_rate annual_rate) payment
                (Z.to_nat (Py.int (term_years * 12))) principal Hp) as H1.
  pose proof (amortize_interest (Spec.periodic_rate annual_rate) payment
                (Z.to_nat (Py.int (term_years * 12))) principal) as H2.
  rewrite <- Hm, Forall_map in H1, H2. rewrite Forall_forall in H1, H2.
  pose proof (nth_error_In _ _ Hnext) as Hin.
  specialize (H1 next Hin). destruct (H2 next Hin) as [H3 _].
  simpl in H1, H3.
  assert (R : 0 <= Spec.periodic_rate annual_rate).
  { unfold Spec.periodic_rate. do 2 (apply Qle_shift_div_l; [reflexivity|]). lra. }
  assert (0 <= LoanApp.Interest_Payment next).
  { rewrite H3. apply Qmult_le_0_compat; lra. }
  lra.
Qed.

Lemma cumulative_interest_running_total_witness :
  exists rows first second third,
    LoanApp.create_amortization_schedule (Datetime.mk 2024 11 15)
      (LoanApp.init 1200 12 (1 # 4)) None = Ok rows
    /\ rows = [first; second; third]
    /\ LoanApp.Cumulative_Interest third
       == LoanApp.Interest_Payment first + LoanApp.Interest_Payment second
          + LoanApp.Interest_Payment third
    /\ LoanApp.Cumulative_Interest first <= LoanApp.Cumulative_Interest second.
Proof.
  do 4 eexists. split; [vm_compute; reflexivity|]. split; [reflexivity|].
  match goal with
  | |- LoanApp.Cumulative_Interest ?t == _ /\ _ =>
      pose proof (cumulative_interest_running_total (Datetime.mk 2024 11 15)
                    1200 12 (1 # 4) None _ ltac:(vm_compute; reflexivity))
        as [Hsum Hmono]
  end.
  split.
  - rewrite (Hsum 2%nat _ eq_refl). simpl. ring.
  - exact (Hmono eq_refl ltac:(discriminate) 0%nat _ _ eq_refl eq_refl).
Defined.

Lemma accounting_rows {Row : Type} (view : Row -> Core.Step) (pay : Row -> Q)
    (r payment : Q) (k : nat) (principal : Q) (rows : list Row) :
  map view rows = Core.amortize r payment k principal ->
  Forall (fun row => pay row = payment) rows ->
  Forall (fun row =>
            Core.principal_part (view row) + Core.interest_part (view row)
            == pay row
            /\ Core.ending (view row)
               == Py.max0 (Core.beginning (view row)
                           - Core.principal_part (view row))
            /\ 0 <= Core.ending (view row)) rows.
Proof.
  intros Hm Hp.
  pose proof (amortize_accounting r payment k principal) as H.
  rewrite <- Hm, Forall_map in H.
  rewrite Forall_forall in *. intros row Hin.
  rewrite (Hp row Hin). exact (H row Hin).
Qed.

(** X7: in every record of a returned schedule, whatever the inputs, the
    principal and interest portions add up to the payment, the ending
    balance is max(0, beginning balance − principal portion), and it is
    never negative. *)
Theorem record_accounting (fpow : Q -> Q -> Q)
    (now : Datetime.datetime) (principal annual_rate term_years : Q)
    (start_date : option Datetime.datetime) (start_month : Z) :
  (forall rows,
     LoanApp.create_amortization_schedule now
       (LoanApp.init principal annual_rate term_years) start_date = Ok rows ->
     Forall (fun row =>
               LoanApp.Principal_Payment row + LoanApp.Interest_Payment row
               == LoanApp.Monthly_Payment row
               /\ LoanApp.Ending_Balance row
                  == Py.max0 (LoanApp.Beginning_Balance row
                              - LoanApp.Principal_Payment row)
               /\ 0 <= LoanApp.Ending_Balance row) rows)
  /\ (forall rows,
        LoanManager.create_amortization_schedule fpow principal annual_rate
          term_years start_month = Ok rows ->
        Forall (fun row =>
                  LoanManager.Principal row + LoanManager.Interest row
                  == LoanManager.Payment_Amount row
                  /\ LoanManager.Ending_Balance row
                     == Py.max0 (LoanManager.Beginning_Balance row
                                 - LoanManager.Principal row)
                  /\ 0 <= LoanManager.Ending_Balance row) rows).
Proof.
  split; intros rows Hrows.
  - destruct (app_schedule_core _ _ _ _ _ _ Hrows) as (payment & _ & Hm & Hp).
    exact (accounting_rows app_step LoanApp.Monthly_Payment _ _ _ _ _ Hm Hp).
  - destruct (manager_schedule_core _ _ _ _ _ _ Hrows) as (payment & _ & Hm & Hp).
    exact (accounting_rows manager_step LoanManager.Payment_Amount _ _ _ _ _ Hm Hp).
Qed.

Lemma record_accounting_witness :
  exists rows,
    LoanApp.create_amortization_schedule (Datetime.mk 2024 11 15)
      (LoanApp.init (-1200) 0 1) None = Ok rows
    /\ List.length rows = 1%nat
    /\ Forall (fun row =>
                 LoanApp.Principal_Payment row + LoanApp.Interest_Payment row
                 == LoanApp.Monthly_Payment row
                 /\ LoanApp.Ending_Balance row
                    == Py.max0 (LoanApp.Beginning_Balance row
                                - LoanApp.Principal_Payment row)
                 /\ 0 <= LoanApp.Ending_Balance row) rows.
Proof.
  eexists. split; [vm_compute; reflexivity|]. split; [reflexivity|].
  apply (proj1 (record_accounting (fun _ _ => 0) (Datetime.mk 2024 11 15)
                  (-1200) 0 1 None 1)).
  vm_compute. reflexivity.
Defined.

(** ** How the payment moves with the rate and the term *)

Lemma geometric_closed (r : Q) (n : nat) :
  r * geometric (1 + r) n == (1 + r) ^ Z.of_nat n - 1.
Proof.
  induction n as [|n IH].
  - simpl. ring.
  - cbn [geometric]. rewrite Qpower_succ_nat.
    setoid_replace (r * (geometric (1 + r) n + (1 + r) ^ Z.of_nat n))
      with (r * geometric (1 + r) n + r * (1 + r) ^ Z.of_nat n) by ring.
    rewrite IH. ring.
Qed.

Lemma geometric_eq (q q' : Q) (n : nat) :
  q == q' -> geometric q n == geometric q' n.
Proof.
  intros E. induction n as [|n IH]; [reflexivity|].
  cbn [geometric]. rewrite IH, E. reflexivity.
Qed.

Lemma geometric_one (n : nat) : geometric 1 n == inject_Z (Z.of_nat n).
Proof.
  induction n as [|n IH]; [reflexivity|].
  cbn [geometric]. rewrite IH, Nat2Z.inj_succ, <- Z.add_1_l, inject_Z_plus, Qpower_1.
  ring.
Qed.

Lemma geometric_nonneg (q : Q) (n : nat) : 0 <= q -> 0 <= geometric q n.
Proof.
  intros Hq. induction n as [|n IH]; simpl; [apply Qle_refl|].
  pose proof (Qpower_0_le q (Z.of_nat n) Hq). lra.
Qed.

Lemma geometric_pos (q : Q) (n : nat) :
  0 < q -> (1 <= n)%nat -> 0 < geometric q n.
Proof.
  intros Hq Hn. destruct n as [|n]; [lia|]. cbn [geometric].
  pose proof (geometric_nonneg q n ltac:(lra)).
  pose proof (Qpower_0_lt q (Z.of_nat n) Hq). lra.
Qed.

(** A payment sized for [n] periods is
    principal × q^n / (1 + q + ... + q^(n-1)) with q = 1 + r, at any
    rate [r >= 0], zero included. *)
Lemma sized_payment_geometric (principal annual_rate payment : Q) (n : nat) :
  0 <= annual_rate -> (1 <= n)%nat ->
  (if Qeq_bool annual_rate 0
   then payment == principal / inject_Z (Z.of_nat n)
   else payment == principal
                   * (Spec.periodic_rate annual_rate
                      * (1 + Spec.periodic_rate annual_rate) ^ Z.of_nat n)
                   / ((1 + Spec.periodic_rate annual_rate) ^ Z.of_nat n - 1)) ->
  payment * geometric (1 + Spec.periodic_rate annual_rate) n
  == principal * (1 + Spec.periodic_rate annual_rate) ^ Z.of_nat n.
Proof.
  intros Hr Hn Hpay. destruct (Qeq_bool annual_rate 0) eqn:E.
  - apply Qeq_bool_eq in E. pose proof (periodic_rate_zero _ E) as R0.
    assert (Q1 : 1 + Spec.periodic_rate annual_rate == 1) by (rewrite R0; ring).
    rewrite (geometric_eq _ _ n Q1), geometric_one, Hpay, Q1, Qpower_1.
    assert (N : 0 < inject_Z (Z.of_nat n)) by (unfold Qlt; simpl; lia).
    field. lra.
  - apply Qeq_bool_neq in E.
    assert (R : 0 < Spec.periodic_rate annual_rate)
      by (apply periodic_rate_pos; lra).
    pose proof (geometric_closed (Spec.periodic_rate annual_rate) n) as C.
    pose proof (power_gt_1 _ (Z.of_nat n) R ltac:(lia)) as G.
    rewrite Hpay. revert R C G.
    generalize (Spec.periodic_rate annual_rate). intros r.
    generalize (geometric (1 + r) n). intros g.
    generalize ((1 + r) ^ Z.of_nat n). intros x R C G.
    assert (Eg : g == (x - 1) / r) by (rewrite <- C; field; lra).
    rewrite Eg. field. split; lra.
Qed.

Lemma geometric_cross_le (q1 q2 : Q) (n : nat) :
  0 < q1 -> q1 <= q2 ->
  q1 ^ Z.of_nat n * geometric q2 n <= q2 ^ Z.of_nat n * geometric q1 n.
Proof.
  intros H1 H12. induction n as [|n IH].
  - simpl. lra.
  - cbn [geometric]. rewrite !Qpower_succ_nat.
    pose proof (Qpower_0_lt q1 (Z.of_nat n) H1) as A.
    pose proof (Qpower_0_lt q2 (Z.of_nat n) ltac:(lra)) as B.
    pose proof (geometric_nonneg q1 n ltac:(lra)) as Hh.
    revert IH A B Hh.
    generalize (q1 ^ Z.of_nat n) (q2 ^ Z.of_nat n)
               (geometric q2 n) (geometric q1 n).
    intros a b g h IH A B Hh.
    assert (T1 : 0 <= (q2 - q1) * (b * h))
      by (apply Qmult_le_0_compat; [lra | apply Qmult_le_0_compat; lra]).
    assert (T2 : 0 <= q1 * (b * h - a * g))
      by (apply Qmult_le_0_compat; lra).
    assert (T3 : 0 <= (q2 - q1) * (a * b))
      by (apply Qmult_le_0_compat; [lra | apply Qmult_le_0_compat; lra]).
    setoid_replace (q1 * a * (g + b))
      with (q2 * b * (h + a)
            - ((q2 - q1) * (b * h) + q1 * (b * h - a * g) + (q2 - q1) * (a * b)))
      by ring.
    lra.
Qed.

Lemma geometric_cross_lt (q1 q2 : Q) (n : nat) :
  0 < q1 -> q1 < q2 -> (1 <= n)%nat ->
  q1 ^ Z.of_nat n * geometric q2 n < q2 ^ Z.of_nat n * geometric q1 n.
Proof.
  intros H1 H12 Hn. destruct n as [|n]; [lia|].
  pose proof (geometric_cross_le q1 q2 n H1 ltac:(lra)) as IH.
  cbn [geometric]. rewrite !Qpower_succ_nat.
  pose proof (Qpower_0_lt q1 (Z.of_nat n) H1) as A.
  pose proof (Qpower_0_lt q2 (Z.of_nat n) ltac:(lra)) as B.
  pose proof (geometric_nonneg q1 n ltac:(lra)) as Hh.
  revert IH A B Hh.
  generalize (q1 ^ Z.of_nat n) (q2 ^ Z.of_nat n)
             (geometric q2 n) (geometric q1 n).
  intros a b g h IH A B Hh.
  assert (T1 : 0 <= (q2 - q1) * (b * h))
    by (apply Qmult_le_0_compat; [lra | apply Qmult_le_0_compat; lra]).
  assert (T2 : 0 <= q1 * (b * h - a * g))
    by (apply Qmult_le_0_compat; lra).
  assert (T3 : 0 < (q2 - q1) * (a * b))
    by (apply Qmult_lt_0_compat; [lra | apply Qmult_lt_0_compat; lra]).
  setoid_replace (q1 * a * (g + b))
    with (q2 * b * (h + a)
          - ((q2 - q1) * (b * h) + q1 * (b * h - a * g) + (q2 - q1) * (a * b)))
    by ring.
  lra.
Qed.

(** Of two payments sized for the same periods and principal, the one at
    the lower rate is the lower. *)
Lemma sized_payment_rate_monotone (principal rate1 rate2 pay1 pay2 : Q) (n : nat) :
  0 < principal -> 0 <= rate1 -> rate1 < rate2 -> (1 <= n)%nat ->
  pay1 * geometric (1 + Spec.periodic_rate rate1) n
  == principal * (1 + Spec.periodic_rate rate1) ^ Z.of_nat n ->
  pay2 * geometric (1 + Spec.periodic_rate rate2) n
  == principal * (1 + Spec.periodic_rate rate2) ^ Z.of_nat n ->
  pay1 < pay2.
Proof.
  intros Hp H1 H12 Hn E1 E2.
  assert (R1 : 0 <= Spec.periodic_rate rate1).
  { unfold Spec.periodic_rate. do 2 (apply Qle_shift_div_l; [reflexivity|]). lra. }
  assert (R12 : Spec.periodic_rate rate1 < Spec.periodic_rate rate2).
  { unfold Spec.periodic_rate, Qdiv.
    do 2 (apply Qmult_lt_compat_r; [reflexivity|]). exact H12. }
  pose proof (geometric_cross_lt (1 + Spec.periodic_rate rate1)
                (1 + Spec.periodic_rate rate2) n ltac:(lra) ltac:(lra) Hn) as C.
  pose proof (geometric_pos (1 + Spec.periodic_rate rate1) n ltac:(lra) Hn) as G1.
  pose proof (geometric_pos (1 + Spec.periodic_rate rate2) n ltac:(lra) Hn) as G2.
  revert E1 E2 C G1 G2.
  generalize ((1 + Spec.periodic_rate rate1) ^ Z.of_nat n)
             ((1 + Spec.periodic_rate rate2) ^ Z.of_nat n)
             (geometric (1 + Spec.periodic_rate rate1) n)
             (geometric (1 + Spec.periodic_rate rate2) n).
  intros x1 x2 g1 g2 E1 E2 C G1 G2.
  apply (Qmult_lt_r _ _ (g1 * g2));
    [apply Qmult_lt_0_compat; assumption|].
  setoid_replace (pay1 * (g1 * g2)) with (pay1 * g1 * g2) by ring.
  setoid_replace (pay2 * (g1 * g2)) with (pay2 * g2 * g1) by ring.
  rewrite E1, E2.
  setoid_replace (principal * x1 * g2) with (principal * (x1 * g2)) by ring.
  setoid_replace (principal * x2 * g1) with (principal * (x2 * g1)) by ring.
  apply Qmult_lt_l; assumption.
Qed.

Lemma sized_payments_ordered (principal rate1 rate2 pay1 pay2 : Q) (n : Z) :
  0 < principal -> 0 <= rate1 -> rate1 < rate2 -> (1 <= n)%Z ->
  (if Qeq_bool rate1 0
   then pay1 == principal / inject_Z n
   else pay1 == principal
                * (Spec.periodic_rate rate1 * (1 + Spec.periodic_rate rate1) ^ n)
                / ((1 + Spec.periodic_rate rate1) ^ n - 1)) ->
  (if Qeq_bool rate2 0
   then pay2 == principal / inject_Z n
   else pay2 == principal
                * (Spec.periodic_rate rate2 * (1 + Spec.periodic_rate rate2) ^ n)
                / ((1 + Spec.periodic_rate rate2) ^ n - 1)) ->
  pay1 < pay2.
Proof.
  intros Hp H1 H12 Hn S1 S2.
  assert (En : Z.of_nat (Z.to_nat n) = n) by lia.
  rewrite <- En in S1, S2.
  apply (sized_payment_rate_monotone principal rate1 rate2 pay1 pay2 (Z.to_nat n));
    try assumption; try lia.
  - apply sized_payment_geometric; [assumption | lia | exact S1].
  - apply sized_payment_geometric; [lra | lia | exact S2].
Qed.

(** X8: for the same positive principal and the same term, the payment
    at the lower of two rates (both >= 0, the zero-rate branch included)
    is strictly the lower one: in [LoanAnalyzer] for every term of at
    least one whole month, in [LoanScenarioAnalyzer] for every term of a
    whole number of months. *)
Theorem lower_rate_lower_payment (fpow : Q -> Q -> Q)
    (principal rate1 rate2 term_years : Q) :
  0 < principal -> 0 <= rate1 -> rate1 < rate2 ->
  ((1 <= Py.int (term_years * 12))%Z ->
   exists pay1 pay2,
     LoanApp.calculate_monthly_payment (LoanApp.init principal rate1 term_years)
     = Ok pay1
     /\ LoanApp.calculate_monthly_payment
          (LoanApp.init principal rate2 term_years) = Ok pay2
     /\ pay1 < pay2)
  /\ (0 < term_years -> Py.is_whole (term_years * 12) = true ->
      exists pay1 pay2,
        LoanManager.calculate_monthly_payment fpow principal rate1 term_years
        = Ok pay1
        /\ LoanManager.calculate_monthly_payment fpow principal rate2 term_years
           = Ok pay2
        /\ pay1 < pay2).
Proof.
  intros Hp H1 H12. split.
  - intros Hn.
    destruct (app_payment_sized principal rate1 term_years H1 Hn)
      as (pay1 & E1 & S1).
    destruct (app_payment_sized principal rate2 term_years ltac:(lra) Hn)
      as (pay2 & E2 & S2).
    exists pay1, pay2. split; [exact E1|]. split; [exact E2|].
    exact (sized_payments_ordered _ _ _ _ _ _ Hp H1 H12 Hn S1 S2).
  - intros Hy Hw. destruct (whole_periods term_years Hy Hw) as (Hn & _ & _).
    destruct (manager_payment_sized fpow principal rate1 term_years H1 Hy Hw)
      as (pay1 & E1 & S1).
    destruct (manager_payment_sized fpow principal rate2 term_years
                ltac:(lra) Hy Hw) as (pay2 & E2 & S2).
    exists pay1, pay2. split; [exact E1|]. split; [exact E2|].
    exact (sized_payments_ordered _ _ _ _ _ _ Hp H1 H12 Hn S1 S2).
Qed.

Lemma lower_rate_lower_payment_witness :
  exists pay1 pay2,
    LoanApp.calculate_monthly_payment (LoanApp.init 555000 (499 # 100) 27)
    = Ok pay1
    /\ LoanApp.calculate_monthly_payment (LoanApp.init 555000 (549 # 100) 27)
       = Ok pay2
    /\ pay1 < pay2.
Proof.
  exact (proj1 (lower_rate_lower_payment (fun _ _ => 0) 555000 (499 # 100)
                  (549 # 100) 27 eq_refl ltac:(discriminate) eq_refl)
           ltac:(vm_compute; discriminate)).
Defined.

Lemma sized_payments_by_term (principal annual_rate pay1 pay2 : Q) (n1 n2 : Z) :
  0 < principal -> 0 <= annual_rate -> (1 <= n1)%Z -> (n1 < n2)%Z ->
  (if Qeq_bool annual_rate 0
   then pay1 == principal / inject_Z n1
   else pay1 == principal
                * (Spec.periodic_rate annual_rate
                   * (1 + Spec.periodic_rate annual_rate) ^ n1)
                / ((1 + Spec.periodic_rate annual_rate) ^ n1 - 1)) ->
  (if Qeq_bool annual_rate 0
   then pay2 == principal / inject_Z n2
   else pay2 == principal
                * (Spec.periodic_rate annual_rate
                   * (1 + Spec.periodic_rate annual_rate) ^ n2)
                / ((1 + Spec.periodic_rate annual_rate) ^ n2 - 1)) ->
  pay2 < pay1.
Proof.
  intros Hp Hr H1 H12 S1 S2. destruct (Qeq_bool annual_rate 0) eqn:E.
  - rewrite S1, S2.
    assert (A : 0 < inject_Z n1) by (unfold Qlt; simpl; lia).
    assert (B : inject_Z n1 < inject_Z n2) by (unfold Qlt; simpl; lia).
    revert A B. generalize (inject_Z n1) (inject_Z n2). intros a b A B.
    apply Qlt_shift_div_r; [lra|].
    setoid_replace (principal / a * b) with (principal * b / a) by (field; lra).
    apply Qlt_shift_div_l; [exact A|].
    apply Qmult_lt_l; assumption.
  - apply Qeq_bool_neq in E.
    assert (R : 0 < Spec.periodic_rate annual_rate)
      by (apply periodic_rate_pos; lra).
    pose proof (power_gt_1 _ n1 R H1) as G1.
    pose proof (Qpower_lt_compat_l (1 + Spec.periodic_rate annual_rate) n1 n2
                  H12 ltac:(lra)) as G12.
    rewrite S1, S2. revert R G1 G12.
    generalize (Spec.periodic_rate annual_rate). intros r.
    generalize ((1 + r) ^ n1) ((1 + r) ^ n2). intros x1 x2 R G1 G12.
    assert (C : 0 < principal * r) by (apply Qmult_lt_0_compat; assumption).
    apply Qlt_shift_div_r; [lra|].
    setoid_replace (principal * (r * x1) / (x1 - 1) * (x2 - 1))
      with (principal * r * (x1 * (x2 - 1)) / (x1 - 1)) by (field; lra).
    apply Qlt_shift_div_l; [lra|].
    setoid_replace (principal * (r * x2) * (x1 - 1))
      with (principal * r * (x2 * (x1 - 1))) by ring.
    apply Qmult_lt_l; [exact C|].
    setoid_replace (x2 * (x1 - 1)) with (x1 * x2 - x2) by ring.
    setoid_replace (x1 * (x2 - 1)) with (x1 * x2 - x1) by ring.
    lra.
Qed.

(** X9: for the same positive principal and the same rate >= 0,
    [LoanAnalyzer]'s payment over more whole months is strictly lower
    than over fewer (at least one). *)
Theorem longer_term_lower_payment (principal annual_rate years1 years2 : Q) :
  0 < principal -> 0 <= annual_rate ->
  (1 <= Py.int (years1 * 12))%Z ->
  (Py.int (years1 * 12) < Py.int (years2 * 12))%Z ->
  exists pay1 pay2,
    LoanApp.calculate_monthly_payment (LoanApp.init principal annual_rate years1)
    = Ok pay1
    /\ LoanApp.calculate_monthly_payment
         (LoanApp.init principal annual_rate years2) = Ok pay2
    /\ pay2 < pay1.
Proof.
  intros Hp Hr H1 H12.
  destruct (app_payment_sized principal annual_rate years1 Hr H1)
    as (pay1 & E1 & S1).
  destruct (app_payment_sized principal annual_rate years2 Hr ltac:(lia))
    as (pay2 & E2 & S2).
  exists pay1, pay2. split; [exact E1|]. split; [exact E2|].
  exact (sized_payments_by_term _ _ _ _ _ _ Hp Hr H1 H12 S1 S2).
Qed.

Lemma longer_term_lower_payment_witness :
  exists pay1 pay2,
    LoanApp.calculate_monthly_payment (LoanApp.init 555000 (549 # 100) 25)
    = Ok pay1
    /\ LoanApp.calculate_monthly_payment (LoanApp.init 555000 (549 # 100) 27)
       = Ok pay2
    /\ pay2 < pay1.
Proof.
  exact (longer_term_lower_payment 555000 (549 # 100) 25 27 eq_refl
           ltac:(discriminate) ltac:(vm_compute; discriminate)
           ltac:(vm_compute; reflexivity)).
Defined.

(** ** [scenario_analysis], row by row *)

Lemma scenario_rows_nth (fpow : Q -> Q -> Q)
    (self : LoanManager.LoanScenarioAnalyzer) (current_total : Q)
    (scenarios : list LoanManager.Scenario) :
  forall (start : nat) (rows : list LoanManager.ResultRow),
  LoanManager.scenario_rows fpow self current_total start scenarios = Ok rows ->
  List.length rows = List.length scenarios
  /\ forall i scenario,
       nth_error scenarios i = Some scenario ->
       exists row,
         nth_error rows i = Some row
         /\ LoanManager.scenario_row fpow self current_total (start + i)
              scenario = Ok row.
Proof.
  induction scenarios as [|sc rest IH]; intros start rows; simpl.
  - intros [= <-]. split; [reflexivity|]. intros [|i] scenario; discriminate.
  - destruct (LoanManager.scenario_row _ _ _ _ _) as [row|e] eqn:R; simpl;
      [|discriminate].
    destruct (LoanManager.scenario_rows _ _ _ _ _) as [rows'|e] eqn:Hrest; simpl;
      [|discriminate].
    intros [= <-]. destruct (IH _ _ Hrest) as [L N]. split; [simpl; now rewrite L|].
    intros [|i] scenario Hs.
    + injection Hs as <-. exists row. rewrite Nat.add_0_r. auto.
    + destruct (N i scenario Hs) as (row' & Hr & Hrow).
      exists row'. split; [exact Hr|].
      replace (start + S i)%nat with (S start + i)%nat by lia. exact Hrow.
Qed.

Lemma scenario_rows_fail (fpow : Q -> Q -> Q)
    (self : LoanManager.LoanScenarioAnalyzer) (current_total : Q)
    (scenarios : list LoanManager.Scenario) :
  forall (start i : nat) (scenario : LoanManager.Scenario) (e : error),
  nth_error scenarios i = Some scenario ->
  LoanManager.scenario_row fpow self current_total (start + i) scenario = Err e ->
  exists e',
    LoanManager.scenario_rows fpow self current_total start scenarios = Err e'.
Proof.
  induction scenarios as [|sc rest IH]; intros start [|i] scenario e Hs Hrow;
    try discriminate; simpl in *.
  - injection Hs as <-. rewrite Nat.add_0_r in Hrow. rewrite Hrow.
    simpl. eexists. reflexivity.
  - destruct (LoanManager.scenario_row _ _ _ start sc) as [row|e0]; simpl;
      [|eexists; reflexivity].
    replace (start + S i)%nat with (S start + i)%nat in Hrow by lia.
    destruct (IH _ _ _ _ Hs Hrow) as [e' ->]. simpl. eexists. reflexivity.
Qed.

(** The parts [scenario_analysis] is made of. *)
Lemma scenario_analysis_parts (fpow : Q -> Q -> Q)
    (self : LoanManager.LoanScenarioAnalyzer)
    (scenarios : list LoanManager.Scenario)
    (rows : list LoanManager.ResultRow) :
  LoanManager.scenario_analysis fpow self scenarios = Ok rows ->
  exists apt inv rest,
    LoanManager.calculate_monthly_payment fpow (LoanManager.apartment_loan self)
      (LoanManager.apartment_rate self) (LoanManager.apartment_term self)
    = Ok apt
    /\ LoanManager.calculate_monthly_payment fpow
         (LoanManager.investment_loan self) (LoanManager.investment_rate self)
         (LoanManager.investment_term self) = Ok inv
    /\ LoanManager.scenario_rows fpow self (apt + inv) 1 scenarios = Ok rest
    /\ rows
       = LoanManager.mkResultRow "Current" (LoanManager.apartment_rate self)
           (LoanManager.investment_rate self) apt inv (apt + inv) 0 0 0
           LoanManager.NA
         :: rest.
Proof.
  unfold LoanManager.scenario_analysis.
  destruct (LoanManager.calculate_monthly_payment fpow
              (LoanManager.apartment_loan self) _ _) as [apt|e] eqn:Ea; simpl;
    [|discriminate].
  destruct (LoanManager.calculate_monthly_payment fpow
              (LoanManager.investment_loan self) _ _) as [inv|e] eqn:Ei; simpl;
    [|discriminate].
  destruct (LoanManager.scenario_rows fpow self (apt + inv) 1 scenarios)
    as [rest|e] eqn:Er; simpl; [|discriminate].
  intros [= <-]. exists apt, inv, rest.
  repeat split; solve [reflexivity | assumption].
Qed.

(** The columns of one scenario's row. *)
Lemma scenario_row_columns (fpow : Q -> Q -> Q)
    (self : LoanManager.LoanScenarioAnalyzer) (current_total : Q) (i : nat)
    (scenario : LoanManager.Scenario) (row : LoanManager.ResultRow) :
  LoanManager.scenario_row fpow self current_total i scenario = Ok row ->
  LoanManager.calculate_monthly_payment fpow (LoanManager.apartment_loan self)
    (LoanManager.get (LoanManager.apt_rate scenario)
       (LoanManager.apartment_rate self))
    (LoanManager.get (LoanManager.apt_term scenario)
       (LoanManager.apartment_term self))
  = Ok (LoanManager.Apt_Payment row)
  /\ LoanManager.calculate_monthly_payment fpow
       (LoanManager.investment_loan self)
       (LoanManager.get (LoanManager.inv_rate scenario)
          (LoanManager.investment_rate self))
       (LoanManager.get (LoanManager.inv_term scenario)
          (LoanManager.investment_term self))
     = Ok (LoanManager.Inv_Payment row)
  /\ LoanManager.Total_Payment row
     = LoanManager.Apt_Payment row + LoanManager.Inv_Payment row
  /\ LoanManager.Monthly_Savings row
     = current_total - LoanManager.Total_Payment row
  /\ LoanManager.Annual_Savings row = LoanManager.Monthly_Savings row * 12
  /\ LoanManager.Refi_Costs row
     = LoanManager.get (LoanManager.refi_costs scenario) 5000
  /\ LoanManager.Scenario_Name row
     = ("Scenario " ++ NilEmpty.string_of_uint (Nat.to_uint i))%string.
Proof.
  unfold LoanManager.scenario_row.
  destruct (LoanManager.calculate_monthly_payment fpow _ _ _) as [apt|e]; simpl;
    [|discriminate].
  destruct (LoanManager.calculate_monthly_payment fpow _ _ _) as [inv|e]; simpl;
    [|discriminate].
  destruct (Py.gt (current_total - (apt + inv)) 0) eqn:G; simpl.
  - destruct (Py.truediv _ _) as [q|e]; simpl; [|discriminate].
    intros [= <-]. simpl. repeat split; reflexivity.
  - intros [= <-]. simpl. repeat split; reflexivity.
Qed.

Lemma scenario_rows_each (fpow : Q -> Q -> Q)
    (self : LoanManager.LoanScenarioAnalyzer) (current_total : Q)
    (scenarios : list LoanManager.Scenario) :
  forall (start : nat) (rows : list LoanManager.ResultRow),
  LoanManager.scenario_rows fpow self current_total start scenarios = Ok rows ->
  Forall2 (fun scenario row =>
             exists i,
               LoanManager.scenario_row fpow self current_total i scenario
               = Ok row) scenarios rows.
Proof.
  induction scenarios as [|sc rest IH]; intros start rows; simpl.
  - intros [= <-]. constructor.
  - destruct (LoanManager.scenario_row _ _ _ _ _) as [row|e] eqn:R; simpl;
      [|discriminate].
    destruct (LoanManager.scenario_rows _ _ _ _ _) as [rows'|e] eqn:Hrest; simpl;
      [|discriminate].
    intros [= <-]. constructor; [now exists start | exact (IH _ _ Hrest)].
Qed.

Lemma scenario_rows_names (fpow : Q -> Q -> Q)
    (self : LoanManager.LoanScenarioAnalyzer) (current_total : Q)
    (scenarios : list LoanManager.Scenario) :
  forall (start : nat) (rows : list LoanManager.ResultRow),
  LoanManager.scenario_rows fpow self current_total start scenarios = Ok rows ->
  map LoanManager.Scenario_Name rows
  = map (fun i => ("Scenario " ++ NilEmpty.string_of_uint (Nat.to_uint i))%string)
      (seq start (List.length scenarios)).
Proof.
  induction scenarios as [|sc rest IH]; intros start rows; simpl.
  - intros [= <-]. reflexivity.
  - destruct (LoanManager.scenario_row _ _ _ _ _) as [row|e] eqn:R; simpl;
      [|discriminate].
    destruct (LoanManager.scenario_rows _ _ _ _ _) as [rows'|e] eqn:Hrest; simpl;
      [|discriminate].
    intros [= <-]. simpl. f_equal.
    + exact (proj2 (proj2 (proj2 (proj2 (proj2 (proj2
               (scenario_row_columns _ _ _ _ _ _ R))))))).
    + exact (IH _ _ Hrest).
Qed.

Lemma scenario_rows_each_columns (fpow : Q -> Q -> Q)
    (self : LoanManager.LoanScenarioAnalyzer) (current_total : Q)
    (scenarios : list LoanManager.Scenario) (start : nat)
    (rows : list LoanManager.ResultRow) :
  LoanManager.scenario_rows fpow self current_total start scenarios = Ok rows ->
  Forall2 (fun scenario row =>
             LoanManager.calculate_monthly_payment fpow
               (LoanManager.apartment_loan self)
               (LoanManager.get (LoanManager.apt_rate scenario)
                  (LoanManager.apartment_rate self))
               (LoanManager.get (LoanManager.apt_term scenario)
                  (LoanManager.apartment_term self))
             = Ok (LoanManager.Apt_Payment row)
             /\ LoanManager.calculate_monthly_payment fpow
                  (LoanManager.investment_loan self)
                  (LoanManager.get (LoanManager.inv_rate scenario)
                     (LoanManager.investment_rate self))
                  (LoanManager.get (LoanManager.inv_term scenario)
                     (LoanManager.investment_term self))
                = Ok (LoanManager.Inv_Payment row)
             /\ LoanManager.Total_Payment row
                = LoanManager.Apt_Payment row + LoanManager.Inv_Payment row
             /\ LoanManager.Monthly_Savings row
                = current_total - LoanManager.Total_Payment row
             /\ LoanManager.Annual_Savings row
                = LoanManager.Monthly_Savings row * 12
             /\ LoanManager.Refi_Costs row
                = LoanManager.get (LoanManager.refi_costs scenario) 5000
             /\ LoanManager.Breakeven_Months row
                = if Py.gt (LoanManager.Monthly_Savings row) 0
                  then LoanManager.Months
                         (Py.ceil (LoanManager.Refi_Costs row
                                   / LoanManager.Monthly_Savings row))
                  else LoanManager.NA)
          scenarios rows.
Proof.
  intros Hr.
  eapply Forall2_impl; [|exact (scenario_rows_each _ _ _ _ _ _ Hr)].
  intros scenario row [i Hi].
  destruct (scenario_row_columns _ _ _ _ _ _ Hi) as (P1 & P2 & T & M & A & C & _).
  pose proof (scenario_row_breakeven _ _ _ _ _ _ Hi) as B.
  auto 10.
Qed.

(** X10: [scenario_analysis] returns one row for the current loans
    followed by one row per scenario, in order, named "Scenario 1",
    "Scenario 2", ...; the first row is named "Current" and has savings 0
    and break-even 'N/A'; in every scenario's row the total is the sum of
    the two payments, the monthly savings are the current row's total
    minus the row's total, the annual savings are twelve times the
    monthly savings, and the costs are the scenario's ['refi_costs'], or
    5000 when the key is missing. *)
Theorem scenario_rows_against_current (fpow : Q -> Q -> Q)
    (self : LoanManager.LoanScenarioAnalyzer)
    (scenarios : list LoanManager.Scenario)
    (rows : list LoanManager.ResultRow) :
  LoanManager.scenario_analysis fpow self scenarios = Ok rows ->
  exists current rest,
    rows = current :: rest
    /\ LoanManager.Scenario_Name current = "Current"%string
    /\ LoanManager.Monthly_Savings current = 0
    /\ LoanManager.Breakeven_Months current = LoanManager.NA
    /\ LoanManager.Total_Payment current
       = LoanManager.Apt_Payment current + LoanManager.Inv_Payment current
    /\ map LoanManager.Scenario_Name rest
       = map (fun i =>
                ("Scenario " ++ NilEmpty.string_of_uint (Nat.to_uint i))%string)
           (seq 1 (List.length scenarios))
    /\ Forall2 (fun scenario row =>
                  LoanManager.Total_Payment row
                  = LoanManager.Apt_Payment row + LoanManager.Inv_Payment row
                  /\ LoanManager.Monthly_Savings row
                     = LoanManager.Total_Payment current
                       - LoanManager.Total_Payment row
                  /\ LoanManager.Annual_Savings row
                     = LoanManager.Monthly_Savings row * 12
                  /\ LoanManager.Refi_Costs row
                     = LoanManager.get (LoanManager.refi_costs scenario) 5000)
         scenarios rest.
Proof.
  intros H.
  destruct (scenario_analysis_parts _ _ _ _ H) as (apt & inv & rest & _ & _ & Hr & ->).
  eexists. exists rest. split; [reflexivity|]. simpl.
  repeat (split; [reflexivity|]).
  split; [exact (scenario_rows_names _ _ _ _ _ _ Hr)|].
  eapply Forall2_impl; [|exact (scenario_rows_each_columns _ _ _ _ _ _ Hr)].
  intros scenario row (_ & _ & T & M & A & C & _). auto.
Qed.

Lemma scenario_rows_against_current_witness :
  exists current row,
    LoanManager.scenario_analysis (fun _ _ => 0) two_small_loans
      [longer_apartment_term] = Ok [current; row]
    /\ LoanManager.Scenario_Name row = "Scenario 1"%string
    /\ LoanManager.Monthly_Savings row
       = LoanManager.Total_Payment current - LoanManager.Total_Payment row
    /\ LoanManager.Refi_Costs row = 120.
Proof.
  do 2 eexists. split; [vm_compute; reflexivity|].
  destruct (scenario_rows_against_current (fun _ _ => 0) two_small_loans
              [longer_apartment_term] _ ltac:(vm_compute; reflexivity))
    as (current & rest & E & _ & _ & _ & _ & N & F).
  injection E as <- <-.
  inversion F as [|? ? ? ? (_ & M & _ & C) _]; subst.
  split; [reflexivity|].
  split; [exact M | exact C].
Defined.

(** X11: a scenario that names neither a rate nor a term (its dict has
    none of the keys 'apt_rate', 'inv_rate', 'apt_term', 'inv_term')
    reproduces the current payments: its row has the payments of the
    "Current" row, monthly savings 0 and break-even 'N/A', whatever its
    costs. *)
Theorem scenario_without_loan_keys (fpow : Q -> Q -> Q)
    (self : LoanManager.LoanScenarioAnalyzer)
    (scenarios : list LoanManager.Scenario)
    (rows : list LoanManager.ResultRow) :
  LoanManager.scenario_analysis fpow self scenarios = Ok rows ->
  exists current rest,
    rows = current :: rest
    /\ Forall2 (fun scenario row =>
                  LoanManager.apt_rate scenario = None ->
                  LoanManager.inv_rate scenario = None ->
                  LoanManager.apt_term scenario = None ->
                  LoanManager.inv_term scenario = None ->
                  LoanManager.Apt_Payment row = LoanManager.Apt_Payment current
                  /\ LoanManager.Inv_Payment row
                     = LoanManager.Inv_Payment current
                  /\ LoanManager.Monthly_Savings row == 0
                  /\ LoanManager.Breakeven_Months row = LoanManager.NA)
         scenarios rest.
Proof.
  intros H.
  destruct (scenario_analysis_parts _ _ _ _ H)
    as (apt & inv & rest & Ea & Ei & Hr & ->).
  eexists. exists rest. split; [reflexivity|]. simpl.
  eapply Forall2_impl; [|exact (scenario_rows_each_columns _ _ _ _ _ _ Hr)].
  intros scenario row (P1 & P2 & T & M & _ & _ & B) N1 N2 N3 N4.
  rewrite N1, N3 in P1. rewrite N2, N4 in P2. simpl in P1, P2.
  rewrite Ea in P1. rewrite Ei in P2.
  injection P1 as P1. injection P2 as P2.
  assert (Z0 : LoanManager.Monthly_Savings row == 0).
  { rewrite M, T, <- P1, <- P2. ring. }
  split; [symmetry; exact P1|]. split; [symmetry; exact P2|].
  split; [exact Z0|].
  rewrite B. rewrite (proj2 (gt_false _ 0)); [reflexivity|].
  rewrite Z0. apply Qle_refl.
Qed.

Lemma scenario_without_loan_keys_witness :
  exists current row,
    LoanManager.scenario_analysis (fun _ _ => 0) two_small_loans
      [LoanManager.mkScenario None None None None (Some 4000)]
    = Ok [current; row]
    /\ LoanManager.Refi_Costs row = 4000
    /\ LoanManager.Monthly_Savings row == 0
    /\ LoanManager.Breakeven_Months row = LoanManager.NA.
Proof.
  do 2 eexists. split; [vm_compute; reflexivity|].
  destruct (scenario_without_loan_keys (fun _ _ => 0) two_small_loans
              [LoanManager.mkScenario None None None None (Some 4000)] _
              ltac:(vm_compute; reflexivity))
    as (current & rest & E & F).
  injection E as <- <-.
  inversion F as [|? ? ? ? K _]; subst.
  destruct (K eq_refl eq_refl eq_refl eq_refl) as (_ & _ & Z0 & B).
  split; [reflexivity|]. split; [exact Z0 | exact B].
Defined.

Lemma Forall2_right {A B : Type} (P : B -> Prop) (l : list A) (l' : list B) :
  Forall2 (fun _ b => P b) l l' -> Forall P l'.
Proof. induction 1; constructor; assumption. Qed.

Lemma ceil_bounds (costs savings : Q) :
  0 < savings ->
  inject_Z (Py.ceil (costs / savings) - 1) * savings < costs
  /\ costs <= inject_Z (Py.ceil (costs / savings)) * savings.
Proof.
  intros Hs. unfold Py.ceil.
  pose proof (Qle_ceiling (costs / savings)) as U.
  pose proof (Qceiling_lt (costs / savings)) as L.
  assert (E : costs == costs / savings * savings) by (field; lra).
  split.
  - rewrite E at 2. apply Qmult_lt_compat_r; assumption.
  - rewrite E at 1. apply Qmult_le_compat_r; [assumption | lra].
Qed.

(** X12: when a row of [scenario_analysis] shows a number of break-even
    months, the monthly savings are positive and that number is the first
    whole month by which the accumulated savings cover the costs: savings
    over m − 1 months are below the costs, savings over m months are not. *)
Theorem breakeven_months_cover_costs (fpow : Q -> Q -> Q)
    (self : LoanManager.LoanScenarioAnalyzer)
    (scenarios : list LoanManager.Scenario)
    (rows : list LoanManager.ResultRow) :
  LoanManager.scenario_analysis fpow self scenarios = Ok rows ->
  Forall (fun row =>
            forall m,
              LoanManager.Breakeven_Months row = LoanManager.Months m ->
              0 < LoanManager.Monthly_Savings row
              /\ inject_Z (m - 1) * LoanManager.Monthly_Savings row
                 < LoanManager.Refi_Costs row
              /\ LoanManager.Refi_Costs row
                 <= inject_Z m * LoanManager.Monthly_Savings row) rows.
Proof.
  intros H.
  destruct (scenario_analysis_parts _ _ _ _ H) as (apt & inv & rest & _ & _ & Hr & ->).
  constructor; [simpl; discriminate|].
  apply (Forall2_right _ scenarios).
  eapply Forall2_impl; [|exact (scenario_rows_each_columns _ _ _ _ _ _ Hr)].
  intros scenario row (_ & _ & _ & _ & _ & _ & B) m Hm.
  rewrite B in Hm.
  destruct (Py.gt (LoanManager.Monthly_Savings row) 0) eqn:G; [|discriminate].
  apply gt_true in G. injection Hm as <-.
  split; [exact G|]. apply ceil_bounds, G.
Qed.

Lemma breakeven_months_cover_costs_witness :
  exists current row,
    LoanManager.scenario_analysis (fun _ _ => 0) two_small_loans
      [longer_apartment_term] = Ok [current; row]
    /\ LoanManager.Breakeven_Months row = LoanManager.Months 3
    /\ inject_Z 2 * LoanManager.Monthly_Savings row < LoanManager.Refi_Costs row
    /\ LoanManager.Refi_Costs row <= inject_Z 3 * LoanManager.Monthly_Savings row.
Proof.
  do 2 eexists. split; [vm_compute; reflexivity|]. split; [reflexivity|].
  pose proof (breakeven_months_cover_costs (fun _ _ => 0) two_small_loans
                [longer_apartment_term] _ ltac:(vm_compute; reflexivity)) as F.
  inversion F as [|? ? _ F']; subst. inversion F' as [|? ? K _]; subst.
  exact (proj2 (K 3%Z eq_refl)).
Defined.

Lemma manager_payments_ordered (fpow : Q -> Q -> Q)
    (principal rate1 rate2 term_years pay1 pay2 : Q) :
  0 < principal -> 0 <= rate1 -> rate1 < rate2 ->
  0 < term_years -> Py.is_whole (term_years * 12) = true ->
  LoanManager.calculate_monthly_payment fpow principal rate1 term_years = Ok pay1 ->
  LoanManager.calculate_monthly_payment fpow principal rate2 term_years = Ok pay2 ->
  pay1 < pay2.
Proof.
  intros Hp H1 H12 Hy Hw E1 E2.
  destruct (whole_periods term_years Hy Hw) as (Hn & _ & _).
  destruct (manager_payment_sized fpow principal rate1 term_years H1 Hy Hw)
    as (p1 & E1' & S1).
  destruct (manager_payment_sized fpow principal rate2 term_years
              ltac:(lra) Hy Hw) as (p2 & E2' & S2).
  rewrite E1 in E1'. rewrite E2 in E2'.
  injection E1' as <-. injection E2' as <-.
  exact (sized_payments_ordered _ _ _ _ _ _ Hp H1 H12 Hn S1 S2).
Qed.

(** X13: when both loans have a positive principal and a term of a
    whole number of months, a scenario that keeps the terms, lowers at
    least one rate (to a rate >= 0) and raises none has positive monthly
    savings, and its break-even is a number of months, not 'N/A'. *)
Theorem lower_rates_give_savings (fpow : Q -> Q -> Q)
    (self : LoanManager.LoanScenarioAnalyzer)
    (scenarios : list LoanManager.Scenario)
    (rows : list LoanManager.ResultRow) :
  0 < LoanManager.apartment_loan self ->
  0 < LoanManager.investment_loan self ->
  0 < LoanManager.apartment_term self ->
  0 < LoanManager.investment_term self ->
  Py.is_whole (LoanManager.apartment_term self * 12) = true ->
  Py.is_whole (LoanManager.investment_term self * 12) = true ->
  LoanManager.scenario_analysis fpow self scenarios = Ok rows ->
  exists current rest,
    rows = current :: rest
    /\ Forall2 (fun scenario row =>
                  LoanManager.apt_term scenario = None ->
                  LoanManager.inv_term scenario = None ->
                  match LoanManager.apt_rate scenario with
                  | Some rate => 0 <= rate /\ rate < LoanManager.apartment_rate self
                  | None => True
                  end ->
                  match LoanManager.inv_rate scenario with
                  | Some rate => 0 <= rate /\ rate < LoanManager.investment_rate self
                  | None => True
                  end ->
                  LoanManager.apt_rate scenario <> None
                  \/ LoanManager.inv_rate scenario <> None ->
                  0 < LoanManager.Monthly_Savings row
                  /\ exists m,
                       LoanManager.Breakeven_Months row = LoanManager.Months m)
         scenarios rest.
Proof.
  intros Pa Pi Ta Ti Wa Wi H.
  destruct (scenario_analysis_parts _ _ _ _ H)
    as (apt & inv & rest & Ea & Ei & Hr & ->).
  eexists. exists rest. split; [reflexivity|].
  eapply Forall2_impl; [|exact (scenario_rows_each_columns _ _ _ _ _ _ Hr)].
  intros scenario row (P1 & P2 & T & M & _ & _ & B) N1 N2 Ra Ri Some_lower.
  rewrite N1 in P1. rewrite N2 in P2. simpl in P1, P2.
  assert (A : LoanManager.Apt_Payment row <= apt
              /\ (LoanManager.apt_rate scenario <> None ->
                  LoanManager.Apt_Payment row < apt)).
  { destruct (LoanManager.apt_rate scenario) as [rate|]; simpl in P1.
    - destruct Ra as [R0 R1].
      pose proof (manager_payments_ordered fpow _ _ _ _ _ _ Pa R0 R1 Ta Wa P1 Ea).
      split; [lra | intros _; assumption].
    - rewrite Ea in P1. injection P1 as <-.
      split; [apply Qle_refl | intros C; now elim C]. }
  assert (I : LoanManager.Inv_Payment row <= inv
              /\ (LoanManager.inv_rate scenario <> None ->
                  LoanManager.Inv_Payment row < inv)).
  { destruct (LoanManager.inv_rate scenario) as [rate|]; simpl in P2.
    - destruct Ri as [R0 R1].
      pose proof (manager_payments_ordered fpow _ _ _ _ _ _ Pi R0 R1 Ti Wi P2 Ei).
      split; [lra | intros _; assumption].
    - rewrite Ei in P2. injection P2 as <-.
      split; [apply Qle_refl | intros C; now elim C]. }
  assert (S : 0 < LoanManager.Monthly_Savings row).
  { rewrite M, T. destruct A as [A1 A2]. destruct I as [I1 I2].
    destruct Some_lower as [L|L]; [specialize (A2 L) | specialize (I2 L)]; lra. }
  split; [exact S|].
  rewrite B, (proj2 (gt_true _ 0) S). eexists. reflexivity.
Qed.

Lemma lower_rates_give_savings_witness :
  exists current row,
    LoanManager.scenario_analysis (fun _ _ => 0)
      (LoanManager.mkLoanScenarioAnalyzer 1200 12 (1 # 4) 1200 12 (1 # 4))
      [LoanManager.mkScenario (Some 6) None None None (Some 10)]
    = Ok [current; row]
    /\ 0 < LoanManager.Monthly_Savings row
    /\ exists m, LoanManager.Breakeven_Months row = LoanManager.Months m.
Proof.
  do 2 eexists. split; [vm_compute; reflexivity|].
  destruct (lower_rates_give_savings (fun _ _ => 0)
              (LoanManager.mkLoanScenarioAnalyzer 1200 12 (1 # 4) 1200 12 (1 # 4))
              [LoanManager.mkScenario (Some 6) None None None (Some 10)] _
              eq_refl eq_refl eq_refl eq_refl eq_refl eq_refl
              ltac:(vm_compute; reflexivity))
    as (current & rest & E & F).
  injection E as <- <-.
  inversion F as [|? ? ? ? K _]; subst.
  refine (K eq_refl eq_refl (conj _ eq_refl) Logic.I (or_introl _));
    discriminate.
Defined.

(** X14: [scenario_analysis] fails as a whole: one scenario whose
    'apt_term' or 'inv_term' is 0 makes the call raise, whatever the
    current loans and the other scenarios are, and no row is returned. *)
Theorem scenario_analysis_fails_whole (fpow : Q -> Q -> Q)
    (self : LoanManager.LoanScenarioAnalyzer)
    (scenarios : list LoanManager.Scenario)
    (scenario : LoanManager.Scenario) (term : Q) :
  In scenario scenarios ->
  LoanManager.apt_term scenario = Some term
  \/ LoanManager.inv_term scenario = Some term ->
  term == 0 ->
  is_ok (LoanManager.scenario_analysis fpow self scenarios) = false.
Proof.
  intros Hin Hterm Hz.
  destruct (LoanManager.scenario_analysis fpow self scenarios) as [rows|e] eqn:H;
    [|reflexivity].
  exfalso.
  destruct (scenario_analysis_parts _ _ _ _ H)
    as (apt & inv & rest & _ & _ & Hr & _).
  destruct (In_nth_error _ _ Hin) as [i Hi].
  destruct (proj2 (scenario_rows_nth _ _ _ _ _ _ Hr) i scenario Hi)
    as (row & _ & Hrow).
  destruct (scenario_row_columns _ _ _ _ _ _ Hrow) as (P1 & P2 & _).
  destruct Hterm as [T|T]; rewrite T in *; simpl in *.
  - rewrite manager_payment_no_term in P1 by exact Hz. discriminate.
  - rewrite manager_payment_no_term in P2 by exact Hz. discriminate.
Qed.

Lemma scenario_analysis_fails_whole_witness :
  is_ok (LoanManager.scenario_analysis (fun _ _ => 0) two_small_loans
           [longer_apartment_term;
            LoanManager.mkScenario None None (Some 0) None None])
  = false.
Proof.
  apply (scenario_analysis_fails_whole (fun _ _ => 0) two_small_loans
           [longer_apartment_term;
            LoanManager.mkScenario None None (Some 0) None None]
           (LoanManager.mkScenario None None (Some 0) None None) 0).
  - right. left. reflexivity.
  - left. reflexivity.
  - reflexivity.
Defined.

(** ** The date labels of [LoanAnalyzer]'s schedule *)

Lemma add_months_zero (d : Datetime.datetime) :
  (1 <= Datetime.month d <= 12)%Z -> add_months d 0 = d.
Proof.
  intros Hm. destruct d as [y m dd]. unfold add_months. simpl in *.
  rewrite Z.add_0_r.
  rewrite (Z.div_small (m - 1) 12), (Z.mod_small (m - 1) 12) by lia.
  f_equal; lia.
Qed.

Lemma add_months_add (d : Datetime.datetime) (a b : Z) :
  add_months (add_months d a) b = add_months d (a + b).
Proof.
  destruct d as [y m dd]. unfold add_months. simpl.
  f_equal.
  - pose proof (Z.div_mod (m - 1 + a) 12 ltac:(lia)) as E.
    replace ((m - 1 + a) mod 12 + 1 - 1 + b)%Z
      with ((m - 1 + a) mod 12 + b)%Z by lia.
    replace (m - 1 + (a + b))%Z
      with ((m - 1 + a) / 12 * 12 + ((m - 1 + a) mod 12 + b))%Z by lia.
    rewrite Z.div_add_l by lia. lia.
  - pose proof (Z.div_mod (m - 1 + a) 12 ltac:(lia)) as E.
    replace ((m - 1 + a) mod 12 + 1 - 1 + b)%Z
      with ((m - 1 + a) mod 12 + b)%Z by lia.
    replace (m - 1 + (a + b))%Z
      with (((m - 1 + a) mod 12 + b) + (m - 1 + a) / 12 * 12)%Z by lia.
    rewrite Z.mod_add by lia. reflexivity.
Qed.

Lemma next_month_add (d d' : Datetime.datetime) :
  LoanApp.next_month d = Ok d' -> d' = add_months d 1.
Proof.
  destruct d as [y m dd]. unfold LoanApp.next_month, Datetime.replace. simpl.
  destruct (m =? 12)%Z eqn:E.
  - apply Z.eqb_eq in E. subst m.
    destruct (Datetime.valid _ _ _); [|discriminate].
    intros [= <-]. reflexivity.
  - apply Z.eqb_neq in E.
    destruct (Datetime.valid y (m + 1) dd) eqn:V; [|discriminate].
    intros [= <-]. unfold Datetime.valid in V.
    repeat (apply andb_prop in V; destruct V as [V ?]).
    unfold add_months. simpl.
    assert (0 <= m <= 11)%Z by lia.
    replace (m - 1 + 1)%Z with m by lia.
    rewrite (Z.div_small m 12), (Z.mod_small m 12) by lia.
    f_equal. lia.
Qed.

Lemma app_loop_dates (self : LoanApp.LoanAnalyzer) (payment : Q)
    (todo : list Z) (balance cumulative : Q) (date : Datetime.datetime)
    (rows : list LoanApp.Row) :
  LoanApp.schedule_loop self payment todo balance cumulative date = Ok rows ->
  forall i row,
    nth_error rows i = Some row ->
    LoanApp.Date row
    = Datetime.strftime
        (match i with O => date | S _ => add_months date (Z.of_nat i) end).
Proof.
  revert balance cumulative date rows.
  induction todo as [|n todo IH]; intros balance cumulative date rows; simpl.
  - intros [= <-] [|i] row; discriminate.
  - destruct (LoanApp.next_month date) as [date'|e] eqn:N; simpl; [|discriminate].
    pose proof (next_month_add _ _ N) as D.
    assert (Step : forall rest,
               (forall i row,
                  nth_error rest i = Some row ->
                  LoanApp.Date row
                  = Datetime.strftime
                      (match i with
                       | O => date'
                       | S _ => add_months date' (Z.of_nat i)
                       end)) ->
               forall i row,
                 nth_error rest i = Some row ->
                 LoanApp.Date row
                 = Datetime.strftime (add_months date (Z.of_nat (S i)))).
    { intros rest Hrest i row Hrow. rewrite (Hrest i row Hrow).
      f_equal. destruct i as [|i].
      - exact D.
      - rewrite D, add_months_add. f_equal. lia. }
    destruct (Qle_bool _ 0); simpl.
    + intros [= <-] [|i] row; simpl.
      * intros [= <-]. reflexivity.
      * destruct i; discriminate.
    + destruct (LoanApp.schedule_loop _ _ _ _ _ _) as [rest|e] eqn:E; simpl;
        [|discriminate].
      intros [= <-] [|i] row.
      * intros [= <-]. reflexivity.
      * intros Hrow. exact (Step rest (IH _ _ _ _ E) i row Hrow).
Qed.

(** X15: the records of [LoanAnalyzer]'s schedule are labelled month by
    month from the start date (the given one, or the clock's date): the
    record at position i (from 0) carries the date i calendar months
    after the start, same day of the month, the year going up after each
    December. *)
Theorem date_labels_advance_monthly (now : Datetime.datetime)
    (self : LoanApp.LoanAnalyzer) (start_date : option Datetime.datetime)
    (rows : list LoanApp.Row) :
  let start := match start_date with None => now | Some d => d end in
  (1 <= Datetime.month start <= 12)%Z ->
  LoanApp.create_amortization_schedule now self start_date = Ok rows ->
  forall i row,
    nth_error rows i = Some row ->
    LoanApp.Date row = Datetime.strftime (add_months start (Z.of_nat i)).
Proof.
  intros start Hm Hrows i row Hrow.
  unfold LoanApp.create_amortization_schedule in Hrows.
  destruct (LoanApp.calculate_monthly_payment self) as [payment|e];
    [|discriminate].
  simpl in Hrows.
  rewrite (app_loop_dates _ _ _ _ _ _ _ Hrows i row Hrow).
  destruct i as [|i]; [|reflexivity].
  fold start. now rewrite add_months_zero.
Qed.

Lemma date_labels_advance_monthly_witness :
  exists rows,
    LoanApp.create_amortization_schedule (Datetime.mk 2024 11 15)
      (LoanApp.init 1200 12 (1 # 4)) None = Ok rows
    /\ map LoanApp.Date rows = ["2024-11-15"; "2024-12-15"; "2025-01-15"]%string
    /\ forall row,
         nth_error rows 2 = Some row ->
         LoanApp.Date row
         = Datetime.strftime (add_months (Datetime.mk 2024 11 15) 2).
Proof.
  eexists. split; [vm_compute; reflexivity|]. split; [reflexivity|].
  exact (date_labels_advance_monthly (Datetime.mk 2024 11 15)
           (LoanApp.init 1200 12 (1 # 4)) None _
           ltac:(simpl; lia) ltac:(vm_compute; reflexivity) 2%nat).
Defined.

Lemma next_month_day_missing (d : Datetime.datetime) :
  (1 <= Datetime.month d <= 12)%Z ->
  (Datetime.days_in_month (Datetime.year (add_months d 1))
     (Datetime.month (add_months d 1)) < Datetime.day d)%Z ->
  LoanApp.next_month d = Err ValueError.
Proof.
  destruct d as [y m dd]. unfold add_months, LoanApp.next_month, Datetime.replace.
  simpl. intros Hm Hd.
  replace (m - 1 + 1)%Z with m in Hd by lia.
  destruct (m =? 12)%Z eqn:E.
  - apply Z.eqb_eq in E. subst m. change (12 / 12)%Z with 1%Z in Hd.
    change (12 mod 12 + 1)%Z with 1%Z in Hd.
    unfold Datetime.valid. rewrite (proj2 (Z.leb_gt _ _) Hd).
    now rewrite !andb_false_r.
  - apply Z.eqb_neq in E.
    rewrite (Z.div_small m 12), (Z.mod_small m 12), Z.add_0_r in Hd by lia.
    unfold Datetime.valid. rewrite (proj2 (Z.leb_gt _ _) Hd).
    now rewrite !andb_false_r.
Qed.

Lemma range_cons (lo hi : Z) :
  (lo < hi)%Z -> Py.range lo hi = lo :: Py.range (lo + 1) hi.
Proof.
  intros H. unfold Py.range.
  replace (Z.to_nat (hi - lo)) with (S (Z.to_nat (hi - (lo + 1)))) by lia.
  cbn [seq map]. f_equal; [lia|].
  rewrite <- seq_shift, map_map. apply map_ext. intros i. lia.
Qed.

(** X16: when the day of the start date does not exist in the following
    month (a 31st before a 30-day month, a 29th to 31st of January before
    a shorter February), [LoanAnalyzer.create_amortization_schedule]
    raises ValueError for every loan that has a payment and at least one
    period, and returns no record: the first "move to next month" fails. *)
Theorem schedule_raises_when_day_missing (now : Datetime.datetime)
    (self : LoanApp.LoanAnalyzer) (start_date : option Datetime.datetime) :
  let start := match start_date with None => now | Some d => d end in
  is_ok (LoanApp.calculate_monthly_payment self) = true ->
  (1 <= LoanApp.num_payments self)%Z ->
  (1 <= Datetime.month start <= 12)%Z ->
  (Datetime.days_in_month (Datetime.year (add_months start 1))
     (Datetime.month (add_months start 1)) < Datetime.day start)%Z ->
  raises (LoanApp.create_amortization_schedule now self start_date) ValueError.
Proof.
  intros start Hpay Hn Hm Hd.
  unfold LoanApp.create_amortization_schedule.
  destruct (LoanApp.calculate_monthly_payment self) as [payment|e];
    [|discriminate].
  simpl. rewrite range_cons by lia. simpl.
  fold start. rewrite (next_month_day_missing start Hm Hd). reflexivity.
Qed.

Lemma schedule_raises_when_day_missing_witness :
  raises (LoanApp.create_amortization_schedule (Datetime.mk 2025 1 31)
            (LoanApp.init 120000 6 1) None) ValueError
  /\ raises (LoanApp.create_amortization_schedule (Datetime.mk 2025 1 15)
               (LoanApp.init 120000 6 1)
               (Some (Datetime.mk 2024 8 31))) ValueError.
Proof.
  split.
  - apply (schedule_raises_when_day_missing (Datetime.mk 2025 1 31)
             (LoanApp.init 120000 6 1) None);
      [vm_compute; reflexivity | vm_compute; discriminate
       | simpl; lia | vm_compute; reflexivity].
  - apply (schedule_raises_when_day_missing (Datetime.mk 2025 1 15)
             (LoanApp.init 120000 6 1)
             (Some (Datetime.mk 2024 8 31)));
      [vm_compute; reflexivity | vm_compute; discriminate
       | simpl; lia | vm_compute; reflexivity].
Defined.

(** ** The dashboard's figures *)

Lemma portfolio_overview_parts
    (apt_principal apt_rate apt_term inv_principal inv_rate inv_term : Q)
    (o : Dashboard.Overview) :
  Dashboard.portfolio_overview apt_principal apt_rate apt_term
    inv_principal inv_rate inv_term = Ok o ->
  exists apt_payment inv_payment,
    LoanApp.calculate_monthly_payment
      (LoanApp.init apt_principal apt_rate apt_term) = Ok apt_payment
    /\ LoanApp.calculate_monthly_payment
         (LoanApp.init inv_principal inv_rate inv_term) = Ok inv_payment
    /\ ~ apt_principal + inv_principal == 0
    /\ o = Dashboard.mkOverview (apt_principal + inv_principal)
             (apt_payment + inv_payment)
             ((apt_principal * apt_rate + inv_principal * inv_rate)
              / (apt_principal + inv_principal))
             ((apt_payment * apt_term * 12 - apt_principal)
              + (inv_payment * inv_term * 12 - inv_principal)).
Proof.
  unfold Dashboard.portfolio_overview.
  destruct (LoanApp.calculate_monthly_payment
              (LoanApp.init apt_principal apt_rate apt_term)) as [pa|e]; simpl;
    [|discriminate].
  destruct (LoanApp.calculate_monthly_payment
              (LoanApp.init inv_principal inv_rate inv_term)) as [pi|e]; simpl;
    [|discriminate].
  unfold Py.truediv.
  destruct (Qeq_bool (apt_principal + inv_principal) 0) eqn:E; simpl;
    [discriminate|].
  intros [= <-]. exists pa, pi. apply Qeq_bool_neq in E. auto.
Qed.

(** X17: the dashboard's weighted average rate lies between the two
    loans' rates when both principals are positive; when the two
    principals add up to 0 the overview raises ZeroDivisionError. *)
Theorem weighted_rate_between
    (apt_principal apt_rate apt_term inv_principal inv_rate inv_term : Q) :
  (apt_principal + inv_principal == 0 ->
   raises (Dashboard.portfolio_overview apt_principal apt_rate apt_term
             inv_principal inv_rate inv_term) ZeroDivisionError)
  /\ (0 < apt_principal -> 0 < inv_principal ->
      forall o,
        Dashboard.portfolio_overview apt_principal apt_rate apt_term
          inv_principal inv_rate inv_term = Ok o ->
        (apt_rate <= inv_rate ->
         apt_rate <= Dashboard.weighted_rate o
         /\ Dashboard.weighted_rate o <= inv_rate)
        /\ (inv_rate <= apt_rate ->
            inv_rate <= Dashboard.weighted_rate o
            /\ Dashboard.weighted_rate o <= apt_rate)).
Proof.
  split.
  - intros Z0. unfold Dashboard.portfolio_overview.
    destruct (LoanApp.calculate_monthly_payment
                (LoanApp.init apt_principal apt_rate apt_term)) as [pa|e] eqn:Ea;
      simpl.
    + destruct (LoanApp.calculate_monthly_payment
                  (LoanApp.init inv_principal inv_rate inv_term))
        as [pi|e] eqn:Ei; simpl.
      * rewrite (truediv_zero _ _ Z0). reflexivity.
      * apply (app_payment_error (LoanApp.init inv_principal inv_rate inv_term)).
        rewrite Ei. reflexivity.
    + apply (app_payment_error (LoanApp.init apt_principal apt_rate apt_term)).
      rewrite Ea. reflexivity.
  - intros Ha Hi o Ho.
    destruct (portfolio_overview_parts _ _ _ _ _ _ _ Ho)
      as (pa & pi & _ & _ & _ & ->). simpl.
    assert (S : 0 < apt_principal + inv_principal) by lra.
    split; intros Hle; split.
    + apply Qle_shift_div_l; [exact S|].
      assert (inv_principal * apt_rate <= inv_principal * inv_rate)
        by (apply Qmult_le_l; assumption).
      setoid_replace (apt_rate * (apt_principal + inv_principal))
        with (apt_principal * apt_rate + inv_principal * apt_rate) by ring.
      lra.
    + apply Qle_shift_div_r; [exact S|].
      assert (apt_principal * apt_rate <= apt_principal * inv_rate)
        by (apply Qmult_le_l; assumption).
      setoid_replace (inv_rate * (apt_principal + inv_principal))
        with (apt_principal * inv_rate + inv_principal * inv_rate) by ring.
      lra.
    + apply Qle_shift_div_l; [exact S|].
      assert (apt_principal * inv_rate <= apt_principal * apt_rate)
        by (apply Qmult_le_l; assumption).
      setoid_replace (inv_rate * (apt_principal + inv_principal))
        with (apt_principal * inv_rate + inv_principal * inv_rate) by ring.
      lra.
    + apply Qle_shift_div_r; [exact S|].
      assert (inv_principal * inv_rate <= inv_principal * apt_rate)
        by (apply Qmult_le_l; assumption).
      setoid_replace (apt_rate * (apt_principal + inv_principal))
        with (apt_principal * apt_rate + inv_principal * apt_rate) by ring.
      lra.
Qed.

Lemma weighted_rate_between_witness :
  raises (Dashboard.portfolio_overview 1200 12 1 (-1200) 6 1) ZeroDivisionError
  /\ exists o,
       Dashboard.portfolio_overview 2400 6 (1 # 4) 1200 12 (1 # 4) = Ok o
       /\ Dashboard.weighted_rate o == 8
       /\ 6 <= Dashboard.weighted_rate o
       /\ Dashboard.weighted_rate o <= 12.
Proof.
  pose proof (weighted_rate_between 1200 12 1 (-1200) 6 1) as [Hz _].
  pose proof (weighted_rate_between 2400 6 (1 # 4) 1200 12 (1 # 4)) as [_ Hb].
  split; [exact (Hz eq_refl)|].
  eexists. split; [vm_compute; reflexivity|]. split; [reflexivity|].
  exact (proj1 (Hb eq_refl eq_refl _ ltac:(vm_compute; reflexivity))
           ltac:(discriminate)).
Defined.

Lemma app_interest_total (now : Datetime.datetime)
    (principal annual_rate term_years payment : Q)
    (start_date : option Datetime.datetime) (rows : list LoanApp.Row) :
  Spec.valid_terms principal annual_rate term_years ->
  (1 <= Py.int (term_years * 12))%Z ->
  LoanApp.calculate_monthly_payment
    (LoanApp.init principal annual_rate term_years) = Ok payment ->
  LoanApp.create_amortization_schedule now
    (LoanApp.init principal annual_rate term_years) start_date = Ok rows ->
  sum_Q (map LoanApp.Interest_Payment rows)
  == inject_Z (Py.int (term_years * 12)) * payment - principal.
Proof.
  intros Hv Hn Hpay Hrows.
  destruct (app_amortizing _ _ _ _ _ _ Hv Hn Hrows)
    as (payment' & Hpay' & Hm & _ & R & I & Z0).
  rewrite Hpay in Hpay'. injection Hpay' as <-.
  rewrite (proj2 (full_term_totals app_step _ _ _ _ _ Hm R I Z0)).
  rewrite Z2Nat.id by lia. reflexivity.
Qed.

(** X18: the dashboard's "Total Interest (Life of Loans)",
    payment × term × 12 − principal for each loan, is the interest summed
    over the two schedules plus, for each loan, its payment times the
    fraction of a month that int(term × 12) cuts off; for terms of a whole
    number of months it is exactly the interest of the two schedules. *)
Theorem dashboard_total_interest (now : Datetime.datetime)
    (apt_principal apt_rate apt_term inv_principal inv_rate inv_term : Q)
    (o : Dashboard.Overview) (apt_rows inv_rows : list LoanApp.Row) :
  Spec.valid_terms apt_principal apt_rate apt_term ->
  Spec.valid_terms inv_principal inv_rate inv_term ->
  (1 <= Py.int (apt_term * 12))%Z -> (1 <= Py.int (inv_term * 12))%Z ->
  Dashboard.portfolio_overview apt_principal apt_rate apt_term
    inv_principal inv_rate inv_term = Ok o ->
  LoanApp.create_amortization_schedule now
    (LoanApp.init apt_principal apt_rate apt_term) None = Ok apt_rows ->
  LoanApp.create_amortization_schedule now
    (LoanApp.init inv_principal inv_rate inv_term) None = Ok inv_rows ->
  exists apt_payment inv_payment,
    LoanApp.calculate_monthly_payment
      (LoanApp.init apt_principal apt_rate apt_term) = Ok apt_payment
    /\ LoanApp.calculate_monthly_payment
         (LoanApp.init inv_principal inv_rate inv_term) = Ok inv_payment
    /\ Dashboard.total_interest o
       == sum_Q (map LoanApp.Interest_Payment apt_rows)
          + sum_Q (map LoanApp.Interest_Payment inv_rows)
          + apt_payment * (apt_term * 12 - inject_Z (Py.int (apt_term * 12)))
          + inv_payment * (inv_term * 12 - inject_Z (Py.int (inv_term * 12)))
    /\ (Py.is_whole (apt_term * 12) = true ->
        Py.is_whole (inv_term * 12) = true ->
        Dashboard.total_interest o
        == sum_Q (map LoanApp.Interest_Payment apt_rows)
           + sum_Q (map LoanApp.Interest_Payment inv_rows)).
Proof.
  intros Va Vi Na Ni Ho Ha Hi.
  destruct (portfolio_overview_parts _ _ _ _ _ _ _ Ho)
    as (pa & pi & Ea & Ei & _ & ->).
  exists pa, pi. split; [exact Ea|]. split; [exact Ei|].
  pose proof (app_interest_total _ _ _ _ _ _ _ Va Na Ea Ha) as Sa.
  pose proof (app_interest_total _ _ _ _ _ _ _ Vi Ni Ei Hi) as Si.
  simpl. split.
  - rewrite Sa, Si. ring.
  - intros Wa Wi. rewrite Sa, Si.
    pose proof (whole_eq _ Wa) as Qa. pose proof (whole_eq _ Wi) as Qi.
    rewrite <- (whole_int _ Wa) in Qa. rewrite <- (whole_int _ Wi) in Qi.
    rewrite <- Qa, <- Qi. ring.
Qed.

Lemma dashboard_total_interest_witness :
  exists o apt_rows inv_rows,
    Dashboard.portfolio_overview 2400 6 (1 # 4) 1200 12 (1 # 6) = Ok o
    /\ LoanApp.create_amortization_schedule (Datetime.mk 2024 11 15)
         (LoanApp.init 2400 6 (1 # 4)) None = Ok apt_rows
    /\ LoanApp.create_amortization_schedule (Datetime.mk 2024 11 15)
         (LoanApp.init 1200 12 (1 # 6)) None = Ok inv_rows
    /\ Dashboard.total_interest o
       == sum_Q (map LoanApp.Interest_Payment apt_rows)
          + sum_Q (map LoanApp.Interest_Payment inv_rows).
Proof.
  do 3 eexists.
  split; [vm_compute; reflexivity|].
  split; [vm_compute; reflexivity|].
  split; [vm_compute; reflexivity|].
  destruct (dashboard_total_interest (Datetime.mk 2024 11 15)
              2400 6 (1 # 4) 1200 12 (1 # 6) _ _ _
              ltac:(concrete_terms) ltac:(concrete_terms)
              ltac:(vm_compute; discriminate) ltac:(vm_compute; discriminate)
              ltac:(vm_compute; reflexivity) ltac:(vm_compute; reflexivity)
              ltac:(vm_compute; reflexivity))
    as (pa & pi & _ & _ & _ & W).
  exact (W eq_refl eq_refl).
Defined.

Lemma mediant_between (c1 s1 c2 s2 : Q) :
  0 < s1 -> 0 < s2 -> c1 / s1 <= c2 / s2 ->
  c1 / s1 <= (c1 + c2) / (s1 + s2) /\ (c1 + c2) / (s1 + s2) <= c2 / s2.
Proof.
  intros H1 H2 H.
  assert (X : c1 * s2 <= c2 * s1).
  { apply (Qmult_le_r _ _ (/ (s1 * s2))).
    - apply Qinv_lt_0_compat, Qmult_lt_0_compat; assumption.
    - setoid_replace (c1 * s2 * / (s1 * s2)) with (c1 / s1) by (field; lra).
      setoid_replace (c2 * s1 * / (s1 * s2)) with (c2 / s2) by (field; lra).
      exact H. }
  split.
  - apply Qle_shift_div_l; [lra|].
    setoid_replace (c1 / s1 * (s1 + s2)) with ((c1 * s1 + c1 * s2) / s1)
      by (field; lra).
    apply Qle_shift_div_r; [exact H1|].
    setoid_replace ((c1 + c2) * s1) with (c1 * s1 + c2 * s1) by ring. lra.
  - apply Qle_shift_div_r; [lra|].
    setoid_replace (c2 / s2 * (s1 + s2)) with ((c2 * s1 + c2 * s2) / s2)
      by (field; lra).
    apply Qle_shift_div_l; [exact H2|].
    setoid_replace ((c1 + c2) * s2) with (c1 * s2 + c2 * s2) by ring. lra.
Qed.

(** X19: the dashboard's combined results never fail; the combined
    break-even is total costs / total savings when both totals are
    positive and "N/A" otherwise; and when both loans save money, it
    lies between the two loans' own break-evens (costs / savings). *)
Theorem combined_breakeven_between (apt inv : Dashboard.Outcome) :
  exists c,
    Dashboard.combined_results apt inv = Ok c
    /\ Dashboard.total_savings c = Dashboard.savings apt + Dashboard.savings inv
    /\ Dashboard.total_refi_costs c = Dashboard.costs apt + Dashboard.costs inv
    /\ (Dashboard.combined_breakeven c = Dashboard.NA <->
        ~ (0 < Dashboard.total_savings c /\ 0 < Dashboard.total_refi_costs c))
    /\ (forall m,
          Dashboard.combined_breakeven c = Dashboard.Months m ->
          m == Dashboard.total_refi_costs c / Dashboard.total_savings c)
    /\ (0 < Dashboard.savings apt -> 0 < Dashboard.savings inv ->
        0 < Dashboard.costs apt + Dashboard.costs inv ->
        Dashboard.costs apt / Dashboard.savings apt
        <= Dashboard.costs inv / Dashboard.savings inv ->
        exists m,
          Dashboard.combined_breakeven c = Dashboard.Months m
          /\ Dashboard.costs apt / Dashboard.savings apt <= m
          /\ m <= Dashboard.costs inv / Dashboard.savings inv).
Proof.
  unfold Dashboard.combined_results.
  destruct (Py.gt (Dashboard.savings apt + Dashboard.savings inv) 0) eqn:Gs;
    destruct (Py.gt (Dashboard.costs apt + Dashboard.costs inv) 0) eqn:Gc;
    simpl.
  - pose proof (proj1 (gt_true _ _) Gs) as Hs.
    pose proof (proj1 (gt_true _ _) Gc) as Hc.
    rewrite truediv_ok by lra. simpl. eexists. split; [reflexivity|]. simpl.
    split; [reflexivity|]. split; [reflexivity|]. split; [|split].
    + split; [discriminate | intros N; elim N; split; assumption].
    + intros m [= <-]. reflexivity.
    + intros S1 S2 _ Hle. eexists. split; [reflexivity|].
      apply mediant_between; assumption.
  - pose proof (proj1 (gt_false _ _) Gc) as Hc.
    eexists. split; [reflexivity|]. simpl.
    split; [reflexivity|]. split; [reflexivity|]. split; [|split].
    + split; [intros _ [_ C]; lra | reflexivity].
    + discriminate.
    + intros _ _ C _. lra.
  - pose proof (proj1 (gt_false _ _) Gs) as Hs.
    eexists. split; [reflexivity|]. simpl.
    split; [reflexivity|]. split; [reflexivity|]. split; [|split].
    + split; [intros _ [C _]; lra | reflexivity].
    + discriminate.
    + intros S1 S2 _ _. lra.
  - pose proof (proj1 (gt_false _ _) Gs) as Hs.
    eexists. split; [reflexivity|]. simpl.
    split; [reflexivity|]. split; [reflexivity|]. split; [|split].
    + split; [intros _ [C _]; lra | reflexivity].
    + discriminate.
    + intros S1 S2 _ _. lra.
Qed.

Lemma combined_breakeven_between_witness :
  exists c m,
    Dashboard.combined_results (Dashboard.mkOutcome 2900 501 3000)
      (Dashboard.mkOutcome 1300 100 2000) = Ok c
    /\ Dashboard.combined_breakeven c = Dashboard.Months m
    /\ 3000 / 501 <= m /\ m <= 2000 / 100.
Proof.
  destruct (combined_breakeven_between (Dashboard.mkOutcome 2900 501 3000)
              (Dashboard.mkOutcome 1300 100 2000))
    as (c & E & _ & _ & _ & _ & B).
  destruct (B eq_refl eq_refl eq_refl ltac:(discriminate)) as (m & Hm & L & U).
  exists c, m. auto.
Defined.

Lemma sized_payments_rate_le (principal rate1 rate2 pay1 pay2 : Q) (n : Z) :
  0 < principal -> 0 <= rate1 -> rate1 <= rate2 -> (1 <= n)%Z ->
  (if Qeq_bool rate1 0
   then pay1 == principal / inject_Z n
   else pay1 == principal
                * (Spec.periodic_rate rate1 * (1 + Spec.periodic_rate rate1) ^ n)
                / ((1 + Spec.periodic_rate rate1) ^ n - 1)) ->
  (if Qeq_bool rate2 0
   then pay2 == principal / inject_Z n
   else pay2 == principal
                * (Spec.periodic_rate rate2 * (1 + Spec.periodic_rate rate2) ^ n)
                / ((1 + Spec.periodic_rate rate2) ^ n - 1)) ->
  pay1 <= pay2.
Proof.
  intros Hp H1 H12 Hn S1 S2.
  destruct (Qlt_le_dec rate1 rate2) as [L|G].
  - apply Qlt_le_weak.
    exact (sized_payments_ordered _ _ _ _ _ _ Hp H1 L Hn S1 S2).
  - assert (E : rate1 == rate2) by lra.
    assert (En : Z.of_nat (Z.to_nat n) = n) by lia.
    rewrite <- En in S1, S2.
    assert (Hk : (1 <= Z.to_nat n)%nat) by lia.
    assert (H2 : 0 <= rate2) by lra.
    pose proof (sized_payment_geometric _ _ _ _ H1 Hk S1) as G1.
    pose proof (sized_payment_geometric _ _ _ _ H2 Hk S2) as G2.
    assert (R : Spec.periodic_rate rate1 == Spec.periodic_rate rate2)
      by (unfold Spec.periodic_rate; rewrite E; reflexivity).
    assert (Q12 : 1 + Spec.periodic_rate rate1 == 1 + Spec.periodic_rate rate2)
      by (rewrite R; reflexivity).
    rewrite (geometric_eq _ _ _ Q12), Q12, <- G2 in G1.
    assert (R2 : 0 <= Spec.periodic_rate rate2).
    { unfold Spec.periodic_rate.
      do 2 (apply Qle_shift_div_l; [reflexivity|]). lra. }
    pose proof (geometric_pos (1 + Spec.periodic_rate rate2) (Z.to_nat n)
                  ltac:(lra) ltac:(lia)) as Gp.
    apply Qmult_inj_r in G1;
      [rewrite G1; apply Qle_refl
      | intros Z0; rewrite Z0 in Gp; exact (Qlt_irrefl _ Gp)].
Qed.

Lemma sized_payments_term_le (principal annual_rate pay1 pay2 : Q) (n1 n2 : Z) :
  0 < principal -> 0 <= annual_rate -> (1 <= n1)%Z -> (n1 <= n2)%Z ->
  (if Qeq_bool annual_rate 0
   then pay1 == principal / inject_Z n1
   else pay1 == principal
                * (Spec.periodic_rate annual_rate
                   * (1 + Spec.periodic_rate annual_rate) ^ n1)
                / ((1 + Spec.periodic_rate annual_rate) ^ n1 - 1)) ->
  (if Qeq_bool annual_rate 0
   then pay2 == principal / inject_Z n2
   else pay2 == principal
                * (Spec.periodic_rate annual_rate
                   * (1 + Spec.periodic_rate annual_rate) ^ n2)
                / ((1 + Spec.periodic_rate annual_rate) ^ n2 - 1)) ->
  pay2 <= pay1.
Proof.
  intros Hp Hr H1 H12 S1 S2.
  destruct (Z.eq_dec n1 n2) as [<-|N].
  - destruct (Qeq_bool annual_rate 0); rewrite S1, S2; apply Qle_refl.
  - apply Qlt_le_weak. assert (L : (n1 < n2)%Z) by lia.
    exact (sized_payments_by_term _ _ _ _ _ _ Hp Hr H1 L S1 S2).
Qed.

(** X20: on the dashboard, refinancing a loan of positive principal to
    a rate that is not higher (and >= 0) over a term that has not fewer
    whole months, one of the two strictly, leaves positive monthly
    savings for that loan: the current payment minus the new payment. *)
Theorem refinancing_saves (principal rate term payment : Q)
    (refi : Dashboard.Refi) :
  0 < principal ->
  0 <= Dashboard.new_rate refi -> Dashboard.new_rate refi <= rate ->
  (1 <= Py.int (term * 12))%Z ->
  (Py.int (term * 12) <= Py.int (Dashboard.new_term refi * 12))%Z ->
  Dashboard.new_rate refi < rate
  \/ (Py.int (term * 12) < Py.int (Dashboard.new_term refi * 12))%Z ->
  LoanApp.calculate_monthly_payment (LoanApp.init principal rate term)
  = Ok payment ->
  exists outcome,
    Dashboard.refinance_loan principal payment (Some refi) = Ok outcome
    /\ Dashboard.costs outcome = Dashboard.refi_costs refi
    /\ Dashboard.savings outcome = payment - Dashboard.new_payment outcome
    /\ 0 < Dashboard.savings outcome.
Proof.
  intros Hp R0 R1 N1 N12 Strict Hpay.
  destruct refi as [new_rate new_term costs]. simpl in *.
  assert (Rr : 0 <= rate) by lra.
  assert (N2 : (1 <= Py.int (new_term * 12))%Z) by lia.
  destruct (app_payment_sized principal rate term Rr N1) as (pay & E & S).
  rewrite Hpay in E. injection E as <-.
  destruct (app_payment_sized principal rate new_term Rr N2)
    as (mid & _ & Smid).
  destruct (app_payment_sized principal new_rate new_term R0 N2)
    as (new_payment & Enew & Snew).
  rewrite Enew. simpl. eexists. split; [reflexivity|]. simpl.
  split; [reflexivity|]. split; [reflexivity|].
  pose proof (sized_payments_term_le _ _ _ _ _ _ Hp Rr N1 N12 S Smid) as T.
  pose proof (sized_payments_rate_le _ _ _ _ _ _ Hp R0 R1 N2 Snew Smid) as Rle.
  destruct Strict as [L|L].
  - pose proof (sized_payments_ordered _ _ _ _ _ _ Hp R0 L N2 Snew Smid).
    lra.
  - pose proof (sized_payments_by_term _ _ _ _ _ _ Hp Rr N1 L S Smid).
    lra.
Qed.

Lemma refinancing_saves_witness :
  exists payment outcome,
    LoanApp.calculate_monthly_payment (LoanApp.init 555000 (549 # 100) 27)
    = Ok payment
    /\ Dashboard.refinance_loan 555000 payment
         (Some (Dashboard.mkRefi (499 # 100) 27 3000)) = Ok outcome
    /\ 0 < Dashboard.savings outcome.
Proof.
  assert (R : 0 <= 549 # 100) by discriminate.
  assert (N : (1 <= Py.int (27 * 12))%Z) by (vm_compute; discriminate).
  destruct (app_payment_sized 555000 (549 # 100) 27 R N) as (payment & E & _).
  destruct (refinancing_saves 555000 (549 # 100) 27 payment
              (Dashboard.mkRefi (499 # 100) 27 3000)
              eq_refl ltac:(discriminate) ltac:(discriminate)
              ltac:(vm_compute; discriminate) ltac:(vm_compute; discriminate)
              (or_introl eq_refl) E) as (outcome & O & _ & _ & S).
  exists payment, outcome. auto.
Defined.

(** ** What the schedule tabs and sheets show *)

Lemma app_schedule_numbers (now : Datetime.datetime)
    (principal annual_rate term_years : Q)
    (start_date : option Datetime.datetime) (rows : list LoanApp.Row) :
  LoanApp.create_amortization_schedule now
    (LoanApp.init principal annual_rate term_years) start_date = Ok rows ->
  map LoanApp.Payment_Number rows
  = Py.range 1 (Z.of_nat (List.length rows) + 1).
Proof.
  intros Hrows.
  destruct (app_schedule_core _ _ _ _ _ _ Hrows) as (payment & Hpay & Hm & _).
  assert (L : (List.length rows <= Z.to_nat (Py.int (term_years * 12)))%nat).
  { rewrite <- (length_map app_step), Hm. apply amortize_length. }
  unfold LoanApp.create_amortization_schedule in Hrows.
  rewrite Hpay in Hrows. simpl in Hrows.
  rewrite (app_loop_numbers _ _ _ _ _ _ _ Hrows), firstn_range by lia.
  f_equal. lia.
Qed.

Lemma manager_schedule_numbers (fpow : Q -> Q -> Q)
    (principal annual_rate term_years : Q) (start_month : Z)
    (rows : list LoanManager.Row) :
  LoanManager.create_amortization_schedule fpow principal annual_rate
    term_years start_month = Ok rows ->
  map LoanManager.Payment rows = Py.range 1 (Z.of_nat (List.length rows) + 1).
Proof.
  intros Hrows.
  destruct (manager_schedule_core _ _ _ _ _ _ Hrows) as (payment & Hpay & Hm & _).
  assert (L : (List.length rows <= Z.to_nat (Py.int (term_years * 12)))%nat).
  { rewrite <- (length_map manager_step), Hm. apply amortize_length. }
  unfold LoanManager.create_amortization_schedule in Hrows.
  rewrite Hpay in Hrows. simpl in Hrows. injection Hrows as <-.
  rewrite manager_loop_numbers, firstn_range by lia.
  rewrite Z.add_0_l. apply range_shift.
Qed.

Lemma map_filter_through {A B : Type} (f : A -> B) (p : B -> bool) (l : list A) :
  map f (filter (fun x => p (f x)) l) = filter p (map f l).
Proof.
  induction l as [|x l IH]; [reflexivity|]. simpl.
  destruct (p (f x)); simpl; now rewrite IH.
Qed.

Lemma range_snoc (lo : Z) (k : nat) :
  Py.range lo (lo + Z.of_nat (S k))
  = Py.range lo (lo + Z.of_nat k) ++ [(lo + Z.of_nat k)%Z].
Proof.
  unfold Py.range.
  replace (Z.to_nat (lo + Z.of_nat (S k) - lo)) with (S k) by lia.
  replace (Z.to_nat (lo + Z.of_nat k - lo)) with k by lia.
  rewrite seq_S, map_app. reflexivity.
Qed.

(** The multiples of 12 among 1..L. *)
Lemma multiples_of_12 (L : nat) :
  filter (fun n => (n mod 12 =? 0)%Z) (Py.range 1 (Z.of_nat L + 1))
  = map (fun k => (12 * k)%Z) (Py.range 1 (Z.of_nat L / 12 + 1)).
Proof.
  induction L as [|L IH]; [reflexivity|].
  replace (Z.of_nat (S L) + 1)%Z with (1 + Z.of_nat (S L))%Z by lia.
  rewrite range_snoc, filter_app.
  replace (1 + Z.of_nat L)%Z with (Z.of_nat L + 1)%Z by lia.
  rewrite IH. cbn [filter].
  pose proof (Z.div_mod (Z.of_nat L) 12 ltac:(lia)) as E1.
  pose proof (Z.mod_pos_bound (Z.of_nat L) 12 ltac:(lia)) as B1.
  pose proof (Z.div_mod (Z.of_nat L + 1) 12 ltac:(lia)) as E2.
  pose proof (Z.mod_pos_bound (Z.of_nat L + 1) 12 ltac:(lia)) as B2.
  assert (D0 : (0 <= Z.of_nat L / 12)%Z) by (apply Z.div_pos; lia).
  replace (Z.of_nat (S L)) with (Z.of_nat L + 1)%Z by lia.
  destruct ((Z.of_nat L + 1) mod 12 =? 0)%Z eqn:M.
  - apply Z.eqb_eq in M.
    assert (D : ((Z.of_nat L + 1) / 12 = Z.of_nat L / 12 + 1)%Z) by lia.
    rewrite D.
    replace (Z.of_nat L / 12 + 1 + 1)%Z
      with (1 + Z.of_nat (S (Z.to_nat (Z.of_nat L / 12))))%Z by lia.
    rewrite range_snoc, map_app. cbn [map].
    replace (1 + Z.of_nat (Z.to_nat (Z.of_nat L / 12)))%Z
      with (Z.of_nat L / 12 + 1)%Z by lia.
    do 2 f_equal. lia.
  - apply Z.eqb_neq in M.
    assert (D : ((Z.of_nat L + 1) / 12 = Z.of_nat L / 12)%Z) by lia.
    rewrite D, app_nil_r. reflexivity.
Qed.

Lemma firstn_10_range (q : Z) :
  firstn 10 (Py.range 1 (q + 1)) = Py.range 1 (Z.min 10 q + 1).
Proof.
  destruct (Z_le_gt_dec 10 q) as [H|H].
  - rewrite firstn_range by lia. f_equal. lia.
  - rewrite firstn_all2 by (rewrite length_range; lia). f_equal. lia.
Qed.

(** X21: for a schedule [LoanAnalyzer] returned with at least one record,
    the "Year-End Summaries" are the records numbered 12, 24, ..., one per
    completed year of the schedule, and at most the first ten of them; a
    schedule without records makes the lookup fail. *)
Theorem year_end_summaries (now : Datetime.datetime)
    (principal annual_rate term_years : Q)
    (start_date : option Datetime.datetime) (rows : list LoanApp.Row) :
  LoanApp.create_amortization_schedule now
    (LoanApp.init principal annual_rate term_years) start_date = Ok rows ->
  match rows with
  | [] => Dashboard.yearly_data rows = None
  | _ =>
      exists yearly,
        Dashboard.yearly_data rows = Some yearly
        /\ map LoanApp.Payment_Number yearly
           = map (fun k => (12 * k)%Z)
               (Py.range 1 (Z.min 10 (Z.of_nat (List.length rows) / 12) + 1))
  end.
Proof.
  intros Hrows. pose proof (app_schedule_numbers _ _ _ _ _ _ Hrows) as N.
  destruct rows as [|row rows]; [reflexivity|].
  eexists. split; [reflexivity|].
  rewrite <- firstn_map.
  rewrite (map_filter_through LoanApp.Payment_Number
             (fun n => (n mod 12 =? 0)%Z)), N, multiples_of_12.
  rewrite firstn_map, firstn_10_range. reflexivity.
Qed.

Lemma year_end_summaries_witness :
  exists rows yearly,
    LoanApp.create_amortization_schedule (Datetime.mk 2024 11 15)
      (LoanApp.init 1200 0 (5 # 2)) None = Ok rows
    /\ Dashboard.yearly_data rows = Some yearly
    /\ map LoanApp.Payment_Number yearly = [12; 24]%Z.
Proof.
  assert (V : Spec.valid_terms 1200 0 (5 # 2)) by concrete_terms.
  assert (N : (1 <= Py.int ((5 # 2) * 12))%Z) by (vm_compute; discriminate).
  destruct (app_payment_sized 1200 0 (5 # 2) (proj1 (proj2 V)) N)
    as (payment & E & _).
  destruct (app_schedule_returns (Datetime.mk 2024 11 15)
              (LoanApp.init 1200 0 (5 # 2)) None payment E
              ltac:(unfold steps_stay_valid; simpl; lia)) as [rows Hrows].
  destruct (app_amortizing _ _ _ _ _ _ V N Hrows)
    as (payment' & _ & Hm & _ & R & I & Z0).
  pose proof (amortize_exact_length _ _ _ _ R I Z0) as L.
  rewrite <- Hm, length_map in L.
  pose proof (year_end_summaries (Datetime.mk 2024 11 15) 1200 0 (5 # 2) None
                rows Hrows) as Y.
  destruct rows as [|row rows]; [discriminate L|].
  destruct Y as (yearly & Y1 & Y2). rewrite L in Y2.
  exists (row :: rows), yearly. split; [exact Hrows|]. split; [exact Y1 | exact Y2].
Defined.

Lemma combine_map_self {A B : Type} (g : A -> B) (l : list A) :
  combine (map g l) l = map (fun x => (g x, x)) l.
Proof. induction l as [|x l IH]; [reflexivity|]. simpl. now rewrite IH. Qed.

Lemma map_fst_combine_same {A B : Type} (a : list A) (b : list B) :
  List.length a = List.length b -> map fst (combine a b) = a.
Proof.
  revert b. induction a as [|x a IH]; intros [|y b] H; try discriminate.
  - reflexivity.
  - simpl. f_equal. apply IH. now injection H.
Qed.

Lemma map_snd_combine_same {A B : Type} (a : list A) (b : list B) :
  List.length a = List.length b -> map snd (combine a b) = b.
Proof.
  revert b. induction a as [|x a IH]; intros [|y b] H; try discriminate.
  - reflexivity.
  - simpl. f_equal. apply IH. now injection H.
Qed.

(** In a frame whose payment numbers run from 1, the index [iterrows]
    gives to a record is its payment number less one. *)
Lemma iterrows_numbered {A : Type} (f : A -> Z) (l : list A) :
  map f l = Py.range 1 (Z.of_nat (List.length l) + 1) ->
  Workbook.iterrows l = map (fun x => ((f x - 1)%Z, x)) l.
Proof.
  intros N. unfold Workbook.iterrows.
  rewrite <- (combine_map_self (fun x => (f x - 1)%Z)).
  f_equal. rewrite <- (map_map f (fun k => (k - 1)%Z)), N.
  unfold Py.range. rewrite map_map.
  replace (Z.to_nat (Z.of_nat (List.length l) + 1 - 1))
    with (Z.to_nat (Z.of_nat (List.length l) - 0)) by lia.
  apply map_ext. intros i. lia.
Qed.

(** X22: on the investment sheet of the workbook, the payments written
    are those of the schedule numbered at most 24 or a multiple of 12, in
    the schedule's order; they fill consecutive sheet rows from row 6, and
    the note is put two rows below the last of them. *)
Theorem investment_sheet_rows (fpow : Q -> Q -> Q)
    (principal annual_rate term_years : Q) (start_month : Z)
    (rows : list LoanManager.Row) :
  LoanManager.create_amortization_schedule fpow principal annual_rate
    term_years start_month = Ok rows ->
  map snd (Workbook.written_rows rows)
  = filter (fun k => (k <=? 24)%Z || (k mod 12 =? 0)%Z)
      (Py.range 1 (Z.of_nat (List.length rows) + 1))
  /\ map fst (Workbook.written_rows rows)
     = Py.range 6 (Workbook.note_row rows - 2).
Proof.
  intros Hrows. pose proof (manager_schedule_numbers _ _ _ _ _ _ Hrows) as N.
  unfold Workbook.written_rows, Workbook.note_row, Workbook.enumerate.
  set (shown := Workbook.display_rows rows).
  assert (L : List.length (Py.range 0 (Z.of_nat (List.length shown)))
              = List.length shown) by (rewrite length_range; lia).
  split.
  - rewrite map_map.
    rewrite (map_ext _ (fun p => LoanManager.Payment (snd (snd p))))
      by (intros [d [o row]]; reflexivity).
    rewrite <- (map_map snd (fun p => LoanManager.Payment (snd p))).
    rewrite (map_snd_combine_same _ _ L).
    unfold shown, Workbook.display_rows.
    rewrite (iterrows_numbered LoanManager.Payment rows N).
    rewrite <- (map_filter_through
                  (fun x => ((LoanManager.Payment x - 1)%Z, x))
                  (fun '(idx, row) =>
                     (idx <? 24)%Z || ((idx + 1) mod 12 =? 0)%Z)).
    rewrite map_map. cbn [snd].
    rewrite (filter_ext _
               (fun x => (fun k => (k <=? 24)%Z || (k mod 12 =? 0)%Z)
                           (LoanManager.Payment x))).
    + rewrite <- N.
      exact (map_filter_through LoanManager.Payment
               (fun k => (k <=? 24)%Z || (k mod 12 =? 0)%Z) rows).
    + intros x. f_equal.
      * apply eq_true_iff_eq. rewrite Z.ltb_lt, Z.leb_le. lia.
      * f_equal. f_equal. lia.
  - rewrite map_map.
    rewrite (map_ext _ (fun p => (fst p + 6)%Z))
      by (intros [d [o row]]; reflexivity).
    rewrite <- (map_map fst (fun d => (d + 6)%Z)).
    rewrite (map_fst_combine_same _ _ L).
    unfold Py.range. rewrite map_map.
    replace (Z.to_nat (Z.of_nat (List.length shown) + 8 - 2 - 6))
      with (Z.to_nat (Z.of_nat (List.length shown) - 0)) by lia.
    apply map_ext. intros i. lia.
Qed.

Lemma investment_sheet_rows_witness :
  exists rows,
    LoanManager.create_amortization_schedule (fun _ _ => 0) 1200 12 (1 # 4) 1
    = Ok rows
    /\ map snd (Workbook.written_rows rows) = [1; 2; 3]%Z
    /\ map fst (Workbook.written_rows rows) = [6; 7; 8]%Z.
Proof.
  eexists. split; [vm_compute; reflexivity|].
  pose proof (investment_sheet_rows (fun _ _ => 0) 1200 12 (1 # 4) 1 _
                ltac:(vm_compute; reflexivity)) as [S1 S2].
  split; [rewrite S1 | rewrite S2]; vm_compute; reflexivity.
Defined.
